(** * ShellPM / PMlib measurement engine: a shallow embedding

    The development follows [src_pmlib/PerfWatch.cpp], [PerfMonitor.cpp]
    and [PerfRecord.cpp].  C++ [double] is IEEE binary64, embedded as
    Rocq's primitive [float]; [int], [long] and [long long] are [Z];
    [std::map<std::string,int>] is a [gmap string Z].

    Build flags.  The embedding follows a build without [USE_OTF] and
    [USE_POWER]; [_OPENMP] and [USE_PAPI] are kept as the two booleans of
    [BuildConfig], because the code under study changes with them. *)

From Stdlib Require Import ZArith List Floats Lia Bool.
From stdpp Require Import gmap strings list sorting.

Local Open Scope Z_scope.

(** ** Machine numbers *)

Abbreviation double := float.

Definition LONG_MAX : Z := 2 ^ 63 - 1.
Definition LONG_MIN : Z := - 2 ^ 63.

(** Two's-complement wrap-around of a 64-bit signed value ([long] and
    [long long] on the LP64 platforms PMlib targets). *)
Definition wrap_long (z : Z) : Z := (z + 2 ^ 63) mod 2 ^ 64 - 2 ^ 63.

(** [(double)n] for an integer [n]: round to nearest, ties to even. *)
Definition double_of_Z (n : Z) : double :=
  SF2Prim (binary_normalize prec emax n 0 false).

(** [lround]: nearest integer, halfway cases away from zero.  The C
    library leaves the result unspecified for NaN, infinities and values
    outside [long]; the embedding returns [0] for the first two and the
    unbounded integer otherwise. *)
Definition lround (x : double) : Z :=
  match Prim2SF x with
  | S754_finite s m e =>
      let mag := if 0 <=? e then Z.pos m * 2 ^ e
                 else (Z.pos m + 2 ^ (- e - 1)) / 2 ^ (- e) in
      if s then - mag else mag
  | _ => 0
  end.

(** Conversion [double -> long long]: truncation toward zero. *)
Definition trunc_double (x : double) : Z :=
  match Prim2SF x with
  | S754_finite s m e =>
      let mag := if 0 <=? e then Z.pos m * 2 ^ e else Z.pos m / 2 ^ (- e) in
      if s then - mag else mag
  | _ => 0
  end.

(** [for (int i = 0; i < n; i++) body(i)], threading a state. *)
Definition for_loop {S : Type} (n : Z) (body : nat -> S -> S) (s : S) : S :=
  fold_left (fun acc i => body i acc) (seq 0 (Z.to_nat n)) s.

(** Fixed-size C arrays are total functions of their indices; the bounds
    [Max_nthreads] and [Max_chooser_events] live in an absent header. *)
Definition upd1 {V} (a : nat -> V) (i : nat) (v : V) : nat -> V :=
  fun i' => if Nat.eqb i' i then v else a i'.
Definition upd2 {V} (a : nat -> nat -> V) (j i : nat) (v : V) : nat -> nat -> V :=
  fun j' i' => if Nat.eqb j' j && Nat.eqb i' i then v else a j' i'.

(** ** Build configuration and process-wide HWPC state *)

Record BuildConfig := {
  USE_PAPI : bool;      (* #ifdef USE_PAPI *)
  OPENMP : bool         (* #ifdef _OPENMP *)
}.

(** Indices of [hwpc_group.number[]] (their numeric values are in an
    absent header; only the names are used). *)
Inductive hwpc_index :=
  I_bandwidth | I_flops | I_vector | I_cache | I_cycle | I_loadstore.

Record hwpc_group_chooser := {
  number : hwpc_index -> Z;
  i_platform : Z
}.

(** [struct pmlib_papi_chooser], the members the measurement engine
    touches.  The counters are [long long] (they are filled by
    [my_papi_bind_read (long long*, int)] and written with [%lld]); the
    sorted vectors are [double]. *)
Record pmlib_papi_chooser := {
  num_events : Z;
  accumu : nat -> Z;
  v_sorted : nat -> double;
  th_values : nat -> nat -> Z;
  th_accumu : nat -> nat -> Z;
  th_v_sorted : nat -> nat -> double
}.

Definition set_accumu (v : nat -> Z) (p : pmlib_papi_chooser) :=
  {| num_events := num_events p; accumu := v; v_sorted := v_sorted p;
     th_values := th_values p; th_accumu := th_accumu p;
     th_v_sorted := th_v_sorted p |}.
Definition set_v_sorted (v : nat -> double) (p : pmlib_papi_chooser) :=
  {| num_events := num_events p; accumu := accumu p; v_sorted := v;
     th_values := th_values p; th_accumu := th_accumu p;
     th_v_sorted := th_v_sorted p |}.
Definition set_th_values (v : nat -> nat -> Z) (p : pmlib_papi_chooser) :=
  {| num_events := num_events p; accumu := accumu p; v_sorted := v_sorted p;
     th_values := v; th_accumu := th_accumu p;
     th_v_sorted := th_v_sorted p |}.
Definition set_th_accumu (v : nat -> nat -> Z) (p : pmlib_papi_chooser) :=
  {| num_events := num_events p; accumu := accumu p; v_sorted := v_sorted p;
     th_values := th_values p; th_accumu := v;
     th_v_sorted := th_v_sorted p |}.
Definition set_th_v_sorted (v : nat -> nat -> double) (p : pmlib_papi_chooser) :=
  {| num_events := num_events p; accumu := accumu p; v_sorted := v_sorted p;
     th_values := th_values p; th_accumu := th_accumu p;
     th_v_sorted := v |}.

(** Statements in sequence: [s |> f |> g] is [g (f s)]. *)
Notation "s |> f" := (f s) (at level 45, left associativity, only parsing).

(** Text written to [stderr], one constructor per message. *)
Inductive Message :=
  | WarnUnhealthy (label : string) (rank thread : Z)
      (* <PerfWatch::start> "is marked un_healthy." *)
  | WarnAlreadyStarted (label : string) (rank thread : Z)
      (* <PerfWatch::start> "is already marked started. Duplicated start is ignored." *)
  | ErrNotSet (label : string) (rank thread : Z)
      (* <PerfWatch::start> "is marked m_is_set=FALSE." *)
  | PrintError (func label text : string)
      (* what PerfWatch::printError writes *)
  | PrintDiag (func text : string)
      (* a call of PerfMonitor::printDiag *)
  | Warning (text : string).
      (* any other fprintf (stderr, ...) *)

(** The two topology variables read by [updateMergedThread]: [None] when
    [getenv] returns NULL, otherwise what [atoi] makes of the value. *)
Record NodeEnv := {
  PJM_PROC_BY_NODE : option Z;
  PLE_RANK_ON_NODE : option Z
}.

(** One [fprintf] into the record file of the shell mode. *)
Inductive RecordLine :=
  | LineChooser (chooser : string)
      (* "ShellPM HWPC_CHOOSER=%s" *)
  | LineSection (label : string) (startTime : double)
      (* "section %s m_startTime= %20.15e" *)
  | LineSizes (nthreads nevents : Z)
      (* "num_threads= %d, my_papi.num_events= %d" *)
  | LineTitle
      (* "my_papi.th_values[num_threads][my_papi.num_events]:" *)
  | LineValue (v : Z).
      (* "%lld" *)

(** What the runtime answers during one API call: the clock, the counter
    values [my_papi_bind_read] returns on each thread, and the OpenMP
    queries. *)
Record Probe := {
  getTime : double;
  papi_read : nat -> nat -> Z;      (* thread -> event -> counter *)
  omp_in_parallel : bool;
  omp_get_thread_num : Z
}.

(** Type of measurement: [COMM = 0], [CALC = 1]. *)
Definition COMM : Z := 0.
Definition CALC : Z := 1.

(** ** class PerfWatch *)

Module PerfWatch.

Record t := {
  (* properties, written by setProperties *)
  m_label : string;
  m_id : Z;
  m_typeCalc : Z;
  m_exclusive : bool;
  num_process : Z;
  my_rank : Z;
  num_threads : Z;
  my_thread : Z;
  m_in_parallel : bool;
  m_is_set : bool;
  level_OTF : Z;
  (* measurement state *)
  m_threads_merged : bool;
  m_is_healthy : bool;
  m_started : bool;
  m_startTime : double;
  m_stopTime : double;
  m_time : double;
  m_flop : double;
  m_count : Z;
  (* gathered per-process arrays and their statistics *)
  m_timeArray : list double;
  m_flopArray : list double;
  m_countArray : list Z;
  m_count_sum : Z;
  m_time_av : double;
  m_flop_av : double;
  m_time_sd : double;
  m_flop_sd : double;
  m_time_comm : double;
  m_count_av : Z;
  (* thread-private HWPC record *)
  my_papi : pmlib_papi_chooser
}.

(** Field updates.  [eta] rebuilds a Watch from its projections; a
    setter is [eta] with one projection abstracted out. *)
Definition eta (w : t) : t :=
  {| m_label := m_label w; m_id := m_id w; m_typeCalc := m_typeCalc w;
     m_exclusive := m_exclusive w; num_process := num_process w;
     my_rank := my_rank w; num_threads := num_threads w;
     my_thread := my_thread w; m_in_parallel := m_in_parallel w;
     m_is_set := m_is_set w; level_OTF := level_OTF w;
     m_threads_merged := m_threads_merged w;
     m_is_healthy := m_is_healthy w; m_started := m_started w;
     m_startTime := m_startTime w; m_stopTime := m_stopTime w;
     m_time := m_time w; m_flop := m_flop w; m_count := m_count w;
     m_timeArray := m_timeArray w; m_flopArray := m_flopArray w;
     m_countArray := m_countArray w; m_count_sum := m_count_sum w;
     m_time_av := m_time_av w; m_flop_av := m_flop_av w;
     m_time_sd := m_time_sd w; m_flop_sd := m_flop_sd w;
     m_time_comm := m_time_comm w; m_count_av := m_count_av w;
     my_papi := my_papi w |}.

Ltac setter proj :=
  let e := eval cbv delta [eta] in eta in
  lazymatch eval pattern proj in e with
  | ?F _ =>
      let r := eval cbv beta in (fun v w => F (fun _ => v) w) in
      exact r
  end.

Definition set_m_label : string -> t -> t := ltac:(setter m_label).
Definition set_m_id : Z -> t -> t := ltac:(setter m_id).
Definition set_m_typeCalc : Z -> t -> t := ltac:(setter m_typeCalc).
Definition set_m_exclusive : bool -> t -> t := ltac:(setter m_exclusive).
Definition set_num_process : Z -> t -> t := ltac:(setter num_process).
Definition set_my_rank : Z -> t -> t := ltac:(setter my_rank).
Definition set_num_threads : Z -> t -> t := ltac:(setter num_threads).
Definition set_my_thread : Z -> t -> t := ltac:(setter my_thread).
Definition set_m_in_parallel : bool -> t -> t := ltac:(setter m_in_parallel).
Definition set_m_is_set : bool -> t -> t := ltac:(setter m_is_set).
Definition set_level_OTF : Z -> t -> t := ltac:(setter level_OTF).
Definition set_m_threads_merged : bool -> t -> t := ltac:(setter m_threads_merged).
Definition set_m_is_healthy : bool -> t -> t := ltac:(setter m_is_healthy).
Definition set_m_started : bool -> t -> t := ltac:(setter m_started).
Definition set_m_startTime : double -> t -> t := ltac:(setter m_startTime).
Definition set_m_stopTime : double -> t -> t := ltac:(setter m_stopTime).
Definition set_m_time : double -> t -> t := ltac:(setter m_time).
Definition set_m_flop : double -> t -> t := ltac:(setter m_flop).
Definition set_m_count : Z -> t -> t := ltac:(setter m_count).
Definition set_m_timeArray : list double -> t -> t := ltac:(setter m_timeArray).
Definition set_m_flopArray : list double -> t -> t := ltac:(setter m_flopArray).
Definition set_m_countArray : list Z -> t -> t := ltac:(setter m_countArray).
Definition set_m_count_sum : Z -> t -> t := ltac:(setter m_count_sum).
Definition set_m_time_av : double -> t -> t := ltac:(setter m_time_av).
Definition set_m_flop_av : double -> t -> t := ltac:(setter m_flop_av).
Definition set_m_time_sd : double -> t -> t := ltac:(setter m_time_sd).
Definition set_m_flop_sd : double -> t -> t := ltac:(setter m_flop_sd).
Definition set_m_time_comm : double -> t -> t := ltac:(setter m_time_comm).
Definition set_m_count_av : Z -> t -> t := ltac:(setter m_count_av).
Definition set_my_papi : pmlib_papi_chooser -> t -> t := ltac:(setter my_papi).

Section Methods.
Context (cfg : BuildConfig) (hwpc_group : hwpc_group_chooser).

(** [PerfWatch::statsSwitch] *)
Definition statsSwitch (w : t) : Z :=
  if 0 <? number hwpc_group I_bandwidth then 2
  else if 0 <? number hwpc_group I_flops then 3
  else if 0 <? number hwpc_group I_vector then 4
  else if 0 <? number hwpc_group I_cache then 5
  else if 0 <? number hwpc_group I_cycle then 6
  else if 0 <? number hwpc_group I_loadstore then 7
  else if m_typeCalc w =? 0 then 0
  else if m_typeCalc w =? 1 then 1
  else -1.

(** [PerfWatch::unitFlop].  [unit] is the out parameter; it comes back
    with the converted value. *)
Definition unitFlop (fops : double) (unit : string) (is_unit : Z) : double * string :=
  let K := 1000%float in
  let M := (1000 * K)%float in
  let G := (1000 * M)%float in
  let T := (1000 * G)%float in
  let P := (1000 * T)%float in
  if (is_unit =? 0) || (is_unit =? 2) then
    if (P <? fops)%float then ((fops / P)%float, "PB/sec")
    else if (T <? fops)%float then ((fops / T)%float, "TB/sec")
    else if (G <? fops)%float then ((fops / G)%float, "GB/sec")
    else ((fops / M)%float, "MB/sec")
  else if (is_unit =? 1) || (is_unit =? 3) then
    if (P <? fops)%float then ((fops / P)%float, "Pflops")
    else if (T <? fops)%float then ((fops / T)%float, "Tflops")
    else if (G <? fops)%float then ((fops / G)%float, "Gflops")
    else ((fops / M)%float, "Mflops")
  else if (is_unit =? 4) || (is_unit =? 5) || (is_unit =? 7) then (fops, "(%)")
  else if is_unit =? 6 then
    if (P <? fops)%float then ((fops / P)%float, "P.ips")
    else if (T <? fops)%float then ((fops / T)%float, "T.ips")
    else if (G <? fops)%float then ((fops / G)%float, "G.ips")
    else ((fops / M)%float, "M.ips")
  else (0%float, unit).

(** [PerfWatch::printError]: only rank 0 writes. *)
Definition printError (w : t) (func text : string) : list Message :=
  if my_rank w =? 0 then [PrintError func (m_label w) text] else [].

(** [PerfWatch::setProperties].  [omp_in_parallel] and
    [omp_get_thread_num] are read from the probe; [papi] is the shared
    process-wide structure copied on first use. *)
Definition setProperties (papi : pmlib_papi_chooser) (pr : Probe)
    (label : string) (id typeCalc nPEs my_rank_ID nTHREADs : Z)
    (exclusive : bool) (w : t) : t :=
  let w := w |> set_m_label label |> set_m_id id |> set_m_typeCalc typeCalc
             |> set_m_exclusive exclusive |> set_num_process nPEs
             |> set_my_rank my_rank_ID |> set_num_threads nTHREADs
             |> set_m_in_parallel false |> set_my_thread 0
             |> set_m_threads_merged true in
  let w := if OPENMP cfg
           then w |> set_m_in_parallel (omp_in_parallel pr)
                  |> set_my_thread (omp_get_thread_num pr)
                  |> set_m_threads_merged false
           else w in
  let w := if negb (m_is_set w)
           then w |> set_my_papi papi |> set_m_is_set true
           else w in
  w |> set_level_OTF 0.

(** The copy loop of [startSectionSerial]/[startSectionParallel] for one
    thread: [my_papi.th_values[thread][i] = th_papi.values[i]]. *)
Definition read_thread_values (pr : Probe) (thread : nat) (p : pmlib_papi_chooser)
    : pmlib_papi_chooser :=
  for_loop (num_events p)
    (fun i p => set_th_values (upd2 (th_values p) thread i (papi_read pr thread i)) p) p.

(** [PerfWatch::startSectionSerial]: the [omp parallel] region runs the
    read on each of the [num_threads] threads. *)
Definition startSectionSerial (pr : Probe) (w : t) : t :=
  if 2 <=? statsSwitch w then
    if USE_PAPI cfg then
      set_my_papi
        (for_loop (num_threads w) (fun i_thread p => read_thread_values pr i_thread p)
                  (my_papi w)) w
    else w
  else w.

(** [PerfWatch::startSectionParallel] *)
Definition startSectionParallel (pr : Probe) (w : t) : t :=
  if 2 <=? statsSwitch w then
    if USE_PAPI cfg then
      set_my_papi (read_thread_values pr (Z.to_nat (my_thread w)) (my_papi w)) w
    else w
  else w.

(** [PerfWatch::start] *)
Definition start (pr : Probe) (w : t) : t * list Message :=
  let out1 := if negb (m_is_healthy w)
              then [WarnUnhealthy (m_label w) (my_rank w) (my_thread w)] else [] in
  let out2 := if m_started w
              then [WarnAlreadyStarted (m_label w) (my_rank w) (my_thread w)] else [] in
  let out3 := if negb (m_is_set w)
              then [ErrNotSet (m_label w) (my_rank w) (my_thread w)] else [] in
  let w := w |> set_m_started true |> set_m_startTime (getTime pr)
             |> set_m_threads_merged false in
  let w := if m_in_parallel w then startSectionParallel pr w
           else startSectionSerial pr w in
  (w, out1 ++ out2 ++ out3).

(** The accumulation loop of [stopSectionSerial]/[stopSectionParallel]
    for one thread:
    [th_accumu[thread][i] += th_papi.values[i] - th_values[thread][i]]. *)
Definition accumulate_thread (pr : Probe) (thread : nat) (p : pmlib_papi_chooser)
    : pmlib_papi_chooser :=
  for_loop (num_events p)
    (fun i p =>
       set_th_accumu
         (upd2 (th_accumu p) thread i
            (wrap_long (th_accumu p thread i
                        + wrap_long (papi_read pr thread i - th_values p thread i))))
         p) p.

(** The user-mode branch shared by both stop routines:
    [m_flop += flopPerTask * (double)iterationCount]. *)
Definition add_user_flop (flopPerTask : double) (iterationCount : Z) (w : t) : t :=
  set_m_flop (m_flop w + flopPerTask * double_of_Z iterationCount)%float w.

(** [PerfWatch::stopSectionSerial] *)
Definition stopSectionSerial (pr : Probe) (flopPerTask : double)
    (iterationCount : Z) (w : t) : t :=
  let is_unit := statsSwitch w in
  if 2 <=? is_unit then
    if USE_PAPI cfg then
      if 0 <? num_events (my_papi w) then
        set_my_papi
          (for_loop (num_threads w) (fun i_thread p => accumulate_thread pr i_thread p)
                    (my_papi w)) w
      else w
    else w
  else if (is_unit =? 0) || (is_unit =? 1) then
    add_user_flop flopPerTask iterationCount w
  else w.

(** [PerfWatch::stopSectionParallel] *)
Definition stopSectionParallel (pr : Probe) (flopPerTask : double)
    (iterationCount : Z) (w : t) : t :=
  let is_unit := statsSwitch w in
  if 2 <=? is_unit then
    if USE_PAPI cfg then
      if 0 <? num_events (my_papi w) then
        set_my_papi (accumulate_thread pr (Z.to_nat (my_thread w)) (my_papi w)) w
      else w
    else w
  else if (is_unit =? 0) || (is_unit =? 1) then
    add_user_flop flopPerTask iterationCount w
  else w.

(** The three stores that end [PerfWatch::stop]. *)
Definition save_thread_scalars (w : t) : t :=
  let me := Z.to_nat (my_thread w) in
  let v := th_v_sorted (my_papi w) in
  let v := upd2 v me 0%nat (double_of_Z (m_count w)) in
  let v := upd2 v me 1%nat (m_time w) in
  let v := upd2 v me 2%nat (m_flop w) in
  set_my_papi (set_th_v_sorted v (my_papi w)) w.

(** [PerfWatch::stop].  [iterationCount] is an [unsigned]: a value in
    [0, 2^32). *)
Definition stop (pr : Probe) (flopPerTask : double) (iterationCount : Z)
    (w : t) : t * list Message :=
  let out1 := if negb (m_is_healthy w)
              then printError w "stop()" "is marked Not healthy. Corrected." else [] in
  let w := if negb (m_is_healthy w) then set_m_is_healthy true w else w in
  let out2 := if negb (m_started w)
              then printError w "stop()" "has not been started. Corrected." else [] in
  let w := if negb (m_started w) then set_m_started true w else w in
  let w := set_m_stopTime (getTime pr) w in
  let w := set_m_time (m_time w + (m_stopTime w - m_startTime w))%float w in
  let w := set_m_count (wrap_long (m_count w + 1)) w in
  let w := set_m_started false w in
  let w := if m_in_parallel w
           then stopSectionParallel pr flopPerTask iterationCount w
           else stopSectionSerial pr flopPerTask iterationCount w in
  (save_thread_scalars w, out1 ++ out2).

(** [PerfWatch::reset].  [on_master] tells whether the calling thread is
    the master of its team ([#pragma omp master]). *)
Definition reset (on_master : bool) (w : t) : t :=
  let w := w |> set_m_time 0%float |> set_m_count 0 |> set_m_flop 0%float in
  if USE_PAPI cfg then
    let p := my_papi w in
    let p := if 0 <? num_events p
             then for_loop (num_events p)
                    (fun i p => p |> set_accumu (upd1 (accumu p) i 0)
                                  |> set_v_sorted (upd1 (v_sorted p) i 0%float)) p
             else p in
    let p := if OPENMP cfg && on_master
             then for_loop (num_threads w)
                    (fun j p =>
                       for_loop (num_events p)
                         (fun i p =>
                            p |> set_th_accumu (upd2 (th_accumu p) j i 0)
                              |> set_th_v_sorted (upd2 (th_v_sorted p) j i 0%float))
                         p) p
             else p in
    set_my_papi p w
  else w.

(** [PerfWatch::gather].  With one process the three arrays hold the
    Watch's own values; otherwise they are what [MPI_Allgather] delivers
    ([allgather], one entry per process) and [m_count_sum] is the
    [MPI_Allreduce] sum of the counts. *)
Definition gather (allgather : list double * list double * list Z) (w : t) : t :=
  if num_process w =? 1 then
    w |> set_m_timeArray [m_time w] |> set_m_flopArray [m_flop w]
      |> set_m_countArray [m_count w] |> set_m_count_sum (m_count w)
  else
    let '(times, flops, counts) := allgather in
    w |> set_m_timeArray times |> set_m_flopArray flops
      |> set_m_countArray counts
      |> set_m_count_sum (fold_left (fun a c => wrap_long (a + c)) counts 0).

(** [PerfWatch::statsAverage], block by block: the means, *)
Definition stats_mean (w : t) : t :=
  let w := w |> set_m_time_av 0%float |> set_m_flop_av 0%float in
  let w := for_loop (num_process w)
             (fun i w =>
                w |> set_m_time_av (m_time_av w + nth i (m_timeArray w) 0)%float
                  |> set_m_flop_av (m_flop_av w + nth i (m_flopArray w) 0)%float) w in
  let w := w |> set_m_time_av (m_time_av w / double_of_Z (num_process w))%float in
  w |> set_m_flop_av (m_flop_av w / double_of_Z (num_process w))%float.

(** the mean call count (both branches of the source are the same
    expression), *)
Definition stats_count (w : t) : t :=
  if m_in_parallel w
  then set_m_count_av
         (lround (double_of_Z (m_count_sum w) / double_of_Z (num_process w))%float) w
  else set_m_count_av
         (lround (double_of_Z (m_count_sum w) / double_of_Z (num_process w))%float) w.

(** the standard deviations, *)
Definition stats_sd (w : t) : t :=
  let w := w |> set_m_time_sd 0%float |> set_m_flop_sd 0%float in
  if 1 <? num_process w then
    let w := for_loop (num_process w)
               (fun i w =>
                  let d_time := (nth i (m_timeArray w) 0 - m_time_av w)%float in
                  let d_flop := (nth i (m_flopArray w) 0 - m_flop_av w)%float in
                  w |> set_m_time_sd (m_time_sd w + d_time * d_time)%float
                    |> set_m_flop_sd (m_flop_sd w + d_flop * d_flop)%float) w in
    let w := w |> set_m_time_sd
                    (sqrt (m_time_sd w / double_of_Z (num_process w - 1)))%float in
    w |> set_m_flop_sd (sqrt (m_flop_sd w / double_of_Z (num_process w - 1)))%float
  else w.

(** and, for communication sections, the largest time of any process. *)
Definition stats_comm (w : t) : t :=
  let w := set_m_time_comm 0%float w in
  if m_typeCalc w =? 0 then
    let comm_max :=
      for_loop (num_process w)
        (fun i comm_max =>
           if (comm_max <? nth i (m_timeArray w) 0)%float
           then nth i (m_timeArray w) 0%float else comm_max) 0%float in
    set_m_time_comm comm_max w
  else w.

(** [PerfWatch::statsAverage] *)
Definition statsAverage (w : t) : t :=
  w |> stats_mean |> stats_count |> stats_sd |> stats_comm.

(** [dst[j][i] = src[j][i]] for [j < rows], [i < cols]. *)
Definition copy_block {V} (rows cols : Z) (src dst : nat -> nat -> V) : nat -> nat -> V :=
  for_loop rows (fun j d => for_loop cols (fun i d => upd2 d j i (src j i)) d) dst.

(** [a[j][i] = v] for [j < rows], [i < cols]. *)
Definition fill_block {V} (rows cols : Z) (v : V) (a : nat -> nat -> V) : nat -> nat -> V :=
  for_loop rows (fun j d => for_loop cols (fun i d => upd2 d j i v) d) a.

(** The plain accumulation of [updateMergedThread]:
    [accumu[i] = 0; for j: accumu[i] += th_accumu[j][i]]. *)
Definition sum_threads (nthreads : Z) (p : pmlib_papi_chooser) : pmlib_papi_chooser :=
  for_loop (num_events p)
    (fun i p =>
       let p := set_accumu (upd1 (accumu p) i 0) p in
       for_loop nthreads
         (fun j p => set_accumu (upd1 (accumu p) i
                                   (wrap_long (accumu p i + th_accumu p j i))) p) p) p.

(** The A64FX BANDWIDTH case of [updateMergedThread]: counters are per
    CMG (12 cores), shared by the processes of the node. *)
Definition share_cmg (np_node my_rank_on_node nthreads : Z) (p : pmlib_papi_chooser)
    : pmlib_papi_chooser :=
  if np_node <=? 4 then
    let ncmg_proc := Z.quot (nthreads - 1) 12 + 1 in
    let p := for_loop (num_events p)
               (fun i p =>
                  let p := set_accumu (upd1 (accumu p) i 0) p in
                  for_loop ncmg_proc
                    (fun k p => set_accumu
                                  (upd1 (accumu p) i
                                     (wrap_long (accumu p i + th_accumu p (12 * k)%nat i))) p)
                    p) p in
    if (np_node =? 3) && (12 <? nthreads) then
      let share_ratio := (1 / 3)%float in
      for_loop (num_events p)
        (fun i p => set_accumu
                      (upd1 (accumu p) i
                         (trunc_double
                            (double_of_Z (accumu p i)
                             + double_of_Z (th_accumu p (Z.to_nat (nthreads - 1)) i)
                               * share_ratio)%float)) p) p
    else p
  else if 5 <=? np_node then
    let np_share := Z.quot (np_node - 1) 4 + 1 in
    let share_ratio :=
      if Z.rem my_rank_on_node 4 <=? Z.rem (np_node - 1) 4
      then (1 / double_of_Z np_share)%float
      else (1 / (double_of_Z np_share - 1))%float in
    for_loop (num_events p)
      (fun i p => set_accumu
                    (upd1 (accumu p) i
                       (trunc_double (double_of_Z (th_accumu p 0%nat i) * share_ratio)%float))
                    p) p
  else p.

Definition read_np_node (env : NodeEnv) : Z * list Message :=
  match PJM_PROC_BY_NODE env with
  | None => (1, [Warning "PJM_PROC_BY_NODE is not set. np_node = 1 is assumed."])
  | Some v =>
      if (v <? 1) || (48 <? v)
      then (1, [Warning "np_node should be 1 <= np_node <= 48. np_node = 1 is assumed."])
      else (v, [])
  end.

Definition read_rank_on_node (env : NodeEnv) : Z * list Message :=
  match PLE_RANK_ON_NODE env with
  | None => (0, [Warning "PLE_RANK_ON_NODE is not set. One process on this node is assumed."])
  | Some v =>
      if (v <? 0) || (47 <? v)
      then (0, [Warning "PLE_RANK_ON_NODE should be 0 <= p <= 47. rank 0 is assumed."])
      else (v, [])
  end.

(** The sums over threads of slot [k] of [th_v_sorted], as
    [updateMergedThread] accumulates them. *)
Definition sum_slot (nthreads : Z) (v : nat -> nat -> double) (k : nat) : double :=
  for_loop nthreads (fun j acc => (acc + v j k)%float) 0%float.

(** [dst[row][i] = src[row][i]] for [i < cols]. *)
Definition copy_thread_row {V} (row : nat) (cols : Z) (src dst : nat -> nat -> V)
    : nat -> nat -> V :=
  for_loop cols (fun i d => upd2 d row i (src row i)) dst.

(** [PerfWatch::mergeMasterThread], merge step 1: the master copies its
    [my_papi] into the shared scratch structure [papi]. *)
Definition mergeMasterThread (wp : t * pmlib_papi_chooser) : t * pmlib_papi_chooser :=
  let '(w, papi) := wp in
  if negb (OPENMP cfg) then wp
  else if m_threads_merged w then wp
  else if negb (my_thread w =? 0) then wp
  else if m_started w then wp
  else
    let is_unit := statsSwitch w in
    let nt := num_threads w in
    let p := my_papi w in
    if 2 <=? is_unit then
      let ne := num_events p in
      (w, papi |> set_th_accumu (copy_block nt ne (th_accumu p) (th_accumu papi))
               |> set_th_v_sorted (copy_block nt ne (th_v_sorted p) (th_v_sorted papi)))
    else
      (w, papi |> set_th_accumu (copy_block nt 3 (th_accumu p) (th_accumu papi))
               |> set_th_v_sorted (copy_block nt 3 (th_v_sorted p) (th_v_sorted papi))).

(** [PerfWatch::mergeParallelThread], merge step 2: a thread other than
    the master copies its own row of a section measured inside a
    parallel region into the scratch structure. *)
Definition mergeParallelThread (pr : Probe) (wp : t * pmlib_papi_chooser)
    : (t * pmlib_papi_chooser) * list Message :=
  let '(w, papi) := wp in
  if negb (OPENMP cfg) then (wp, [])
  else if m_threads_merged w then (wp, [])
  else if my_thread w =? 0 then (wp, [])
  else if m_started w then (wp, [])
  else if negb (m_in_parallel w) then (wp, [])
  else
    let out := if negb (omp_get_thread_num pr =? my_thread w)
               then [Warning ("PMlib internal error <mergeParallelThread> ["
                              +:+ m_label w
                              +:+ "] my_thread does not match OpenMP thread")]
               else [] in
    let is_unit := statsSwitch w in
    let me := Z.to_nat (my_thread w) in
    let p := my_papi w in
    if 2 <=? is_unit then
      let ne := num_events p in
      ((w, papi |> set_th_accumu (copy_thread_row me ne (th_accumu p) (th_accumu papi))
                |> set_th_v_sorted
                     (copy_thread_row me ne (th_v_sorted p) (th_v_sorted papi))), out)
    else
      ((w, papi |> set_th_v_sorted
                     (copy_thread_row me 3 (th_v_sorted p) (th_v_sorted papi))), out).

(** [PerfWatch::updateMergedThread].  The state is the Watch together
    with the shared scratch structure [papi]. *)
Definition updateMergedThread (env : NodeEnv) (wp : t * pmlib_papi_chooser)
    : (t * pmlib_papi_chooser) * list Message :=
  let '(w, papi) := wp in
  if negb (OPENMP cfg) then (wp, [])
  else if m_threads_merged w then (wp, [])
  else if negb (my_thread w =? 0) then (wp, [])
  else if m_started w then (wp, [])
  else
    let is_unit := statsSwitch w in
    let nt := num_threads w in
    let '(w, out) :=
      if 2 <=? is_unit then
        let p := my_papi w in
        let ne := num_events p in
        let p := p |> set_th_accumu (copy_block nt ne (th_accumu papi) (th_accumu p)) in
        let p := p |> set_th_v_sorted (copy_block nt ne (th_v_sorted papi) (th_v_sorted p)) in
        let p := sum_threads nt p in
        let '(p, out) :=
          if (is_unit =? 2) && (i_platform hwpc_group =? 21) then
            let '(np_node, o1) := read_np_node env in
            let '(my_rank_on_node, o2) := read_rank_on_node env in
            (share_cmg np_node my_rank_on_node nt p, o1 ++ o2)
          else (p, []) in
        (set_my_papi p w, out)
      else
        let p := my_papi w in
        let p := p |> set_th_v_sorted (copy_block nt 3 (th_v_sorted papi) (th_v_sorted p)) in
        (set_my_papi p w, []) in
    let w := set_m_threads_merged true w in
    let v := th_v_sorted (my_papi w) in
    let m_count_threads := sum_slot nt v 0 in
    let m_time_threads := sum_slot nt v 1 in
    let m_flop_threads := sum_slot nt v 2 in
    let w := w |> set_m_count (lround m_count_threads)
               |> set_m_time m_time_threads |> set_m_flop m_flop_threads in
    let cols := if 2 <=? is_unit then num_events (my_papi w) else 3 in
    let papi := papi |> set_th_accumu (fill_block nt cols 0 (th_accumu papi)) in
    let papi := papi |> set_th_v_sorted (fill_block nt cols 0%float (th_v_sorted papi)) in
    ((w, papi), out).

(** [PerfWatch::selectPerfSingleThread] *)
Definition selectPerfSingleThread (i_thread : Z) (w : t) : t :=
  let it := Z.to_nat i_thread in
  let p := for_loop (num_events (my_papi w))
             (fun ip p => set_accumu (upd1 (accumu p) ip (th_accumu p it ip)) p)
             (my_papi w) in
  let w := set_my_papi p w in
  let row := if m_in_parallel w then it else 0%nat in
  w |> set_m_count (lround (th_v_sorted p row 0))
    |> set_m_time (th_v_sorted p row 1)
    |> set_m_flop (th_v_sorted p row 2).

(** [PerfWatch::save_pm_records]: the lines appended to the record file. *)
Definition save_pm_records (w : t) : list RecordLine :=
  [LineSection (m_label w) (m_startTime w);
   LineSizes (num_threads w) (num_events (my_papi w));
   LineTitle]
  ++ for_loop (num_threads w)
       (fun j out =>
          for_loop (num_events (my_papi w))
            (fun i out => out ++ [LineValue (th_values (my_papi w) j i)]) out) [].

(** [PerfWatch::load_pm_records]: the body is the empty statement; the
    stream is not read and the Watch is not written. *)
Definition load_pm_records (fp : list RecordLine) (w : t) : t * list RecordLine :=
  (w, fp).

End Methods.
End PerfWatch.

(** ** class PerfMonitor *)

Module PerfMonitor.

Definition papi_zero : pmlib_papi_chooser :=
  {| num_events := 0; accumu := fun _ => 0; v_sorted := fun _ => 0%float;
     th_values := fun _ _ => 0; th_accumu := fun _ _ => 0;
     th_v_sorted := fun _ _ => 0%float |}.

(** Modelled from the spec: the default constructor of [PerfWatch]
    ([PerfWatch.h] is not under src/).  A Watch nobody has set yet has an
    empty label, is idle and healthy, and all its accumulators are zero
    (spec, section 3, Watch). *)
Definition PerfWatch_new : PerfWatch.t :=
  {| PerfWatch.m_label := ""; PerfWatch.m_id := 0; PerfWatch.m_typeCalc := 0;
     PerfWatch.m_exclusive := true; PerfWatch.num_process := 0;
     PerfWatch.my_rank := 0; PerfWatch.num_threads := 0;
     PerfWatch.my_thread := 0; PerfWatch.m_in_parallel := false;
     PerfWatch.m_is_set := false; PerfWatch.level_OTF := 0;
     PerfWatch.m_threads_merged := true; PerfWatch.m_is_healthy := true;
     PerfWatch.m_started := false; PerfWatch.m_startTime := 0%float;
     PerfWatch.m_stopTime := 0%float; PerfWatch.m_time := 0%float;
     PerfWatch.m_flop := 0%float; PerfWatch.m_count := 0;
     PerfWatch.m_timeArray := []; PerfWatch.m_flopArray := [];
     PerfWatch.m_countArray := []; PerfWatch.m_count_sum := 0;
     PerfWatch.m_time_av := 0%float; PerfWatch.m_flop_av := 0%float;
     PerfWatch.m_time_sd := 0%float; PerfWatch.m_flop_sd := 0%float;
     PerfWatch.m_time_comm := 0%float; PerfWatch.m_count_av := 0;
     PerfWatch.my_papi := papi_zero |}.

(** The thread-private monitor.  [shared_map_sections] is the
    namespace-level map shared by all threads; it is carried in the same
    state because the methods below read and write it. *)
Record t := {
  is_PMlib_enabled : bool;
  init_nWatch : Z;
  reserved_nWatch : Z;
  m_nWatch : Z;
  m_watchArray : list PerfWatch.t;
  m_order : option (list nat);
  m_map_sections : gmap string Z;
  shared_map_sections : gmap string Z;
  is_exclusive_construct : bool;
  is_Root_active : bool;
  my_rank : Z;
  num_process : Z;
  num_threads : Z;
  my_thread : Z;
  env_str_hwpc : string
}.

Definition eta (m : t) : t :=
  {| is_PMlib_enabled := is_PMlib_enabled m; init_nWatch := init_nWatch m;
     reserved_nWatch := reserved_nWatch m; m_nWatch := m_nWatch m;
     m_watchArray := m_watchArray m; m_order := m_order m;
     m_map_sections := m_map_sections m;
     shared_map_sections := shared_map_sections m;
     is_exclusive_construct := is_exclusive_construct m;
     is_Root_active := is_Root_active m; my_rank := my_rank m;
     num_process := num_process m; num_threads := num_threads m;
     my_thread := my_thread m; env_str_hwpc := env_str_hwpc m |}.

Ltac setter proj :=
  let e := eval cbv delta [eta] in eta in
  lazymatch eval pattern proj in e with
  | ?F _ =>
      let r := eval cbv beta in (fun v m => F (fun _ => v) m) in
      exact r
  end.

Definition set_is_PMlib_enabled : bool -> t -> t := ltac:(setter is_PMlib_enabled).
Definition set_init_nWatch : Z -> t -> t := ltac:(setter init_nWatch).
Definition set_reserved_nWatch : Z -> t -> t := ltac:(setter reserved_nWatch).
Definition set_m_nWatch : Z -> t -> t := ltac:(setter m_nWatch).
Definition set_m_watchArray : list PerfWatch.t -> t -> t := ltac:(setter m_watchArray).
Definition set_m_order : option (list nat) -> t -> t := ltac:(setter m_order).
Definition set_m_map_sections : gmap string Z -> t -> t := ltac:(setter m_map_sections).
Definition set_shared_map_sections : gmap string Z -> t -> t :=
  ltac:(setter shared_map_sections).
Definition set_is_exclusive_construct : bool -> t -> t :=
  ltac:(setter is_exclusive_construct).
Definition set_is_Root_active : bool -> t -> t := ltac:(setter is_Root_active).
Definition set_my_thread : Z -> t -> t := ltac:(setter my_thread).

Arguments set_is_PMlib_enabled _ _ /.
Arguments set_init_nWatch _ _ /.
Arguments set_reserved_nWatch _ _ /.
Arguments set_m_nWatch _ _ /.
Arguments set_m_watchArray _ _ /.
Arguments set_m_order _ _ /.
Arguments set_m_map_sections _ _ /.
Arguments set_shared_map_sections _ _ /.
Arguments set_is_exclusive_construct _ _ /.
Arguments set_is_Root_active _ _ /.
Arguments set_my_thread _ _ /.

(** A method either returns the new state and what it printed, or the
    process has left defined behaviour (an array index out of range). *)
Definition result : Type := option (t * list Message).

(** [m_watchArray[id]] *)
Definition watch_at (m : t) (id : Z) : option PerfWatch.t :=
  if id <? 0 then None else m_watchArray m !! Z.to_nat id.

(** [m_watchArray[id].method()], where the method returns the new Watch
    and its output. *)
Definition call_watch (id : Z) (f : PerfWatch.t -> PerfWatch.t * list Message)
    (m : t) : result :=
  match watch_at m id with
  | Some w => let '(w', out) := f w in
              Some (set_m_watchArray (<[Z.to_nat id := w']> (m_watchArray m)) m, out)
  | None => None
  end.

(** [std::map<std::string,int>] is traversed in the order of its
    keys, [std::less<std::string>]: lexicographic on the bytes. *)
Definition key_le (a b : string * Z) : Prop := String.leb a.1 b.1 = true.

#[global] Instance key_le_dec : RelDecision key_le.
Proof. intros a b. unfold key_le. apply _. Defined.

(** The pairs met by [for (it = mp.begin(); it != mp.end(); ++it)]. *)
Definition entries (mp : gmap string Z) : list (string * Z) :=
  merge_sort key_le (map_to_list mp).

(** The loop [if (it->second == id) { s = it->first; break; }]. *)
Definition first_label_of (mp : gmap string Z) (id : Z) : option string :=
  (fun e => e.2.1) <$> list_find (fun e : string * Z => e.2 = id) (entries mp).

Section Methods.
Context (cfg : BuildConfig) (hwpc_group : hwpc_group_chooser)
        (papi : pmlib_papi_chooser).

(** [PerfMonitor::find_section_object] *)
Definition find_section_object (m : t) (arg_st : string) : Z :=
  match m_map_sections m !! arg_st with
  | None => -1
  | Some mid => mid
  end.

(** [std::map::insert]: an existing key keeps its value. *)
Definition map_insert (k : string) (v : Z) (mp : gmap string Z) : gmap string Z :=
  match mp !! k with
  | Some _ => mp
  | None => <[k := v]> mp
  end.

(** [PerfMonitor::add_section_object] *)
Definition add_section_object (arg_st : string) (m : t) : Z * t :=
  let mid := m_nWatch m in
  (mid, set_m_map_sections (map_insert arg_st mid (m_map_sections m)) m).

(** [PerfMonitor::add_shared_section] *)
Definition add_shared_section (arg_st : string) (m : t) : Z * t :=
  let n := Z.of_nat (size (shared_map_sections m)) in
  let mp := map_insert arg_st n (shared_map_sections m) in
  (default 0 (mp !! arg_st), set_shared_map_sections mp m).

(** [PerfMonitor::loop_section_object]: the label registered under
    [mid]; [p_label] is the out parameter. *)
Definition loop_section_object (mid : Z) (p_label : string) (m : t)
    : string * list Message :=
  match first_label_of (m_map_sections m) mid with
  | Some l => (l, [])
  | None => (p_label,
             [Warning "PMlib Error. <loop_section_object> section ID was not found."])
  end.

(** The re-allocation inside [setProperties]: a new array of
    [reserved_nWatch] default Watches receives the first [m_nWatch] old
    ones. *)
Definition grow (m : t) : option t :=
  let reserved := m_nWatch m + init_nWatch m in
  let n := Z.to_nat (m_nWatch m) in
  if (n <=? length (m_watchArray m))%nat && (m_nWatch m <=? reserved) then
    Some (m |> set_reserved_nWatch reserved
            |> set_m_watchArray (take n (m_watchArray m)
                                 ++ replicate (Z.to_nat reserved - n) PerfWatch_new))
  else None.

(** [PerfMonitor::setProperties].  ([new] throws rather than returning
    NULL, so the allocation-failure branch is not taken.) *)
Definition setProperties (pr : Probe) (label : string) (type : Z)
    (exclusive : bool) (m : t) : result :=
  if negb (is_PMlib_enabled m) then Some (m, [])
  else if String.eqb label "" then
    Some (m, [PrintDiag "setProperties()" "label is blank. Ignoring this call."])
  else
    let m := set_my_thread (if OPENMP cfg then omp_get_thread_num pr else 0) m in
    let id := find_section_object m label in
    let '(id, m) :=
      if id <? 0 then
        let '(id, m) := add_section_object label m in
        let '(_, m) := add_shared_section label m in
        (id, m)
      else (id, m) in
    m ← (if reserved_nWatch m <=? m_nWatch m + 1 then grow m else Some m);
    let m := set_is_exclusive_construct exclusive m in
    let m := set_m_nWatch (m_nWatch m + 1) m in
    call_watch id
      (fun w => (PerfWatch.setProperties cfg papi pr label id type
                   (num_process m) (my_rank m) (num_threads m) exclusive w, []))
      m.

(** [PerfMonitor::start].  An unknown label is registered with the
    default arguments of [setProperties], [CALC] and [exclusive = true]. *)
Definition start (pr : Probe) (label : string) (m : t) : result :=
  if negb (is_PMlib_enabled m) then Some (m, [])
  else if String.eqb label "" then
    Some (m, [PrintDiag "start()" "label is blank. Ignored the call."])
  else
    let id := find_section_object m label in
    '(m, out1) ← (if id <? 0 then setProperties pr label CALC true m else Some (m, []));
    let id := find_section_object m label in
    let m := set_is_exclusive_construct true m in
    '(m, out2) ← call_watch id (PerfWatch.start cfg hwpc_group pr) m;
    Some (m, out1 ++ out2).

(** [PerfMonitor::stop] *)
Definition stop (pr : Probe) (label : string) (flopPerTask : double)
    (iterationCount : Z) (m : t) : result :=
  if negb (is_PMlib_enabled m) then Some (m, [])
  else if String.eqb label "" then
    Some (m, [PrintDiag "stop()" "label is blank. Ignored the call."])
  else
    let id := find_section_object m label in
    if id <? 0 then
      Some (m, [PrintDiag "stop()"
                  ("label [" +:+ label +:+ "] is undefined. This may lead to incorrect measurement.")])
    else
      '(m, out) ← call_watch id
                    (PerfWatch.stop cfg hwpc_group pr flopPerTask iterationCount) m;
      '(m, _) ← (if negb (is_exclusive_construct m)
                 then call_watch id (fun w => (PerfWatch.set_m_exclusive false w, [])) m
                 else Some (m, []));
      Some (set_is_exclusive_construct false m, out).

(** [PerfMonitor::reset] *)
Definition reset (on_master : bool) (label : string) (m : t) : result :=
  if negb (is_PMlib_enabled m) then Some (m, [])
  else if String.eqb label "" then
    Some (m, [PrintDiag "reset()" "label is blank. Ignored the call."])
  else
    let id := find_section_object m label in
    if id <? 0 then
      Some (m, [PrintDiag "reset()"
                  ("label [" +:+ label +:+ "] is undefined. This may lead to incorrect measurement.")])
    else call_watch id (fun w => (PerfWatch.reset cfg on_master w, [])) m.

(** [PerfMonitor::resetAll]: [for (int i=0; i<m_nWatch; i++)
    m_watchArray[i].reset();] *)
Definition resetAll (on_master : bool) (m : t) : result :=
  if negb (is_PMlib_enabled m) then Some (m, [])
  else
    for_loop (m_nWatch m)
      (fun i r =>
         '(m, out) ← r;
         '(m, o) ← call_watch (Z.of_nat i)
                     (fun w => (PerfWatch.reset cfg on_master w, [])) m;
         Some (m, out ++ o))
      (Some (m, [])).

(** [PerfMonitor::stopRoot] (HWPC and power clean-up are outside the
    embedding). *)
Definition stopRoot (pr : Probe) (m : t) : result :=
  if negb (is_PMlib_enabled m) then Some (m, [])
  else if is_Root_active m then
    '(m, out) ← call_watch 0 (PerfWatch.stop cfg hwpc_group pr 0%float 1) m;
    Some (set_is_Root_active false m, out)
  else Some (m, []).

(** What [initialize] reads from its surroundings. *)
Record InitEnv := {
  BYPASS_PMLIB : option string;
  HWPC_CHOOSER : option string;
  MPI_Comm_rank : Z;
  MPI_Comm_size : Z;
  omp_get_max_threads : Z
}.

Definition known_chooser (s : string) : bool :=
  String.eqb s "FLOPS" || String.eqb s "BANDWIDTH" || String.eqb s "VECTOR"
  || String.eqb s "CACHE" || String.eqb s "CYCLE" || String.eqb s "LOADSTORE"
  || String.eqb s "USER".

(** [PerfMonitor::initialize], up to the start of the Root section.
    [initializeHWPC] has filled [papi] and [hwpc_group] (both absent from
    src/); the report-level parsing that follows does not touch the
    sections. *)
Definition initialize (ie : InitEnv) (pr : Probe) (inn : Z) (m : t) : result :=
  match BYPASS_PMLIB ie with
  | Some _ => Some (set_is_PMlib_enabled false m, [])
  | None =>
      let '(chooser, out0) :=
        match HWPC_CHOOSER ie with
        | None => ("FLOPS", [])
        | Some s => if known_chooser s then (s, [])
                    else ("FLOPS", [PrintDiag "initialize()" "unknown HWPC_CHOOSER value."])
        end in
      let m :=
        {| is_PMlib_enabled := true; init_nWatch := inn; reserved_nWatch := inn;
           m_nWatch := 0;
           m_watchArray := replicate (Z.to_nat inn) PerfWatch_new;
           m_order := None;
           m_map_sections := m_map_sections m;
           shared_map_sections := shared_map_sections m;
           is_exclusive_construct := is_exclusive_construct m;
           is_Root_active := is_Root_active m;
           my_rank := MPI_Comm_rank ie; num_process := MPI_Comm_size ie;
           num_threads := if OPENMP cfg then omp_get_max_threads ie else 1;
           my_thread := if OPENMP cfg then omp_get_thread_num pr else 0;
           env_str_hwpc := chooser |} in
      '(m, _) ← call_watch 0
                  (fun w => (w |> PerfWatch.set_my_rank (my_rank m)
                               |> PerfWatch.set_num_process (num_process m), [])) m;
      let '(id, m) := add_section_object "Root Section" m in
      let '(_, m) := add_shared_section "Root Section" m in
      let m := set_m_nWatch (m_nWatch m + 1) m in
      '(m, _) ← call_watch 0
                  (fun w => (PerfWatch.setProperties cfg papi pr "Root Section" id CALC
                               (num_process m) (my_rank m) (num_threads m) false w, []))
                  m;
      '(m, out) ← call_watch 0 (PerfWatch.start cfg hwpc_group pr) m;
      Some (set_is_Root_active true m, out0 ++ out)
  end.

(** [PerfMonitor::gather_and_stats], scalar part ([gatherHWPC] and
    [gatherPOWER] are outside the embedding).  [allgather i] is what the
    collectives deliver for section [i]. *)
Definition gather_and_stats
    (allgather : nat -> list double * list double * list Z) (m : t) : option t :=
  if negb (is_PMlib_enabled m) then Some m
  else if m_nWatch m =? 0 then Some m
  else
    m ← for_loop (m_nWatch m)
          (fun i r => m ← r;
                      fst <$> call_watch (Z.of_nat i)
                                (fun w => (PerfWatch.gather (allgather i) w, [])) m)
          (Some m);
    for_loop (m_nWatch m)
      (fun i r => m ← r;
                  fst <$> call_watch (Z.of_nat i)
                            (fun w => (PerfWatch.statsAverage w, [])) m)
      (Some m).

(** The cost column of [sort_m_order]:
    [m_tcost[i] = w.m_count_sum > 0 ? w.m_time_av : 0.0]. *)
Definition tcost_of (w : PerfWatch.t) : double :=
  if 0 <? PerfWatch.m_count_sum w then PerfWatch.m_time_av w else 0%float.

(** The two arrays the sort permutes together. *)
Definition sort_state : Type := list double * list nat.

(** The body of the inner loop: swap positions [i] and [j] of both
    arrays when [m_tcost[i] < m_tcost[j]]. *)
Definition sort_swap (i j : nat) (st : sort_state) : sort_state :=
  let '(m_tcost, order) := st in
  if (nth i m_tcost 0 <? nth j m_tcost 0)%float then
    (<[j := nth i m_tcost 0%float]> (<[i := nth j m_tcost 0%float]> m_tcost),
     <[j := nth i order 0%nat]> (<[i := nth j order 0%nat]> order))
  else st.

(** The two nested loops; [empty k] tells whether the label of
    [m_watchArray[k]] is empty (such a row or column is skipped). *)
Definition sort_loops (empty : nat -> bool) (n : nat) (st : sort_state) : sort_state :=
  fold_left
    (fun st i =>
       if empty i then st
       else fold_left (fun st j => if empty j then st else sort_swap i j st)
                      (seq (S i) (n - S i)) st)
    (seq 0 (n - 1)) st.

(** [PerfMonitor::sort_m_order] *)
Definition sort_m_order (m : t) : option t :=
  if negb (is_PMlib_enabled m) then Some m
  else if m_nWatch m =? 0 then Some m
  else
    let n := Z.to_nat (m_nWatch m) in
    if (n <=? length (m_watchArray m))%nat then
      let ws := take n (m_watchArray m) in
      let order := seq 0 n in
      let m_tcost := map tcost_of ws in
      let empty := fun k => String.eqb (PerfWatch.m_label (nth k ws PerfWatch_new)) "" in
      Some (set_m_order (Some (snd (sort_loops empty n (m_tcost, order)))) m)
    else None.


(** The record file of the shell mode: absent, or its lines. *)
Definition record_file : Type := option (list RecordLine).

(** [PerfMonitor::save_pm_records]; [fopen (.., "w+")] is taken to
    succeed.  Returns the file left on disk. *)
Definition save_pm_records (m : t) (file : record_file) : option record_file :=
  if negb (is_PMlib_enabled m) then Some file
  else
    let n := Z.to_nat (m_nWatch m) in
    if (n <=? length (m_watchArray m))%nat then
      Some (Some (LineChooser (env_str_hwpc m)
                  :: concat (map (PerfWatch.save_pm_records) (take n (m_watchArray m)))))
    else None.

(** [PerfMonitor::load_pm_records].  The file is opened for reading
    ([None]: it cannot be opened and the process exits with 99); the
    [fprintf] to that stream writes nothing; every Watch is handed the
    stream; the file is then removed. *)
Definition load_pm_records (m : t) (file : record_file) : option (t * record_file) :=
  if negb (is_PMlib_enabled m) then Some (m, file)
  else
    match file with
    | None => None
    | Some fp =>
        r ← for_loop (m_nWatch m)
              (fun i r =>
                 '(m, fp) ← r;
                 w ← watch_at m (Z.of_nat i);
                 let '(w', fp') := PerfWatch.load_pm_records fp w in
                 Some (set_m_watchArray (<[i := w']> (m_watchArray m)) m, fp'))
              (Some (m, fp));
        Some (fst r, None)
    end.

End Methods.
End PerfMonitor.

(** ** Call sequences *)

(** One call on a single Watch. *)
Inductive Op :=
  | OpStart (pr : Probe)
  | OpStop (pr : Probe) (flopPerTask : double) (iterationCount : Z).

Section WatchRuns.
Context (cfg : BuildConfig) (hwpc_group : hwpc_group_chooser).

Definition step (op : Op) (w : PerfWatch.t) : PerfWatch.t * list Message :=
  match op with
  | OpStart pr => PerfWatch.start cfg hwpc_group pr w
  | OpStop pr f n => PerfWatch.stop cfg hwpc_group pr f n w
  end.

Definition run (ops : list Op) (w : PerfWatch.t) : PerfWatch.t :=
  fold_left (fun w op => fst (step op w)) ops w.

(** USER mode: no HWPC group is active and the section has one of the
    two measurement types. *)
Definition user_mode (w : PerfWatch.t) : bool :=
  (PerfWatch.statsSwitch hwpc_group w =? 0) || (PerfWatch.statsSwitch hwpc_group w =? 1).

End WatchRuns.





(** Number of stop calls in a sequence. *)
Fixpoint count_stops (ops : list Op) : Z :=
  match ops with
  | [] => 0
  | OpStart _ :: ops => count_stops ops
  | OpStop _ _ _ :: ops => 1 + count_stops ops
  end.

(** Number of start/stop pairs in a sequence, read off the calls alone:
    a stop closes a pair only when a start is pending ([running]). *)
Fixpoint executed_pairs (running : bool) (ops : list Op) : Z :=
  match ops with
  | [] => 0
  | OpStart _ :: ops => executed_pairs true ops
  | OpStop _ _ _ :: ops =>
      (if running then 1 else 0) + executed_pairs false ops
  end.

(** No stop is issued while the section is idle. *)
Fixpoint no_idle_stop (running : bool) (ops : list Op) : bool :=
  match ops with
  | [] => true
  | OpStart _ :: ops => no_idle_stop true ops
  | OpStop _ _ _ :: ops => running && no_idle_stop false ops
  end.

(** One call on the monitor. *)
Inductive Call :=
  | Start (pr : Probe) (label : string)
  | Stop (pr : Probe) (label : string) (flopPerTask : double) (iterationCount : Z).

Definition call_label (c : Call) : string :=
  match c with Start _ l => l | Stop _ l _ _ => l end.

Section MonitorRuns.
Context (cfg : BuildConfig) (hwpc_group : hwpc_group_chooser)
        (papi : pmlib_papi_chooser).

Definition call (c : Call) (m : PerfMonitor.t) : PerfMonitor.result :=
  match c with
  | Start pr l => PerfMonitor.start cfg hwpc_group papi pr l m
  | Stop pr l f n => PerfMonitor.stop cfg hwpc_group pr l f n m
  end.

Fixpoint run_calls (cs : list Call) (m : PerfMonitor.t) : PerfMonitor.result :=
  match cs with
  | [] => Some (m, [])
  | c :: cs =>
      '(m, out) ← call c m;
      '(m, out') ← run_calls cs m;
      Some (m, out ++ out')
  end.

End MonitorRuns.

(** The exclusive flag of the section registered under a label. *)
Definition exclusive_of (m : PerfMonitor.t) (label : string) : option bool :=
  id ← PerfMonitor.m_map_sections m !! label;
  w ← PerfMonitor.watch_at m id;
  Some (PerfWatch.m_exclusive w).

(** Properly nested call sequences: each section is stopped after the
    sections started inside it, labels are not empty, and a section does
    not occur inside itself. *)
Inductive nested : list Call -> Prop :=
  | nested_nil : nested []
  | nested_section pr pr' l f n body rest :
      l <> "" ->
      Forall (fun c => call_label c <> l) body ->
      nested body -> nested rest ->
      nested (Start pr l :: body ++ Stop pr' l f n :: rest).

(** Another section was started and stopped inside [body]. *)
Definition other_section_inside (l : string) (body : list Call) : Prop :=
  exists pr pr' l' f n,
    l' <> l /\ In (Start pr l') body /\ In (Stop pr' l' f n) body.

(** The state the monitor keeps between calls once [initialize] has run
    with a positive number of initial sections: the array holds
    [reserved_nWatch] Watches, [m_nWatch] of them in use, and the local
    registry maps distinct labels to distinct indices below [m_nWatch]. *)
Record wf (m : PerfMonitor.t) : Prop := {
  wf_init : 1 <= PerfMonitor.init_nWatch m;
  wf_nWatch : 0 <= PerfMonitor.m_nWatch m <= PerfMonitor.reserved_nWatch m;
  wf_length : PerfMonitor.reserved_nWatch m
              = Z.of_nat (length (PerfMonitor.m_watchArray m));
  wf_ids : forall l id, PerfMonitor.m_map_sections m !! l = Some id ->
                        0 <= id < PerfMonitor.m_nWatch m;
  wf_inj : forall l1 l2 id, PerfMonitor.m_map_sections m !! l1 = Some id ->
                            PerfMonitor.m_map_sections m !! l2 = Some id -> l1 = l2
}.

(** ** A small concrete setting for the examples

    A serial build in USER mode (no HWPC group selected), one process,
    one thread. *)

Definition cfg_serial : BuildConfig := {| USE_PAPI := false; OPENMP := false |}.
Definition cfg_openmp : BuildConfig := {| USE_PAPI := true; OPENMP := true |}.

Definition hwpc_user : hwpc_group_chooser :=
  {| number := fun _ => 0; i_platform := 0 |}.

Definition probe_at (now : double) : Probe :=
  {| getTime := now; papi_read := fun _ _ => 0;
     omp_in_parallel := false; omp_get_thread_num := 0 |}.

(** A section "A" of rank [rank], registered and idle. *)
Definition watch_A (rank : Z) : PerfWatch.t :=
  PerfWatch.setProperties cfg_serial PerfMonitor.papi_zero (probe_at 0)
    "A" 1 CALC 1 rank 1 true PerfMonitor.PerfWatch_new.

Definition init_env : PerfMonitor.InitEnv :=
  {| PerfMonitor.BYPASS_PMLIB := None;
     PerfMonitor.HWPC_CHOOSER := Some "USER";
     PerfMonitor.MPI_Comm_rank := 0;
     PerfMonitor.MPI_Comm_size := 1;
     PerfMonitor.omp_get_max_threads := 1 |}.

(** The monitor object before [initialize]. *)
Definition monitor_blank : PerfMonitor.t :=
  {| PerfMonitor.is_PMlib_enabled := false; PerfMonitor.init_nWatch := 0;
     PerfMonitor.reserved_nWatch := 0; PerfMonitor.m_nWatch := 0;
     PerfMonitor.m_watchArray := []; PerfMonitor.m_order := None;
     PerfMonitor.m_map_sections := ∅; PerfMonitor.shared_map_sections := ∅;
     PerfMonitor.is_exclusive_construct := false;
     PerfMonitor.is_Root_active := false; PerfMonitor.my_rank := 0;
     PerfMonitor.num_process := 0; PerfMonitor.num_threads := 0;
     PerfMonitor.my_thread := 0; PerfMonitor.env_str_hwpc := "" |}.

(** [PM.initialize()] at time 0 with room for four sections. *)
Definition monitor_initialized : PerfMonitor.t :=
  match PerfMonitor.initialize cfg_serial hwpc_user PerfMonitor.papi_zero
          init_env (probe_at 0) 4 monitor_blank with
  | Some (m, _) => m
  | None => monitor_blank
  end.

(** The exclusive flag of [label] after the calls [cs] on the
    initialized monitor. *)
Definition exclusive_after (cs : list Call) (label : string) : option bool :=
  '(m, _) ← run_calls cfg_serial hwpc_user PerfMonitor.papi_zero cs monitor_initialized;
  exclusive_of m label.





(** The two commands of the shell mode ([src_main]): the first process
    runs [initialize; start("ShellPM"); save_pm_records], *)
Definition shell_start (t_start : double) : option PerfMonitor.record_file :=
  '(m, _) ← PerfMonitor.initialize cfg_serial hwpc_user PerfMonitor.papi_zero
              init_env (probe_at t_start) 4 monitor_blank;
  '(m, _) ← PerfMonitor.start cfg_serial hwpc_user PerfMonitor.papi_zero
              (probe_at t_start) "ShellPM" m;
  PerfMonitor.save_pm_records m None.

(** and a later process runs [initialize; start("ShellPM");
    load_pm_records; stop("ShellPM")] (the report follows). *)
Definition shell_stop (t_begin t_end : double) (file : PerfMonitor.record_file)
    : option (PerfMonitor.t * PerfMonitor.t) :=
  '(m, _) ← PerfMonitor.initialize cfg_serial hwpc_user PerfMonitor.papi_zero
              init_env (probe_at t_begin) 4 monitor_blank;
  '(m, _) ← PerfMonitor.start cfg_serial hwpc_user PerfMonitor.papi_zero
              (probe_at t_begin) "ShellPM" m;
  '(m_loaded, _) ← PerfMonitor.load_pm_records m file;
  '(m_stopped, _) ← PerfMonitor.stop cfg_serial hwpc_user (probe_at t_end)
                      "ShellPM" 0 1 m_loaded;
  Some (m_loaded, m_stopped).

(** A field of the Watch registered under a label. *)
Definition section_field {A} (proj : PerfWatch.t -> A) (m : PerfMonitor.t)
    (label : string) : option A :=
  id ← PerfMonitor.m_map_sections m !! label;
  w ← PerfMonitor.watch_at m id;
  Some (proj w).

(** The start time recorded for a label in a record file. *)
Fixpoint recorded_start (label : string) (fp : list RecordLine) : option double :=
  match fp with
  | [] => None
  | LineSection l t :: fp => if String.eqb l label then Some t else recorded_start label fp
  | _ :: fp => recorded_start label fp
  end.


(** A build with HWPC in the FLOPS group, on a node without topology
    variables. *)
Definition hwpc_flops : hwpc_group_chooser :=
  {| number := fun g => match g with I_flops => 1 | _ => 0 end; i_platform := 0 |}.

Definition env_unset : NodeEnv :=
  {| PJM_PROC_BY_NODE := None; PLE_RANK_ON_NODE := None |}.

(** The scratch area after phase 2 of a section run by two threads, with
    three events. *)
Definition scratch_two_threads : pmlib_papi_chooser :=
  {| num_events := 3; accumu := fun _ => 0; v_sorted := fun _ => 0%float;
     th_values := fun _ _ => 0;
     th_accumu := fun j i => nth i (nth j [[10; 5; 1]; [20; 7; 2]] []) 0;
     th_v_sorted := fun j i =>
       nth i (nth j [[1; 2.5; 100]; [1; 3.5; 200]]%float []) 0%float |}.

(** The master's Watch of that section: three events, nothing merged. *)
Definition watch_two_threads : PerfWatch.t :=
  PerfWatch.setProperties cfg_openmp
    {| num_events := 3; accumu := fun _ => 0; v_sorted := fun _ => 0%float;
       th_values := fun _ _ => 0; th_accumu := fun _ _ => 0;
       th_v_sorted := fun _ _ => 0%float |}
    (probe_at 0) "A" 1 CALC 1 0 2 true PerfMonitor.PerfWatch_new.

(** The master's Watch of a section measured by two threads under the
    FLOPS group, stopped and not merged yet, and the Watch thread 1
    holds for the same section. *)
Definition watch_master : PerfWatch.t :=
  watch_two_threads |> PerfWatch.set_my_papi scratch_two_threads.

Definition probe_thread (thread : Z) : Probe :=
  {| getTime := 0%float; papi_read := fun _ _ => 0;
     omp_in_parallel := true; omp_get_thread_num := thread |}.

Definition watch_worker (thread : Z) : PerfWatch.t :=
  watch_two_threads
    |> PerfWatch.set_my_thread thread |> PerfWatch.set_m_in_parallel true
    |> PerfWatch.set_my_papi
         {| num_events := 3; accumu := fun _ => 0; v_sorted := fun _ => 0%float;
            th_values := fun _ _ => 0;
            th_accumu := fun j i => 100 * Z.of_nat j + Z.of_nat i;
            th_v_sorted := fun j i => nth i [4; 0.5; 8]%float 0%float |}.

(** A probe whose counters of thread [j] read [c * (j + 1) + i] for
    event [i], at time [now]. *)
Definition probe_counting (now : double) (c : Z) : Probe :=
  {| getTime := now;
     papi_read := fun j i => c * (Z.of_nat j + 1) + Z.of_nat i;
     omp_in_parallel := false; omp_get_thread_num := 0 |}.

(** ** Statistics in the words of the spec

    Sums of doubles are accumulated from 0 in the order of the ranks. *)

Definition fsum (l : list double) : double := fold_left PrimFloat.add l 0%float.

(** Arithmetic mean over [n] processes. *)
Definition mean (l : list double) (n : Z) : double :=
  (fsum l / double_of_Z n)%float.

(** Sample standard deviation (divisor [n - 1]) when [n > 1], else 0. *)
Definition sample_sd (l : list double) (n : Z) : double :=
  if 1 <? n then
    sqrt (fsum (map (fun x => (x - mean l n) * (x - mean l n))%float l)
          / double_of_Z (n - 1))%float
  else 0%float.

(** * Notions used in the statements

    Closed forms of what the loops of the measurement engine compute. *)

Section WatchNotions.
Import PerfWatch.
Context (cfg : BuildConfig) (hwpc_group : hwpc_group_chooser).

(** [m_flop] after either stop routine. *)
Definition flop_after (f : double) (n : Z) (w : t) : double :=
  if user_mode hwpc_group w then (m_flop w + f * double_of_Z n)%float else m_flop w.

(** The running maximum of the last block. *)
Definition run_max (l : list double) (c : double) : double :=
  fold_left (fun comm_max t => if (comm_max <? t)%float then t else comm_max) l c.

(** A loop body that rewrites [accumu[i]] from its old value and the
    (fixed) thread counters. *)
Definition writes_event (H : nat -> (nat -> nat -> Z) -> Z -> Z)
    (body : nat -> pmlib_papi_chooser -> pmlib_papi_chooser) : Prop :=
  forall i p, exists acc,
    body i p = set_accumu acc p
    /\ acc i = H i (th_accumu p) (accumu p i)
    /\ (forall e, e <> i -> acc e = accumu p e).

(** The inner accumulation: [accumu[i] += th_accumu[f j][i]] for
    [j < k]. *)
Definition add_rows (f : nat -> nat) (k : nat) (th : nat -> nat -> Z) (i : nat) (a : Z) : Z :=
  fold_left (fun a j => wrap_long (a + th (f j) i)) (seq 0 k) a.

(** The same sum without wrap-around. *)
Definition sum_rows (f : nat -> nat) (k : nat) (th : nat -> nat -> Z) (i : nat) : Z :=
  fold_left (fun a j => a + th (f j) i) (seq 0 k) 0.

(** The apportionment of the A64FX BANDWIDTH counters in closed form:
    with at most 4 processes on the node the process sums the counters
    of the CMGs it occupies (read on their first threads 0, 12, 24, ..)
    and, with 3 processes and more than 12 threads, adds a third of the
    CMG of its last thread; with 5 or more processes it takes its share
    of the one CMG it runs on. *)
Definition owned_cmgs (nt : Z) : nat := Z.to_nat (Z.quot (nt - 1) 12 + 1).

Definition share_ratio_of (np_node my_rank_on_node : Z) : double :=
  let np_share := Z.quot (np_node - 1) 4 + 1 in
  if Z.rem my_rank_on_node 4 <=? Z.rem (np_node - 1) 4
  then (1 / double_of_Z np_share)%float
  else (1 / (double_of_Z np_share - 1))%float.

Definition cmg_share (np_node my_rank_on_node nt : Z) (th : nat -> nat -> Z)
    (e : nat) (a : Z) : Z :=
  if np_node <=? 4 then
    let owned := add_rows (fun k => 12 * k)%nat (owned_cmgs nt) th e 0 in
    if (np_node =? 3) && (12 <? nt)
    then trunc_double (double_of_Z owned
                       + double_of_Z (th (Z.to_nat (nt - 1)) e) * (1 / 3))%float
    else owned
  else if 5 <=? np_node
  then trunc_double (double_of_Z (th 0%nat e) * share_ratio_of np_node my_rank_on_node)%float
  else a.

(** The Watch and the scratch area after phase 3, given the merged
    HWPC record [p] of the Watch and the number of scratch columns. *)
Definition merged (w : t) (papi p : pmlib_papi_chooser) (cols : Z)
    : t * pmlib_papi_chooser :=
  (w |> set_my_papi p |> set_m_threads_merged true
     |> set_m_count (lround (sum_slot (num_threads w) (th_v_sorted p) 0))
     |> set_m_time (sum_slot (num_threads w) (th_v_sorted p) 1)
     |> set_m_flop (sum_slot (num_threads w) (th_v_sorted p) 2),
   papi |> set_th_accumu (fill_block (num_threads w) cols 0 (th_accumu papi))
        |> set_th_v_sorted (fill_block (num_threads w) cols 0%float (th_v_sorted papi))).

Definition guards (w : t) : Prop :=
  OPENMP cfg = true /\ m_threads_merged w = false
  /\ my_thread w = 0 /\ m_started w = false.

End WatchNotions.

Section SortNotions.
Context (cost : nat -> double) (n : nat).
Import PerfMonitor.




End SortNotions.

(** ** The worker threads of a team

    Merge step 2 as the threads other than the master run it between the
    barriers of [mergeThreads], one after the other; each thread has its
    own Watch of the section and its own probe. *)
Definition merge_workers (cfg : BuildConfig) (hwpc_group : hwpc_group_chooser)
    (ws : list (Probe * PerfWatch.t)) (papi : pmlib_papi_chooser) : pmlib_papi_chooser :=
  fold_left
    (fun s pw => snd (fst (PerfWatch.mergeParallelThread cfg hwpc_group pw.1 (pw.2, s))))
    ws papi.

(** The Watch a worker thread holds for a section of the master that was
    measured inside a parallel region: stopped, not merged, of a thread
    of the team, and with the same counters as the master's. *)
Definition worker_of (hwpc_group : hwpc_group_chooser) (master w : PerfWatch.t) : Prop :=
  PerfWatch.m_threads_merged w = false
  /\ 0 < PerfWatch.my_thread w < PerfWatch.num_threads master
  /\ PerfWatch.m_started w = false
  /\ PerfWatch.m_in_parallel w = true
  /\ PerfWatch.statsSwitch hwpc_group w = PerfWatch.statsSwitch hwpc_group master
  /\ num_events (PerfWatch.my_papi w) = num_events (PerfWatch.my_papi master).

(** * Properties *)

(** ** Machine numbers *)

Example lround_half : lround 2.5%float = 3 /\ lround (-2.5)%float = -3
                      /\ lround 2.25%float = 2 /\ lround 0%float = 0.
Proof. repeat split; vm_compute; reflexivity. Qed.

Example double_of_Z_ex : double_of_Z 3 = 3%float /\ double_of_Z (-7) = (-7)%float
   /\ double_of_Z (2^53 + 1) = 9007199254740992%float.
Proof. repeat split; vm_compute; reflexivity. Qed.

Example trunc_ex : trunc_double 2.75%float = 2 /\ trunc_double (-2.75)%float = -2.
Proof. repeat split; vm_compute; reflexivity. Qed.

(** ** Arithmetic helpers *)

Lemma wrap_long_id z : LONG_MIN <= z <= LONG_MAX -> wrap_long z = z.
Proof.
  unfold wrap_long, LONG_MIN, LONG_MAX. intros H.
  rewrite Z.mod_small by lia. lia.
Qed.

Lemma for_loop_S {S} (n : nat) (body : nat -> S -> S) (s : S) :
  for_loop (Z.of_nat (Datatypes.S n)) body s = body n (for_loop (Z.of_nat n) body s).
Proof.
  unfold for_loop. rewrite !Nat2Z.id, seq_S, fold_left_app. reflexivity.
Qed.

Lemma for_loop_0 {S} (n : Z) (body : nat -> S -> S) (s : S) :
  n <= 0 -> for_loop n body s = s.
Proof.
  intros H. unfold for_loop. replace (Z.to_nat n) with 0%nat by lia. reflexivity.
Qed.

(** An invariant holds after a loop when every iteration keeps it. *)
Lemma for_loop_inv {S} (P : S -> Prop) (n : Z) (body : nat -> S -> S) (s : S) :
  P s -> (forall i s, P s -> P (body i s)) -> P (for_loop n body s).
Proof.
  intros H0 Hstep. unfold for_loop.
  generalize (seq 0 (Z.to_nat n)). intros l. revert s H0.
  induction l as [|i l IH]; intros s H0; simpl; auto.
Qed.

(** ** PerfWatch: start and stop, field by field *)

Module PerfWatchFacts.
Import PerfWatch.


Ltac pw_red :=
  cbv beta iota zeta delta
    [set_m_label set_m_id set_m_typeCalc set_m_exclusive set_num_process
     set_my_rank set_num_threads set_my_thread set_m_in_parallel set_m_is_set
     set_level_OTF set_m_threads_merged set_m_is_healthy set_m_started
     set_m_startTime set_m_stopTime set_m_time set_m_flop set_m_count
     set_m_timeArray set_m_flopArray set_m_countArray set_m_count_sum
     set_m_time_av set_m_flop_av set_m_time_sd set_m_flop_sd set_m_time_comm
     set_m_count_av set_my_papi
     m_label m_id m_typeCalc m_exclusive num_process my_rank num_threads
     my_thread m_in_parallel m_is_set level_OTF m_threads_merged m_is_healthy
     m_started m_startTime m_stopTime m_time m_flop m_count m_timeArray
     m_flopArray m_countArray m_count_sum m_time_av m_flop_av m_time_sd
     m_flop_sd m_time_comm m_count_av my_papi fst snd negb].

Section Facts.
Context (cfg : BuildConfig) (hwpc_group : hwpc_group_chooser).

(** The section routines write [my_papi] and, in user mode, [m_flop];
    every other member keeps its value. *)
Lemma startSectionSerial_shape pr w :
  startSectionSerial cfg hwpc_group pr w
  = set_my_papi (my_papi (startSectionSerial cfg hwpc_group pr w)) w.
Proof.
  unfold startSectionSerial. destruct w. repeat case_match; reflexivity.
Qed.

Lemma startSectionParallel_shape pr w :
  startSectionParallel cfg hwpc_group pr w
  = set_my_papi (my_papi (startSectionParallel cfg hwpc_group pr w)) w.
Proof.
  unfold startSectionParallel. destruct w. repeat case_match; reflexivity.
Qed.

Lemma stopSectionSerial_shape pr f n w :
  stopSectionSerial cfg hwpc_group pr f n w
  = set_my_papi (my_papi (stopSectionSerial cfg hwpc_group pr f n w))
      (set_m_flop (flop_after hwpc_group f n w) w).
Proof.
  unfold stopSectionSerial, flop_after, user_mode, add_user_flop.
  set (u := statsSwitch hwpc_group w).
  destruct (2 <=? u) eqn:H2.
  - replace ((u =? 0) || (u =? 1)) with false by (symmetry; apply orb_false_iff; lia).
    destruct w. repeat case_match; reflexivity.
  - destruct ((u =? 0) || (u =? 1)); destruct w; reflexivity.
Qed.

Lemma stopSectionParallel_shape pr f n w :
  stopSectionParallel cfg hwpc_group pr f n w
  = set_my_papi (my_papi (stopSectionParallel cfg hwpc_group pr f n w))
      (set_m_flop (flop_after hwpc_group f n w) w).
Proof.
  unfold stopSectionParallel, flop_after, user_mode, add_user_flop.
  set (u := statsSwitch hwpc_group w).
  destruct (2 <=? u) eqn:H2.
  - replace ((u =? 0) || (u =? 1)) with false by (symmetry; apply orb_false_iff; lia).
    destruct w. repeat case_match; reflexivity.
  - destruct ((u =? 0) || (u =? 1)); destruct w; reflexivity.
Qed.

Lemma setProperties_fields papi pr label id type nPEs rank nT excl w :
  let w' := setProperties cfg papi pr label id type nPEs rank nT excl w in
  m_label w' = label /\ m_exclusive w' = excl /\ m_typeCalc w' = type
  /\ my_rank w' = rank /\ m_started w' = m_started w
  /\ m_is_healthy w' = m_is_healthy w /\ m_count w' = m_count w.
Proof.
  unfold setProperties. destruct w. pw_red.
  repeat match goal with |- context [if ?c then _ else _] => destruct c end;
    repeat split; reflexivity.
Qed.

(** [start] in one equation. *)
Lemma start_shape pr w :
  exists p,
    fst (start cfg hwpc_group pr w)
    = w |> set_m_started true |> set_m_startTime (getTime pr)
        |> set_m_threads_merged false |> set_my_papi p.
Proof.
  unfold start. cbv zeta. simpl fst.
  match goal with |- context [if ?c then _ else _] => destruct c end.
  - rewrite startSectionParallel_shape. eexists. reflexivity.
  - rewrite startSectionSerial_shape. eexists. reflexivity.
Qed.

(** [stop] in one equation. *)
Lemma stop_shape pr f n w :
  exists p,
    fst (stop cfg hwpc_group pr f n w)
    = w |> set_m_is_healthy true |> set_m_stopTime (getTime pr)
        |> set_m_time (m_time w + (getTime pr - m_startTime w))%float
        |> set_m_count (wrap_long (m_count w + 1))
        |> set_m_started false
        |> set_m_flop (flop_after hwpc_group f n w)
        |> set_my_papi p.
Proof.
  destruct w as [l i tc ex np rk nt th ip iset otf tm hl sd st sp tm' fl c ta fa ca cs tav fav tsd fsd tcm cav pp].
  unfold stop.
  destruct hl, sd, ip; pw_red.
  all: (rewrite stopSectionParallel_shape || rewrite stopSectionSerial_shape).
  all: unfold save_thread_scalars, flop_after, user_mode, statsSwitch; pw_red.
  all: eexists; reflexivity.
Qed.

(** One call, field by field. *)
Lemma step_count op w :
  m_count (fst (step cfg hwpc_group op w))
  = match op with
    | OpStart _ => m_count w
    | OpStop _ _ _ => wrap_long (m_count w + 1)
    end.
Proof.
  destruct op as [pr|pr f n]; unfold step.
  - destruct (start_shape pr w) as [p ->]. reflexivity.
  - destruct (stop_shape pr f n w) as [p ->]. reflexivity.
Qed.

Lemma step_started op w :
  m_started (fst (step cfg hwpc_group op w))
  = match op with OpStart _ => true | OpStop _ _ _ => false end.
Proof.
  destruct op as [pr|pr f n]; unfold step.
  - destruct (start_shape pr w) as [p ->]. reflexivity.
  - destruct (stop_shape pr f n w) as [p ->]. reflexivity.
Qed.


Lemma step_user_mode op w :
  user_mode hwpc_group (fst (step cfg hwpc_group op w)) = user_mode hwpc_group w.
Proof.
  destruct op as [pr|pr f n]; unfold step.
  - destruct (start_shape pr w) as [p ->]. reflexivity.
  - destruct (stop_shape pr f n w) as [p ->]. reflexivity.
Qed.

Lemma count_stops_nonneg ops : 0 <= count_stops ops.
Proof. induction ops as [|[|] ops IH]; simpl; lia. Qed.

Lemma run_cons op ops w :
  run cfg hwpc_group (op :: ops) w
  = run cfg hwpc_group ops (fst (step cfg hwpc_group op w)).
Proof. reflexivity. Qed.

Lemma run_count ops : forall w,
  LONG_MIN <= m_count w -> m_count w + count_stops ops <= LONG_MAX ->
  m_count (run cfg hwpc_group ops w) = m_count w + count_stops ops.
Proof.
  induction ops as [|op ops IH]; intros w Hlo Hhi.
  - simpl. lia.
  - rewrite run_cons. pose proof (count_stops_nonneg ops) as Hn.
    destruct op as [pr|pr f n]; simpl count_stops in *.
    + rewrite IH; rewrite step_count; auto.
    + rewrite IH; rewrite step_count, wrap_long_id; lia.
Qed.

Lemma stops_are_pairs ops : forall running,
  no_idle_stop running ops = true -> count_stops ops = executed_pairs running ops.
Proof.
  induction ops as [|[pr|pr f n] ops IH]; intros running H; simpl in *.
  - reflexivity.
  - apply IH, H.
  - apply andb_true_iff in H as [-> H]. rewrite (IH false H). reflexivity.
Qed.






End Facts.
End PerfWatchFacts.

(** ** The call counter *)

(** C2, as it holds on the code: after any sequence of start and stop
    calls on a section, mis-paired ones included, [m_count] has grown by
    the number of stop calls (every stop counts, also one issued while the
    section is idle); when no stop is issued on an idle section this is
    the number of start/stop pairs. *)
Theorem C2_count_is_number_of_stops
    (cfg : BuildConfig) (hwpc_group : hwpc_group_chooser)
    (ops : list Op) (w : PerfWatch.t) :
  LONG_MIN <= PerfWatch.m_count w ->
  PerfWatch.m_count w + count_stops ops <= LONG_MAX ->
  PerfWatch.m_count (run cfg hwpc_group ops w)
  = PerfWatch.m_count w + count_stops ops
  /\ (no_idle_stop (PerfWatch.m_started w) ops = true ->
      PerfWatch.m_count (run cfg hwpc_group ops w)
      = PerfWatch.m_count w + executed_pairs (PerfWatch.m_started w) ops).
Proof.
  intros Hlo Hhi.
  pose proof (PerfWatchFacts.run_count cfg hwpc_group ops w Hlo Hhi) as Hc.
  split; [exact Hc|].
  intros Hp. rewrite Hc. f_equal. apply PerfWatchFacts.stops_are_pairs, Hp.
Qed.

Lemma C2_count_is_number_of_stops_witness :
  let ops := [OpStart (probe_at 1); OpStart (probe_at 2);
              OpStop (probe_at 3) 0 1; OpStop (probe_at 4) 0 1] in
  PerfWatch.m_count (run cfg_serial hwpc_user ops (watch_A 0)) = 0 + 2
  /\ (no_idle_stop false ops = true ->
      PerfWatch.m_count (run cfg_serial hwpc_user ops (watch_A 0)) = 0 + 1).
Proof.
  apply (C2_count_is_number_of_stops cfg_serial hwpc_user
           [OpStart (probe_at 1); OpStart (probe_at 2);
            OpStop (probe_at 3) 0 1; OpStop (probe_at 4) 0 1] (watch_A 0));
    vm_compute; intros; discriminate.
Defined.

(** C2 as stated fails: one stop on an idle, freshly registered section
    executes no start/stop pair, yet the counter reads 1. *)
Lemma C2_counterexample :
  let ops := [OpStop (probe_at 1) 0 1] in
  executed_pairs (PerfWatch.m_started (watch_A 0)) ops = 0
  /\ PerfWatch.m_count (run cfg_serial hwpc_user ops (watch_A 0)) = 1.
Proof. split; vm_compute; reflexivity. Qed.

(** ** Mis-paired calls *)




(** ** What one stop adds *)



Module PerfMonitorFacts.
Import PerfMonitor.

Tactic Notation "pm_cbn" :=
  cbn [set_is_PMlib_enabled set_init_nWatch set_reserved_nWatch set_m_nWatch
       set_m_watchArray set_m_order set_m_map_sections set_shared_map_sections
       set_is_exclusive_construct set_is_Root_active set_my_thread
       is_PMlib_enabled init_nWatch reserved_nWatch m_nWatch m_watchArray m_order
       m_map_sections shared_map_sections is_exclusive_construct is_Root_active
       my_rank num_process num_threads my_thread env_str_hwpc fst snd negb].
Tactic Notation "pm_cbn" "in" hyp(H) :=
  cbn [set_is_PMlib_enabled set_init_nWatch set_reserved_nWatch set_m_nWatch
       set_m_watchArray set_m_order set_m_map_sections set_shared_map_sections
       set_is_exclusive_construct set_is_Root_active set_my_thread
       is_PMlib_enabled init_nWatch reserved_nWatch m_nWatch m_watchArray m_order
       m_map_sections shared_map_sections is_exclusive_construct is_Root_active
       my_rank num_process num_threads my_thread env_str_hwpc fst snd negb] in H.

Section Facts.
Context (cfg : BuildConfig) (hwpc_group : hwpc_group_chooser)
        (papi : pmlib_papi_chooser).

Lemma eqb_label_nonempty (label : string) : label <> "" -> String.eqb label "" = false.
Proof. intros H. apply String.eqb_neq, H. Qed.

Lemma watch_at_lookup m id :
  0 <= id -> watch_at m id = m_watchArray m !! Z.to_nat id.
Proof. intros H. unfold watch_at. destruct (id <? 0) eqn:E; [lia|reflexivity]. Qed.

Lemma watch_at_is_Some m id :
  wf m -> 0 <= id < m_nWatch m -> is_Some (watch_at m id).
Proof.
  intros Hwf Hid. rewrite watch_at_lookup by lia.
  apply lookup_lt_is_Some. destruct Hwf. lia.
Qed.

(** The array after the optional re-allocation of [setProperties]. *)
Lemma grow_if_needed m :
  1 <= init_nWatch m -> 0 <= m_nWatch m <= reserved_nWatch m ->
  reserved_nWatch m = Z.of_nat (length (m_watchArray m)) ->
  exists res arr,
    (if reserved_nWatch m <=? m_nWatch m + 1 then grow m else Some m)
    = Some (m |> set_reserved_nWatch res |> set_m_watchArray arr)
    /\ m_nWatch m + 1 <= res
    /\ res = Z.of_nat (length arr)
    /\ (forall i, (i < Z.to_nat (m_nWatch m))%nat -> arr !! i = m_watchArray m !! i).
Proof.
  intros Hi Hn Hlen.
  destruct (reserved_nWatch m <=? m_nWatch m + 1) eqn:E.
  - unfold grow.
    replace (Z.to_nat (m_nWatch m) <=? length (m_watchArray m))%nat with true
      by (symmetry; apply Nat.leb_le; lia).
    replace (m_nWatch m <=? m_nWatch m + init_nWatch m) with true
      by (symmetry; apply Z.leb_le; lia).
    cbn [andb]. eexists _, _. split; [reflexivity|]. split; [lia|]. split.
    + rewrite length_app, length_take, length_replicate. lia.
    + intros i Hlt. rewrite lookup_app_l by (rewrite length_take; lia).
      apply lookup_take_lt. lia.
  - exists (reserved_nWatch m), (m_watchArray m). split.
    + destruct m; reflexivity.
    + repeat split; auto. lia.
Qed.

Lemma setProperties_new pr label type excl m :
  wf m -> is_PMlib_enabled m = true -> label <> "" ->
  m_map_sections m !! label = None ->
  exists m',
    setProperties cfg papi pr label type excl m = Some (m', [])
    /\ wf m'
    /\ is_PMlib_enabled m' = true
    /\ is_exclusive_construct m' = excl
    /\ m_map_sections m' = <[label := m_nWatch m]> (m_map_sections m)
    /\ is_Some (shared_map_sections m' !! label)
    /\ (exists w, watch_at m' (m_nWatch m) = Some w
                  /\ PerfWatch.m_label w = label /\ PerfWatch.m_exclusive w = excl)
    /\ (forall id, 0 <= id < m_nWatch m -> watch_at m' id = watch_at m id).
Proof.
  intros Hwf Hen Hl Hnone.
  unfold setProperties. rewrite Hen, (eqb_label_nonempty _ Hl). cbn [negb].
  unfold find_section_object, add_section_object, add_shared_section.
  pm_cbn. rewrite Hnone. cbn [Z.ltb Z.compare].
  replace (map_insert label (m_nWatch m) (m_map_sections m))
    with (<[label := m_nWatch m]> (m_map_sections m))
    by (unfold map_insert; rewrite Hnone; reflexivity).
  match goal with
  | |- context [grow ?M] => set (M1 := M)
  end.
  destruct Hwf as [Hi Hn Hlen Hids Hinj].
  destruct (grow_if_needed M1 Hi Hn Hlen) as (res & arr & Hg & Hres & Hlen' & Harr).
  subst M1. pm_cbn. pm_cbn in Hg. rewrite Hg. cbn [mbind option_bind]. pm_cbn.
  pm_cbn in Harr. pm_cbn in Hres.
  unfold call_watch. rewrite watch_at_lookup by lia. pm_cbn.
  destruct (arr !! Z.to_nat (m_nWatch m)) as [w0|] eqn:Hw0.
  2: { apply lookup_ge_None in Hw0. lia. }
  eexists. split; [reflexivity|].
  split; [|split; [|split; [|split; [|split; [|split]]]]]; pm_cbn.
  - constructor; pm_cbn.
    + exact Hi.
    + lia.
    + rewrite length_insert. exact Hlen'.
    + intros l id Hlk. destruct (decide (label = l)) as [<-|Hne].
      * rewrite lookup_insert_eq in Hlk. injection Hlk as <-. lia.
      * rewrite lookup_insert_ne in Hlk by exact Hne. apply Hids in Hlk. lia.
    + intros l1 l2 id H1 H2.
      destruct (decide (label = l1)) as [<-|Hne1];
        destruct (decide (label = l2)) as [<-|Hne2]; try reflexivity.
      * rewrite lookup_insert_eq in H1. injection H1 as <-.
        rewrite lookup_insert_ne in H2 by exact Hne2. apply Hids in H2. lia.
      * rewrite lookup_insert_eq in H2. injection H2 as <-.
        rewrite lookup_insert_ne in H1 by exact Hne1. apply Hids in H1. lia.
      * rewrite lookup_insert_ne in H1 by exact Hne1.
        rewrite lookup_insert_ne in H2 by exact Hne2. eapply Hinj; eauto.
  - exact Hen.
  - reflexivity.
  - reflexivity.
  - unfold map_insert. destruct (shared_map_sections m !! label) eqn:Hs.
    + rewrite Hs. eauto.
    + rewrite lookup_insert_eq. eauto.
  - eexists. rewrite watch_at_lookup by lia. pm_cbn.
    rewrite list_lookup_insert_eq by (apply lookup_lt_Some in Hw0; exact Hw0).
    split; [reflexivity|].
    destruct (PerfWatchFacts.setProperties_fields cfg papi pr label (m_nWatch m) type
                (num_process m) (my_rank m) (num_threads m) excl w0) as (H1 & H2 & _).
    split; assumption.
  - intros id Hid. rewrite !watch_at_lookup by lia. pm_cbn.
    rewrite list_lookup_insert_ne by lia. apply Harr. lia.
Qed.

(** Writing one Watch: the other Watches, the registry and the counters
    of the monitor are untouched. *)
Lemma call_watch_spec id f m :
  wf m -> 0 <= id < m_nWatch m ->
  exists w,
    watch_at m id = Some w
    /\ call_watch id f m
       = Some (set_m_watchArray (<[Z.to_nat id := fst (f w)]> (m_watchArray m)) m,
               snd (f w)).
Proof.
  intros Hwf Hid. destruct (watch_at_is_Some m id Hwf Hid) as [w Hw].
  exists w. split; [exact Hw|]. unfold call_watch. rewrite Hw.
  destruct (f w); reflexivity.
Qed.

Lemma wf_set_watch m id w :
  wf m -> wf (set_m_watchArray (<[id := w]> (m_watchArray m)) m).
Proof.
  intros [Hi Hn Hlen Hids Hinj]. constructor; pm_cbn; auto.
  rewrite length_insert. exact Hlen.
Qed.

Lemma exclusive_of_set_watch m id w l :
  wf m -> 0 <= id < m_nWatch m ->
  exclusive_of (set_m_watchArray (<[Z.to_nat id := w]> (m_watchArray m)) m) l
  = if decide (m_map_sections m !! l = Some id)
    then Some (PerfWatch.m_exclusive w)
    else exclusive_of m l.
Proof.
  intros Hwf Hid. unfold exclusive_of. pm_cbn.
  destruct (m_map_sections m !! l) as [id'|] eqn:Hl; cbn [mbind option_bind].
  2: { destruct (decide _); [discriminate|reflexivity]. }
  pose proof (wf_ids m Hwf _ _ Hl) as Hid'.
  rewrite !watch_at_lookup by lia. pm_cbn.
  destruct (decide (Some id' = Some id)) as [E|E].
  - injection E as ->.
    rewrite list_lookup_insert_eq; [reflexivity|].
    destruct Hwf. lia.
  - rewrite list_lookup_insert_ne; [reflexivity|]. intros E'. apply E. f_equal. lia.
Qed.

Lemma find_registered m l id :
  m_map_sections m !! l = Some id -> find_section_object m l = id.
Proof. intros H. unfold find_section_object. rewrite H. reflexivity. Qed.

(** [PerfMonitor::start] on a well-formed, enabled monitor. *)
Lemma start_spec pr label m :
  wf m -> is_PMlib_enabled m = true -> label <> "" ->
  exists m' out id w,
    start cfg hwpc_group papi pr label m = Some (m', out)
    /\ wf m' /\ is_PMlib_enabled m' = true
    /\ is_exclusive_construct m' = true
    /\ (forall l i, m_map_sections m !! l = Some i -> m_map_sections m' !! l = Some i)
    /\ (forall l, l <> label -> m_map_sections m' !! l = m_map_sections m !! l)
    /\ m_map_sections m' !! label = Some id
    /\ watch_at m' id = Some w
    /\ PerfWatch.m_started w = true
    /\ (m_map_sections m !! label = None ->
        PerfWatch.m_label w = label /\ is_Some (shared_map_sections m' !! label))
    /\ exclusive_of m' label = Some (default true (exclusive_of m label))
    /\ (forall l, l <> label -> exclusive_of m' l = exclusive_of m l).
Proof.
  intros Hwf Hen Hl.
  unfold start. rewrite Hen, (eqb_label_nonempty _ Hl). cbn [negb].
  cbv zeta.
  match goal with
  | |- context [mbind _ ?X] =>
  assert (Hreg : exists m1 id,
             X = Some (m1, [])
             /\ wf m1 /\ is_PMlib_enabled m1 = true
             /\ m_map_sections m1 !! label = Some id
             /\ (forall l i, m_map_sections m !! l = Some i ->
                             m_map_sections m1 !! l = Some i)
             /\ (forall l, l <> label -> m_map_sections m1 !! l = m_map_sections m !! l)
             /\ (m_map_sections m !! label = None ->
                 is_Some (shared_map_sections m1 !! label)
                 /\ exists w, watch_at m1 id = Some w /\ PerfWatch.m_label w = label)
             /\ shared_map_sections m1 !! label
                = (if decide (m_map_sections m !! label = None)
                   then shared_map_sections m1 !! label
                   else shared_map_sections m !! label)
             /\ exclusive_of m1 label = Some (default true (exclusive_of m label))
             /\ (forall l, l <> label -> exclusive_of m1 l = exclusive_of m l))
  end.
  { destruct (m_map_sections m !! label) as [id|] eqn:Hlk.
    - exists m, id. rewrite (find_registered _ _ _ Hlk).
      pose proof (wf_ids m Hwf _ _ Hlk) as Hid.
      replace (id <? 0) with false by (symmetry; apply Z.ltb_ge; lia).
      split; [reflexivity|]. split; [exact Hwf|]. split; [exact Hen|].
      split; [exact Hlk|]. split; [auto|]. split; [auto|].
      split; [congruence|].
      split; [destruct (decide _); [congruence|reflexivity]|].
      split; [|reflexivity].
      unfold exclusive_of. rewrite Hlk. cbn [mbind option_bind].
      destruct (watch_at_is_Some m id Hwf Hid) as [w Hw]. rewrite Hw. reflexivity.
    - destruct (setProperties_new pr label CALC true m Hwf Hen Hl Hlk)
        as (m1 & Hsp & Hwf1 & Hen1 & _ & Hmap & Hsh & (w & Hw & Hlab & Hex) & Hold).
      exists m1, (m_nWatch m). unfold find_section_object. rewrite Hlk. cbn [Z.ltb Z.compare].
      split; [exact Hsp|]. split; [exact Hwf1|]. split; [exact Hen1|].
      split; [rewrite Hmap; apply lookup_insert_eq|].
      split.
      { intros l i Hli. rewrite Hmap. rewrite lookup_insert_ne; [exact Hli|].
        intros <-. congruence. }
      split.
      { intros l Hne. rewrite Hmap. apply lookup_insert_ne. congruence. }
      split; [intros _; split; [exact Hsh|eauto]|].
      split; [destruct (decide _); [reflexivity|congruence]|].
      split.
      { unfold exclusive_of at 1. rewrite Hmap, lookup_insert_eq. cbn [mbind option_bind].
        rewrite Hw. cbn [mbind option_bind]. rewrite Hex.
        unfold exclusive_of. rewrite Hlk. reflexivity. }
      intros l Hne. unfold exclusive_of. rewrite Hmap.
      rewrite lookup_insert_ne by congruence.
      destruct (m_map_sections m !! l) as [i|] eqn:Hli; [|reflexivity].
      cbn [mbind option_bind]. rewrite Hold; [reflexivity|].
      apply (wf_ids m Hwf _ _ Hli). }
  destruct Hreg as (m1 & id & Hsp & Hwf1 & Hen1 & Hlk1 & Hsub & Hother & Hnew & _ & Hex & Hexo).
  rewrite Hsp. cbn [mbind option_bind].
  rewrite (find_registered _ _ _ Hlk1).
  set (m2 := set_is_exclusive_construct true m1).
  assert (Hwf2 : wf m2) by (destruct Hwf1; constructor; assumption).
  pose proof (wf_ids m1 Hwf1 _ _ Hlk1) as Hid.
  destruct (call_watch_spec id (PerfWatch.start cfg hwpc_group pr) m2 Hwf2 Hid)
    as (w & Hw & Hcall).
  rewrite Hcall. cbn [mbind option_bind].
  destruct (PerfWatchFacts.start_shape cfg hwpc_group pr w) as [p Hp].
  eexists _, _, id, _. split; [reflexivity|].
  split; [apply wf_set_watch, Hwf2|].
  split; [exact Hen1|]. split; [reflexivity|].
  split; [exact Hsub|]. split; [exact Hother|]. split; [exact Hlk1|].
  split.
  { rewrite watch_at_lookup by lia. pm_cbn.
    apply list_lookup_insert_eq. unfold m2. pm_cbn.
    pose proof (wf_nWatch m1 Hwf1). pose proof (wf_length m1 Hwf1). lia. }
  split; [rewrite Hp; reflexivity|].
  split.
  { intros Hnone. destruct (Hnew Hnone) as (Hsh & w' & Hw' & Hlab).
    split; [|exact Hsh].
    rewrite Hp. pm_cbn. change (watch_at m2 id) with (watch_at m1 id) in Hw.
    assert (w = w') by congruence. subst w'. exact Hlab. }
  split.
  { rewrite (exclusive_of_set_watch m2 id _ label Hwf2 Hid).
    destruct (decide _) as [_|E]; [|exfalso; apply E; exact Hlk1].
    rewrite Hp. cbn. rewrite <- Hex. unfold exclusive_of.
    rewrite Hlk1. cbn [mbind option_bind].
    change (watch_at m2 id) with (watch_at m1 id) in Hw. rewrite Hw. reflexivity. }
  intros l Hne.
  rewrite (exclusive_of_set_watch m2 id _ l Hwf2 Hid).
  destruct (decide _) as [E|_].
  - exfalso. apply Hne. eapply (wf_inj m1 Hwf1); eauto.
  - rewrite <- (Hexo l Hne). reflexivity.
Qed.

(** [PerfMonitor::stop] of a registered label on a well-formed, enabled
    monitor. *)
Lemma stop_spec pr label f n m id :
  wf m -> is_PMlib_enabled m = true -> label <> "" ->
  m_map_sections m !! label = Some id ->
  exists m' out b,
    stop cfg hwpc_group pr label f n m = Some (m', out)
    /\ wf m' /\ is_PMlib_enabled m' = true
    /\ is_exclusive_construct m' = false
    /\ m_map_sections m' = m_map_sections m
    /\ exclusive_of m label = Some b
    /\ exclusive_of m' label = Some (b && is_exclusive_construct m)
    /\ (forall l, l <> label -> exclusive_of m' l = exclusive_of m l).
Proof.
  intros Hwf Hen Hl Hlk.
  pose proof (wf_ids m Hwf _ _ Hlk) as Hid.
  unfold stop. rewrite Hen, (eqb_label_nonempty _ Hl). cbn [negb].
  rewrite (find_registered _ _ _ Hlk).
  replace (id <? 0) with false by (symmetry; apply Z.ltb_ge; lia).
  destruct (call_watch_spec id (PerfWatch.stop cfg hwpc_group pr f n) m Hwf Hid)
    as (w & Hw & Hcall).
  rewrite Hcall. cbn [mbind option_bind].
  destruct (PerfWatchFacts.stop_shape cfg hwpc_group pr f n w) as [p Hp].
  set (w1 := fst (PerfWatch.stop cfg hwpc_group pr f n w)) in *.
  set (m1 := set_m_watchArray (<[Z.to_nat id := w1]> (m_watchArray m)) m).
  assert (Hwf1 : wf m1) by apply wf_set_watch, Hwf.
  assert (Hex1 : forall l, exclusive_of m1 l
                           = if decide (m_map_sections m !! l = Some id)
                             then Some (PerfWatch.m_exclusive w) else exclusive_of m l).
  { intros l. unfold m1. rewrite (exclusive_of_set_watch m id w1 l Hwf Hid).
    destruct (decide _); [|reflexivity]. rewrite Hp. reflexivity. }
  assert (Hexm : exclusive_of m label = Some (PerfWatch.m_exclusive w)).
  { unfold exclusive_of. rewrite Hlk. cbn [mbind option_bind]. rewrite Hw. reflexivity. }
  change (is_exclusive_construct m1) with (is_exclusive_construct m).
  destruct (is_exclusive_construct m) eqn:Hflag; cbn [negb mbind option_bind].
  - eexists _, _, _. split; [reflexivity|].
    split; [destruct Hwf1; constructor; assumption|].
    split; [exact Hen|]. split; [reflexivity|]. split; [reflexivity|].
    split; [exact Hexm|]. split.
    + change (exclusive_of (set_is_exclusive_construct false m1) label)
        with (exclusive_of m1 label).
      rewrite Hex1. destruct (decide _) as [_|E]; [|contradiction].
      rewrite andb_true_r. reflexivity.
    + intros l Hne.
      change (exclusive_of (set_is_exclusive_construct false m1) l)
        with (exclusive_of m1 l).
      rewrite Hex1. destruct (decide _) as [E|_]; [|reflexivity].
      exfalso. apply Hne. eapply (wf_inj m Hwf); eauto.
  - assert (Hid1 : 0 <= id < m_nWatch m1) by exact Hid.
    destruct (call_watch_spec id (fun w => (PerfWatch.set_m_exclusive false w, []))
                m1 Hwf1 Hid1) as (w' & Hw' & Hcall').
    rewrite Hcall'. cbn [mbind option_bind fst snd].
    set (m2 := set_m_watchArray _ m1).
    assert (Hwf2 : wf m2) by apply wf_set_watch, Hwf1.
    eexists _, _, _. split; [reflexivity|].
    split; [destruct Hwf2; constructor; assumption|].
    split; [exact Hen|]. split; [reflexivity|]. split; [reflexivity|].
    split; [exact Hexm|]. split.
    + change (exclusive_of (set_is_exclusive_construct false m2) label)
        with (exclusive_of m2 label).
      unfold m2. rewrite (exclusive_of_set_watch m1 id _ label Hwf1 Hid1).
      destruct (decide _) as [_|E]; [|contradiction].
      rewrite andb_false_r. reflexivity.
    + intros l Hne.
      change (exclusive_of (set_is_exclusive_construct false m2) l)
        with (exclusive_of m2 l).
      unfold m2. rewrite (exclusive_of_set_watch m1 id _ l Hwf1 Hid1).
      destruct (decide _) as [E|_].
      * exfalso. apply Hne. eapply (wf_inj m Hwf); eauto.
      * rewrite Hex1. destruct (decide _) as [E|_]; [|reflexivity].
        exfalso. apply Hne. eapply (wf_inj m Hwf); eauto.
Qed.

Lemma run_calls_app cs1 cs2 m :
  run_calls cfg hwpc_group papi (cs1 ++ cs2) m
  = '(m1, out1) ← run_calls cfg hwpc_group papi cs1 m;
    '(m2, out2) ← run_calls cfg hwpc_group papi cs2 m1;
    Some (m2, out1 ++ out2).
Proof.
  revert m. induction cs1 as [|c cs1 IH]; intros m.
  - cbn [app run_calls mbind option_bind].
    destruct (run_calls cfg hwpc_group papi cs2 m) as [[m2 out2]|]; reflexivity.
  - cbn [app run_calls]. destruct (call cfg hwpc_group papi c m) as [[m1 o1]|];
      cbn [mbind option_bind]; [|reflexivity].
    rewrite IH.
    destruct (run_calls cfg hwpc_group papi cs1 m1) as [[m2 o2]|];
      cbn [mbind option_bind]; [|reflexivity].
    destruct (run_calls cfg hwpc_group papi cs2 m2) as [[m3 o3]|];
      cbn [mbind option_bind]; [|reflexivity].
    rewrite app_assoc. reflexivity.
Qed.

(** A properly nested sequence runs to completion, keeps the monitor
    well formed, leaves [is_exclusive_construct] false unless it is
    empty, and does not touch the exclusive flag of a section that does
    not occur in it. *)
Lemma run_nested cs :
  nested cs ->
  forall m, wf m -> is_PMlib_enabled m = true ->
  exists m' out,
    run_calls cfg hwpc_group papi cs m = Some (m', out)
    /\ wf m' /\ is_PMlib_enabled m' = true
    /\ (forall l i, m_map_sections m !! l = Some i -> m_map_sections m' !! l = Some i)
    /\ is_exclusive_construct m'
       = (match cs with [] => is_exclusive_construct m | _ => false end)
    /\ (forall l, Forall (fun c => call_label c <> l) cs ->
                  exclusive_of m' l = exclusive_of m l).
Proof.
  induction 1 as [|pr pr' l f n body rest Hl Hbody Hnb IHb Hnr IHr]; intros m Hwf Hen.
  - exists m, []. split; [reflexivity|]. split; [exact Hwf|]. split; [exact Hen|].
    split; [auto|]. split; [reflexivity|]. reflexivity.
  - destruct (start_spec pr l m Hwf Hen Hl)
      as (m1 & o1 & id & w & Hs & Hwf1 & Hen1 & Hfl1 & Hsub1 & _ & Hlk1 & _ & _ & _ & Hex1 & Hexo1).
    destruct (IHb m1 Hwf1 Hen1) as (m2 & o2 & Hb & Hwf2 & Hen2 & Hsub2 & Hfl2 & Hexo2).
    destruct (stop_spec pr' l f n m2 id Hwf2 Hen2 Hl (Hsub2 _ _ Hlk1))
      as (m3 & o3 & b & Hst & Hwf3 & Hen3 & Hfl3 & Hmap3 & Hb3 & Hex3 & Hexo3).
    destruct (IHr m3 Hwf3 Hen3) as (m4 & o4 & Hr & Hwf4 & Hen4 & Hsub4 & Hfl4 & Hexo4).
    exists m4. eexists. split.
    { change (Start pr l :: body ++ Stop pr' l f n :: rest)
        with ([Start pr l] ++ body ++ [Stop pr' l f n] ++ rest).
      rewrite run_calls_app. cbn [run_calls call]. rewrite Hs. cbn [mbind option_bind].
      rewrite run_calls_app, Hb. cbn [mbind option_bind].
      rewrite run_calls_app. cbn [run_calls call]. rewrite Hst. cbn [mbind option_bind].
      rewrite Hr. cbn [mbind option_bind]. reflexivity. }
    split; [exact Hwf4|]. split; [exact Hen4|].
    split.
    { intros l0 i Hi. apply Hsub4. rewrite Hmap3. apply Hsub2, Hsub1, Hi. }
    split.
    { rewrite Hfl4. destruct rest; [exact Hfl3|reflexivity]. }
    intros l0 Hall. apply Forall_cons in Hall as [Hne Hall]. cbn [call_label] in Hne.
    apply Forall_app in Hall as [Hall1 Hall2].
    apply Forall_cons in Hall2 as [_ Hall2].
    assert (Hne' : l0 <> l) by congruence.
    rewrite (Hexo4 l0 Hall2), (Hexo3 l0 Hne'), (Hexo2 l0 Hall1), (Hexo1 l0 Hne').
    reflexivity.
Qed.

(** What [initialize] establishes. *)
Lemma initialize_wf ie pr inn m0 :
  BYPASS_PMLIB ie = None -> 1 <= inn -> m_map_sections m0 = ∅ ->
  exists m out,
    initialize cfg hwpc_group papi ie pr inn m0 = Some (m, out)
    /\ wf m /\ is_PMlib_enabled m = true
    /\ m_map_sections m = {[ "Root Section" := 0 ]}.
Proof.
  intros Hby Hinn Hmap. unfold initialize. rewrite Hby.
  destruct (match HWPC_CHOOSER ie with
            | Some s => if known_chooser s then (s, [])
                        else ("FLOPS", [PrintDiag "initialize()" "unknown HWPC_CHOOSER value."])
            | None => ("FLOPS", [])
            end) as [chooser out0].
  unfold call_watch, watch_at, add_section_object, add_shared_section. pm_cbn.
  rewrite Hmap.
  destruct (Z.to_nat inn) as [|k] eqn:Hk; [lia|].
  change (Z.to_nat 0) with 0%nat. change (0 <? 0) with false.
  cbn [replicate lookup list_lookup mbind option_bind insert list_insert]. pm_cbn.
  cbn [lookup list_lookup mbind option_bind insert list_insert]. pm_cbn.
  cbn [lookup list_lookup mbind option_bind insert list_insert]. pm_cbn.
  match goal with
  | |- context [PerfWatch.start cfg hwpc_group pr ?W] =>
      destruct (PerfWatch.start cfg hwpc_group pr W) as [w' o'] eqn:Hst
  end.
  cbn [mbind option_bind insert list_insert]. pm_cbn.
  eexists _, _. split; [reflexivity|].
  split; [|split; [reflexivity|]].
  - constructor; pm_cbn.
    + lia.
    + lia.
    + cbn [length]. rewrite length_replicate. lia.
    + intros l id Hl. unfold map_insert in Hl. rewrite lookup_empty in Hl.
      destruct (decide (l = "Root Section")) as [->|Hne].
      * rewrite lookup_insert_eq in Hl. injection Hl as <-. lia.
      * rewrite lookup_insert_ne in Hl by congruence. rewrite lookup_empty in Hl.
        discriminate.
    + intros l1 l2 id H1 H2. unfold map_insert in H1, H2.
      rewrite lookup_empty in H1, H2.
      destruct (decide (l1 = "Root Section")) as [->|Hne1];
        destruct (decide (l2 = "Root Section")) as [->|Hne2]; try reflexivity.
      * rewrite lookup_insert_ne in H2 by congruence. rewrite lookup_empty in H2.
        discriminate.
      * rewrite lookup_insert_ne in H1 by congruence. rewrite lookup_empty in H1.
        discriminate.
      * rewrite lookup_insert_ne in H1 by congruence. rewrite lookup_empty in H1.
        discriminate.
  - unfold map_insert. rewrite lookup_empty. reflexivity.
Qed.

End Facts.
End PerfMonitorFacts.

(** ** The exclusive flag *)

Lemma monitor_initialized_wf :
  wf monitor_initialized /\ PerfMonitor.is_PMlib_enabled monitor_initialized = true
  /\ PerfMonitor.m_map_sections monitor_initialized = {[ "Root Section" := 0 ]}.
Proof.
  destruct (PerfMonitorFacts.initialize_wf cfg_serial hwpc_user PerfMonitor.papi_zero
              init_env (probe_at 0) 4 monitor_blank eq_refl ltac:(lia) eq_refl)
    as (m & out & Heq & Hwf & Hen & Hmap).
  unfold monitor_initialized. rewrite Heq. auto.
Qed.

Lemma nested_nonempty_other l body :
  nested body -> Forall (fun c => call_label c <> l) body ->
  (other_section_inside l body <-> body <> []).
Proof.
  intros Hn Hall. split.
  - intros (pr & pr' & l' & f & n & _ & Hin & _) ->. destruct Hin.
  - intros Hne. destruct Hn as [|pr pr' x f n b r Hx _ _ _]; [congruence|].
    apply Forall_cons in Hall as [Hxl _]. cbn [call_label] in Hxl.
    exists pr, pr', x, f, n. split; [exact Hxl|]. split.
    + left. reflexivity.
    + right. apply in_or_app. right. left. reflexivity.
Qed.

(** C4, as it holds on the code: in a properly nested sequence of start
    and stop calls, a section that is exclusive when it is started has
    its exclusive flag false after its stop if and only if another
    section was started and stopped while it was active. *)
Theorem C4_exclusive_flag_nested
    (cfg : BuildConfig) (hwpc_group : hwpc_group_chooser) (papi : pmlib_papi_chooser)
    (m : PerfMonitor.t) (pr pr' : Probe) (l : string) (f : double) (n : Z)
    (body : list Call) :
  wf m -> PerfMonitor.is_PMlib_enabled m = true ->
  l <> "" -> nested body -> Forall (fun c => call_label c <> l) body ->
  default true (exclusive_of m l) = true ->
  exists m' out,
    run_calls cfg hwpc_group papi (Start pr l :: body ++ [Stop pr' l f n]) m
    = Some (m', out)
    /\ (exclusive_of m' l = Some false <-> other_section_inside l body)
    /\ (exclusive_of m' l = Some true <-> body = []).
Proof.
  intros Hwf Hen Hl Hnb Hall Hex.
  destruct (PerfMonitorFacts.start_spec cfg hwpc_group papi pr l m Hwf Hen Hl)
    as (m1 & o1 & id & w & Hs & Hwf1 & Hen1 & Hfl1 & _ & _ & Hlk1 & _ & _ & _ & Hex1 & _).
  destruct (PerfMonitorFacts.run_nested cfg hwpc_group papi body Hnb m1 Hwf1 Hen1)
    as (m2 & o2 & Hb & Hwf2 & Hen2 & Hsub2 & Hfl2 & Hexo2).
  destruct (PerfMonitorFacts.stop_spec cfg hwpc_group pr' l f n m2 id Hwf2 Hen2 Hl
              (Hsub2 _ _ Hlk1))
    as (m3 & o3 & b & Hst & _ & _ & _ & _ & Hb3 & Hex3 & _).
  exists m3. eexists. split.
  { change (Start pr l :: body ++ [Stop pr' l f n])
      with ([Start pr l] ++ body ++ [Stop pr' l f n]).
    rewrite PerfMonitorFacts.run_calls_app. cbn [run_calls call]. rewrite Hs.
    cbn [mbind option_bind].
    rewrite PerfMonitorFacts.run_calls_app, Hb. cbn [mbind option_bind run_calls call].
    rewrite Hst. cbn [mbind option_bind]. reflexivity. }
  rewrite (Hexo2 l Hall), Hex1, Hex in Hb3. injection Hb3 as <-.
  rewrite Hex3, Hfl2, (nested_nonempty_other l body Hnb Hall).
  destruct body as [|c body].
  - rewrite Hfl1. cbn [andb]. split; split; congruence.
  - cbn [andb]. split; split; congruence.
Qed.

Lemma C4_exclusive_flag_nested_witness :
  exists m' out,
    run_calls cfg_serial hwpc_user PerfMonitor.papi_zero
      (Start (probe_at 1) "outer"
         :: [Start (probe_at 2) "inner"; Stop (probe_at 3) "inner" 0 1]
         ++ [Stop (probe_at 4) "outer" 0 1]) monitor_initialized
    = Some (m', out)
    /\ (exclusive_of m' "outer" = Some false
        <-> other_section_inside "outer"
              [Start (probe_at 2) "inner"; Stop (probe_at 3) "inner" 0 1])
    /\ (exclusive_of m' "outer" = Some true
        <-> [Start (probe_at 2) "inner"; Stop (probe_at 3) "inner" 0 1] = []).
Proof.
  destruct monitor_initialized_wf as (Hwf & Hen & Hmap).
  apply (C4_exclusive_flag_nested cfg_serial hwpc_user PerfMonitor.papi_zero
           monitor_initialized (probe_at 1) (probe_at 4) "outer" 0%float 1
           [Start (probe_at 2) "inner"; Stop (probe_at 3) "inner" 0 1] Hwf Hen).
  - discriminate.
  - apply (nested_section (probe_at 2) (probe_at 3) "inner" 0%float 1 [] []);
      [discriminate|constructor|constructor|constructor].
  - repeat constructor; discriminate.
  - unfold exclusive_of. rewrite Hmap. reflexivity.
Defined.

(** C4 as stated fails: with the overlapping calls start A, start B,
    stop A, stop B, nothing is started between the start and the stop of
    B, yet B ends with its exclusive flag false. *)
Lemma C4_counterexample :
  exclusive_after [Start (probe_at 1) "A"; Start (probe_at 2) "B";
                   Stop (probe_at 3) "A" 0 1; Stop (probe_at 4) "B" 0 1] "B"
  = Some false
  /\ ~ other_section_inside "B" [Stop (probe_at 3) "A" 0 1].
Proof.
  split.
  - vm_compute. reflexivity.
  - intros (pr & pr' & l' & f & n & _ & Hin & _).
    destruct Hin as [Hin|[]]. discriminate.
Qed.

(** ** Unknown labels *)

(** C10: stop with a non-empty label that is not registered returns with
    the whole monitor state unchanged (Watches, accumulators and both
    registries) and, when PMlib is enabled, calls printDiag once; start
    with such a label registers the section in both registries and
    starts its Watch. *)
Theorem C10_stop_unknown_label
    (cfg : BuildConfig) (hwpc_group : hwpc_group_chooser) (papi : pmlib_papi_chooser)
    (pr : Probe) (label : string) (f : double) (n : Z) (m : PerfMonitor.t) :
  label <> "" -> PerfMonitor.find_section_object m label < 0 ->
  (exists out,
     PerfMonitor.stop cfg hwpc_group pr label f n m = Some (m, out)
     /\ (PerfMonitor.is_PMlib_enabled m = true ->
         out = [PrintDiag "stop()"
                  ("label [" +:+ label
                   +:+ "] is undefined. This may lead to incorrect measurement.")]))
  /\ (wf m -> PerfMonitor.is_PMlib_enabled m = true ->
      exists m' out id w,
        PerfMonitor.start cfg hwpc_group papi pr label m = Some (m', out)
        /\ PerfMonitor.find_section_object m' label = id /\ 0 <= id
        /\ PerfMonitor.watch_at m' id = Some w
        /\ PerfWatch.m_label w = label
        /\ PerfWatch.m_started w = true
        /\ is_Some (PerfMonitor.m_map_sections m' !! label)
        /\ is_Some (PerfMonitor.shared_map_sections m' !! label)).
Proof.
  intros Hl Hfind. split.
  - unfold PerfMonitor.stop.
    rewrite (PerfMonitorFacts.eqb_label_nonempty _ Hl).
    destruct (PerfMonitor.is_PMlib_enabled m); cbn [negb].
    + replace (PerfMonitor.find_section_object m label <? 0) with true
        by (symmetry; apply Z.ltb_lt; exact Hfind).
      eexists. split; [reflexivity|]. intros _. reflexivity.
    + eexists. split; [reflexivity|]. discriminate.
  - intros Hwf Hen.
    assert (Hnone : PerfMonitor.m_map_sections m !! label = None).
    { unfold PerfMonitor.find_section_object in Hfind.
      destruct (PerfMonitor.m_map_sections m !! label) as [i|] eqn:E; [|reflexivity].
      apply (wf_ids m Hwf) in E. lia. }
    destruct (PerfMonitorFacts.start_spec cfg hwpc_group papi pr label m Hwf Hen Hl)
      as (m' & out & id & w & Hs & Hwf' & _ & _ & _ & _ & Hlk & Hw & Hst & Hnew & _).
    destruct (Hnew Hnone) as [Hlab Hsh].
    exists m', out, id, w. split; [exact Hs|].
    split; [apply PerfMonitorFacts.find_registered, Hlk|].
    split; [apply (wf_ids m' Hwf' _ _ Hlk)|].
    split; [exact Hw|]. split; [exact Hlab|]. split; [exact Hst|].
    split; [rewrite Hlk; eauto|exact Hsh].
Qed.

Lemma C10_stop_unknown_label_witness :
  (exists out,
     PerfMonitor.stop cfg_serial hwpc_user (probe_at 1) "X" 0 1 monitor_initialized
     = Some (monitor_initialized, out)
     /\ out = [PrintDiag "stop()"
                 "label [X] is undefined. This may lead to incorrect measurement."])
  /\ (exists m' out id w,
        PerfMonitor.start cfg_serial hwpc_user PerfMonitor.papi_zero (probe_at 1) "X"
          monitor_initialized = Some (m', out)
        /\ PerfMonitor.find_section_object m' "X" = id /\ 0 <= id
        /\ PerfMonitor.watch_at m' id = Some w
        /\ PerfWatch.m_label w = "X"
        /\ PerfWatch.m_started w = true
        /\ is_Some (PerfMonitor.m_map_sections m' !! "X")
        /\ is_Some (PerfMonitor.shared_map_sections m' !! "X")).
Proof.
  destruct monitor_initialized_wf as (Hwf & Hen & Hmap).
  assert (Hfind : PerfMonitor.find_section_object monitor_initialized "X" < 0).
  { unfold PerfMonitor.find_section_object. rewrite Hmap. reflexivity. }
  destruct (C10_stop_unknown_label cfg_serial hwpc_user PerfMonitor.papi_zero
              (probe_at 1) "X" 0%float 1 monitor_initialized
              ltac:(discriminate) Hfind) as [(out & Hstop & Hout) Hstart].
  split.
  - exists out. split; [exact Hstop|exact (Hout Hen)].
  - exact (Hstart Hwf Hen).
Defined.

(** ** Order of doubles

    [<] on binary64 is transitive and asymmetric (NaN compares false
    with everything), by the specification of the primitive comparison. *)

Module FloatOrder.

Lemma SFcompare_finite_pos (m1 m2 : positive) (e1 e2 : Z) :
  SFcompare (S754_finite false m1 e1) (S754_finite false m2 e2)
  = Some (match e1 ?= e2 with Lt => Lt | Gt => Gt | Eq => Pos.compare m1 m2 end).
Proof. reflexivity. Qed.

Ltac cmp_cases :=
  repeat match goal with
         | |- context [Z.compare ?a ?b] => destruct (Z.compare_spec a b)
         | H : context [Z.compare ?a ?b] |- _ => destruct (Z.compare_spec a b)
         | |- context [Pos.compare ?a ?b] => destruct (Pos.compare_spec a b)
         | H : context [Pos.compare ?a ?b] |- _ => destruct (Pos.compare_spec a b)
         end.


Lemma SFltb_asym x y : SFltb x y = true -> SFltb y x = false.
Proof.
  unfold SFltb, SFcompare.
  destruct x as [sx|sx| |sx mx ex], y as [sy|sy| |sy my ey];
    repeat match goal with s : bool |- _ => destruct s end;
    try (intros; reflexivity); try (intros; discriminate);
    change (Pos.compare_cont Eq) with Pos.compare;
    intros H1; cmp_cases; subst; simpl in *; try reflexivity; try discriminate; try lia.
Qed.


Lemma ltb_asym (x y : float) : (x <? y)%float = true -> (y <? x)%float = false.
Proof. rewrite !FloatAxioms.ltb_spec. apply SFltb_asym. Qed.

Lemma ltb_irrefl (x : float) : (x <? x)%float = false.
Proof.
  destruct (x <? x)%float eqn:E; [|reflexivity].
  pose proof (ltb_asym x x E). congruence.
Qed.







End FloatOrder.

(** ** The exchange sort of [sort_m_order] *)

Module SortFacts.
Import PerfMonitor.
Import Stdlib.Sorting.Permutation.


Lemma fold_left_ext_in {S B} (f g : S -> B -> S) (l : list B) :
  (forall s x, In x l -> f s x = g s x) ->
  forall s, fold_left f l s = fold_left g l s.
Proof.
  induction l as [|x l IH]; intros H s; [reflexivity|].
  cbn [fold_left]. rewrite H by (left; reflexivity).
  apply IH. intros s' y Hy. apply H. right. exact Hy.
Qed.




Section Sorting.
Context (cost : nat -> double) (n : nat).






End Sorting.
End SortFacts.

(** ** The order of the report *)





(** ** The statistics of [statsAverage] *)

Module StatsFacts.
Import PerfWatch.

Lemma for_loop_nat {S} (n : Z) (body : nat -> S -> S) (s : S) :
  for_loop n body s = for_loop (Z.of_nat (Z.to_nat n)) body s.
Proof. unfold for_loop. rewrite Nat2Z.id. reflexivity. Qed.

Lemma take_snoc (l : list double) (k : nat) :
  (k < length l)%nat -> take (S k) l = take k l ++ [nth k l 0%float].
Proof.
  intros Hk. apply take_S_r.
  destruct (nth_lookup_or_length l k 0%float) as [H|H]; [exact H|lia].
Qed.

Lemma fold_add_snoc (g : double -> double) (l : list double) (k : nat) (acc : double) :
  (k < length l)%nat ->
  fold_left PrimFloat.add (map g (take (S k) l)) acc
  = (fold_left PrimFloat.add (map g (take k l)) acc + g (nth k l 0))%float.
Proof.
  intros Hk. rewrite take_snoc by exact Hk.
  rewrite map_app, fold_left_app. reflexivity.
Qed.

Lemma mean_loop (k : nat) (w : t) :
  (k <= length (m_timeArray w))%nat -> (k <= length (m_flopArray w))%nat ->
  for_loop (Z.of_nat k)
    (fun i w =>
       w |> set_m_time_av (m_time_av w + nth i (m_timeArray w) 0)%float
         |> set_m_flop_av (m_flop_av w + nth i (m_flopArray w) 0)%float) w
  = w |> set_m_time_av
           (fold_left PrimFloat.add (map id (take k (m_timeArray w))) (m_time_av w))
      |> set_m_flop_av
           (fold_left PrimFloat.add (map id (take k (m_flopArray w))) (m_flop_av w)).
Proof.
  induction k as [|k IH]; intros Ht Hf.
  - rewrite for_loop_0 by lia. destruct w; reflexivity.
  - rewrite for_loop_S, IH by lia.
    rewrite !fold_add_snoc by lia. destruct w; reflexivity.
Qed.

Lemma sd_loop (k : nat) (w : t) :
  (k <= length (m_timeArray w))%nat -> (k <= length (m_flopArray w))%nat ->
  for_loop (Z.of_nat k)
    (fun i w =>
       let d_time := (nth i (m_timeArray w) 0 - m_time_av w)%float in
       let d_flop := (nth i (m_flopArray w) 0 - m_flop_av w)%float in
       w |> set_m_time_sd (m_time_sd w + d_time * d_time)%float
         |> set_m_flop_sd (m_flop_sd w + d_flop * d_flop)%float) w
  = w |> set_m_time_sd
           (fold_left PrimFloat.add
              (map (fun x => (x - m_time_av w) * (x - m_time_av w))%float
                   (take k (m_timeArray w))) (m_time_sd w))
      |> set_m_flop_sd
           (fold_left PrimFloat.add
              (map (fun x => (x - m_flop_av w) * (x - m_flop_av w))%float
                   (take k (m_flopArray w))) (m_flop_sd w)).
Proof.
  induction k as [|k IH]; intros Ht Hf.
  - rewrite for_loop_0 by lia. destruct w; reflexivity.
  - rewrite for_loop_S, IH by lia.
    rewrite !fold_add_snoc by lia. destruct w; reflexivity.
Qed.

Lemma comm_loop (l : list double) (k : nat) (c : double) :
  (k <= length l)%nat ->
  for_loop (Z.of_nat k)
    (fun i comm_max =>
       if (comm_max <? nth i l 0)%float then nth i l 0%float else comm_max) c
  = run_max (take k l) c.
Proof.
  induction k as [|k IH]; intros Hk.
  - rewrite for_loop_0 by lia. reflexivity.
  - rewrite for_loop_S, IH by lia. rewrite take_snoc by lia.
    unfold run_max. rewrite fold_left_app. reflexivity.
Qed.



Lemma map_id_eq {A} (l : list A) : map id l = l.
Proof. induction l as [|x l IH]; cbn; congruence. Qed.

(** The four blocks in closed form, for arrays of [num_process] entries. *)
Lemma stats_mean_shape (w : t) :
  length (m_timeArray w) = Z.to_nat (num_process w) ->
  length (m_flopArray w) = Z.to_nat (num_process w) ->
  stats_mean w
  = w |> set_m_time_av (mean (m_timeArray w) (num_process w))
      |> set_m_flop_av (mean (m_flopArray w) (num_process w)).
Proof.
  intros Ht Hf. unfold stats_mean. cbv zeta.
  change (num_process (set_m_flop_av 0%float (set_m_time_av 0%float w)))
    with (num_process w).
  rewrite for_loop_nat, mean_loop by (cbn; lia).
  cbn [m_timeArray m_flopArray set_m_flop_av set_m_time_av m_time_av m_flop_av num_process].
  rewrite !take_ge by lia. rewrite !map_id_eq.
  destruct w; reflexivity.
Qed.

Lemma stats_count_shape (w : t) :
  stats_count w
  = set_m_count_av
      (lround (double_of_Z (m_count_sum w) / double_of_Z (num_process w))%float) w.
Proof. unfold stats_count. destruct (m_in_parallel w); reflexivity. Qed.

Lemma stats_sd_shape (w : t) :
  length (m_timeArray w) = Z.to_nat (num_process w) ->
  length (m_flopArray w) = Z.to_nat (num_process w) ->
  stats_sd w
  = w |> set_m_time_sd
           (if 1 <? num_process w then
              sqrt (fsum (map (fun x => (x - m_time_av w) * (x - m_time_av w))%float
                              (m_timeArray w))
                    / double_of_Z (num_process w - 1))%float
            else 0%float)
      |> set_m_flop_sd
           (if 1 <? num_process w then
              sqrt (fsum (map (fun x => (x - m_flop_av w) * (x - m_flop_av w))%float
                              (m_flopArray w))
                    / double_of_Z (num_process w - 1))%float
            else 0%float).
Proof.
  intros Ht Hf. unfold stats_sd. cbv zeta.
  change (num_process (set_m_flop_sd 0%float (set_m_time_sd 0%float w)))
    with (num_process w).
  destruct (1 <? num_process w); [|destruct w; reflexivity].
  rewrite for_loop_nat, sd_loop by (cbn; lia).
  cbn [m_timeArray m_flopArray set_m_flop_sd set_m_time_sd m_time_sd m_flop_sd
       m_time_av m_flop_av num_process].
  rewrite !take_ge by lia.
  destruct w; reflexivity.
Qed.

Lemma stats_comm_shape (w : t) :
  length (m_timeArray w) = Z.to_nat (num_process w) ->
  stats_comm w
  = set_m_time_comm
      (if m_typeCalc w =? 0 then run_max (m_timeArray w) 0%float else 0%float) w.
Proof.
  intros Ht. unfold stats_comm. cbv zeta.
  change (m_typeCalc (set_m_time_comm 0%float w)) with (m_typeCalc w).
  destruct (m_typeCalc w =? 0); [|reflexivity].
  change (num_process (set_m_time_comm 0%float w)) with (num_process w).
  change (m_timeArray (set_m_time_comm 0%float w)) with (m_timeArray w).
  rewrite for_loop_nat, comm_loop by lia.
  rewrite take_ge by lia. destruct w; reflexivity.
Qed.

End StatsFacts.



(** ** Reset *)

Module ResetFacts.
Import PerfMonitor.

Section Facts.
Context (cfg : BuildConfig).

Lemma reset_zero on_master w :
  PerfWatch.m_time (PerfWatch.reset cfg on_master w) = 0%float
  /\ PerfWatch.m_count (PerfWatch.reset cfg on_master w) = 0
  /\ PerfWatch.m_flop (PerfWatch.reset cfg on_master w) = 0%float.
Proof. unfold PerfWatch.reset. destruct (USE_PAPI cfg); repeat split; reflexivity. Qed.

(** The loop of [resetAll] after [k] iterations. *)
Lemma resetAll_loop on_master m (k : nat) :
  (k <= length (m_watchArray m))%nat ->
  exists arr,
    for_loop (Z.of_nat k)
      (fun i r =>
         '(m, out) ← r;
         '(m, o) ← call_watch (Z.of_nat i)
                     (fun w => (PerfWatch.reset cfg on_master w, [])) m;
         Some (m, out ++ o))
      (Some (m, []))
    = Some (set_m_watchArray arr m, [])
    /\ length arr = length (m_watchArray m)
    /\ (forall i w, (i < k)%nat -> m_watchArray m !! i = Some w ->
                    arr !! i = Some (PerfWatch.reset cfg on_master w))
    /\ (forall i, (k <= i)%nat -> arr !! i = m_watchArray m !! i).
Proof.
  induction k as [|k IH]; intros Hk.
  - exists (m_watchArray m). rewrite for_loop_0 by lia.
    split; [destruct m; reflexivity|]. split; [reflexivity|].
    split; [intros; lia|reflexivity].
  - destruct IH as (arr & Hloop & Hlen & Hdone & Hrest); [lia|].
    rewrite for_loop_S, Hloop. cbn [mbind option_bind].
    unfold call_watch, watch_at.
    replace (Z.of_nat k <? 0) with false by (symmetry; apply Z.ltb_ge; lia).
    rewrite Nat2Z.id. cbn [m_watchArray set_m_watchArray].
    destruct (m_watchArray m !! k) as [w|] eqn:Hw.
    2: { apply lookup_ge_None in Hw. lia. }
    rewrite (Hrest k ltac:(lia)), Hw. cbn [mbind option_bind].
    exists (<[k := PerfWatch.reset cfg on_master w]> arr).
    split; [destruct m; reflexivity|].
    split; [rewrite length_insert; exact Hlen|]. split.
    + intros i w' Hi Hw'. destruct (Nat.eq_dec i k) as [->|Hne].
      * rewrite list_lookup_insert_eq by lia. congruence.
      * rewrite list_lookup_insert_ne by congruence. apply Hdone; [lia|exact Hw'].
    + intros i Hi. rewrite list_lookup_insert_ne by lia. apply Hrest. lia.
Qed.

End Facts.
End ResetFacts.

(** C5, the part the code keeps: [resetAll] zeroes the time, call-count
    and flop accumulators of every section in use.  The loop starts at
    index 0, which is the Root section, so Root is reset with the rest
    (see [C5_root_is_reset]). *)
Theorem C5_resetAll_zeroes_every_section
    (cfg : BuildConfig) (on_master : bool) (m : PerfMonitor.t) :
  wf m -> PerfMonitor.is_PMlib_enabled m = true ->
  exists m',
    PerfMonitor.resetAll cfg on_master m = Some (m', [])
    /\ forall id, 0 <= id < PerfMonitor.m_nWatch m ->
         exists w, PerfMonitor.watch_at m' id = Some w
                   /\ PerfWatch.m_time w = 0%float
                   /\ PerfWatch.m_count w = 0
                   /\ PerfWatch.m_flop w = 0%float.
Proof.
  intros Hwf Hen. unfold PerfMonitor.resetAll. rewrite Hen. cbn [negb].
  pose proof (wf_nWatch m Hwf) as Hn. pose proof (wf_length m Hwf) as Hlen.
  rewrite StatsFacts.for_loop_nat.
  destruct (ResetFacts.resetAll_loop cfg on_master m (Z.to_nat (PerfMonitor.m_nWatch m)))
    as (arr & Hloop & Hlen' & Hdone & _); [lia|].
  rewrite Hloop. eexists. split; [reflexivity|].
  intros id Hid. rewrite PerfMonitorFacts.watch_at_lookup by lia.
  cbn [PerfMonitor.m_watchArray PerfMonitor.set_m_watchArray].
  destruct (PerfMonitor.m_watchArray m !! Z.to_nat id) as [w|] eqn:Hw.
  2: { apply lookup_ge_None in Hw. lia. }
  rewrite (Hdone (Z.to_nat id) w ltac:(lia) Hw). eexists. split; [reflexivity|].
  apply ResetFacts.reset_zero.
Qed.

Lemma C5_resetAll_zeroes_every_section_witness :
  exists m',
    PerfMonitor.resetAll cfg_serial true monitor_initialized = Some (m', [])
    /\ forall id, 0 <= id < PerfMonitor.m_nWatch monitor_initialized ->
         exists w, PerfMonitor.watch_at m' id = Some w
                   /\ PerfWatch.m_time w = 0%float
                   /\ PerfWatch.m_count w = 0
                   /\ PerfWatch.m_flop w = 0%float.
Proof.
  destruct monitor_initialized_wf as (Hwf & Hen & _).
  exact (C5_resetAll_zeroes_every_section cfg_serial true monitor_initialized Hwf Hen).
Defined.

(** C5 at a concrete state: after [initialize] at time 0 and the stop of
    Root at time 6 (what [report] does), Root has one call and six
    seconds; [resetAll] then leaves Root with no call and no time. *)
Lemma C5_root_is_reset :
  let stopped :=
    '(m, _) ← PerfMonitor.stopRoot cfg_serial hwpc_user (probe_at 6) monitor_initialized;
    Some m in
  let reset :=
    m ← stopped; '(m, _) ← PerfMonitor.resetAll cfg_serial true m; Some m in
  (m ← stopped; section_field PerfWatch.m_count m "Root Section") = Some 1
  /\ (m ← stopped; section_field PerfWatch.m_time m "Root Section") = Some 6%float
  /\ (m ← reset; section_field PerfWatch.m_count m "Root Section") = Some 0
  /\ (m ← reset; section_field PerfWatch.m_time m "Root Section") = Some 0%float.
Proof. repeat split; vm_compute; reflexivity. Qed.

(** ** The record file of the shell mode *)

Module RecordFacts.
Import PerfMonitor.

Lemma load_loop (m : t) (fp : list RecordLine) (k : nat) :
  (k <= length (m_watchArray m))%nat ->
  for_loop (Z.of_nat k)
    (fun i r =>
       '(m, fp) ← r;
       w ← watch_at m (Z.of_nat i);
       let '(w', fp') := PerfWatch.load_pm_records fp w in
       Some (set_m_watchArray (<[i := w']> (m_watchArray m)) m, fp'))
    (Some (m, fp))
  = Some (m, fp).
Proof.
  induction k as [|k IH]; intros Hk.
  - apply for_loop_0. lia.
  - rewrite for_loop_S, IH by lia. cbn [mbind option_bind].
    unfold watch_at.
    replace (Z.of_nat k <? 0) with false by (symmetry; apply Z.ltb_ge; lia).
    rewrite Nat2Z.id.
    destruct (m_watchArray m !! k) as [w|] eqn:Hw.
    2: { apply lookup_ge_None in Hw. lia. }
    cbn [mbind option_bind PerfWatch.load_pm_records].
    rewrite list_insert_id by exact Hw. destruct m; reflexivity.
Qed.

End RecordFacts.

(** C1 on the code: [load_pm_records] hands the stream to every Watch,
    but [PerfWatch::load_pm_records] has an empty body, so whatever the
    record file holds the monitor comes back with every Watch as it was
    (and the file is removed). *)
Theorem C1_load_pm_records_reads_nothing (m : PerfMonitor.t) (fp : list RecordLine) :
  PerfMonitor.is_PMlib_enabled m = true ->
  (Z.to_nat (PerfMonitor.m_nWatch m) <= length (PerfMonitor.m_watchArray m))%nat ->
  PerfMonitor.load_pm_records m (Some fp) = Some (m, None).
Proof.
  intros Hen Hn. unfold PerfMonitor.load_pm_records. rewrite Hen. cbn [negb].
  rewrite StatsFacts.for_loop_nat, RecordFacts.load_loop by exact Hn.
  reflexivity.
Qed.

Lemma C1_load_pm_records_reads_nothing_witness :
  PerfMonitor.load_pm_records monitor_initialized
    (Some [LineChooser "USER"; LineSection "Root Section" 1; LineSizes 1 0; LineTitle])
  = Some (monitor_initialized, None).
Proof.
  apply (C1_load_pm_records_reads_nothing monitor_initialized).
  - reflexivity.
  - vm_compute. lia.
Defined.

(** C1 at a concrete run: the first process starts "ShellPM" at time 1
    and saves; the file records that start time.  A second process
    started at time 101 loads the file: its Watch still carries 101, and
    the stop at time 102 measures 1 second instead of 101. *)
Lemma C1_round_trip_fails :
  (fp ← shell_start 1; fp ← fp; recorded_start "ShellPM" fp) = Some 1%float
  /\ ('(m, _) ← shell_stop 101 102 (default None (shell_start 1));
      section_field PerfWatch.m_startTime m "ShellPM") = Some 101%float
  /\ ('(_, m) ← shell_stop 101 102 (default None (shell_start 1));
      section_field PerfWatch.m_time m "ShellPM") = Some 1%float.
Proof. repeat split; vm_compute; reflexivity. Qed.

(** ** Thread merge, phase 3 *)

Module MergeFacts.
Import PerfWatch.

Lemma upd2_eq {V} (a : nat -> nat -> V) j i v j' i' :
  upd2 a j i v j' i' = if Nat.eqb j' j && Nat.eqb i' i then v else a j' i'.
Proof. reflexivity. Qed.

Lemma copy_row {V} (src : nat -> nat -> V) (j0 : nat) (k : nat) :
  forall dst j i,
  for_loop (Z.of_nat k) (fun i d => upd2 d j0 i (src j0 i)) dst j i
  = if Nat.eqb j j0 && Nat.ltb i k then src j0 i else dst j i.
Proof.
  induction k as [|k IH]; intros dst j i.
  - rewrite for_loop_0 by lia. rewrite andb_false_r. reflexivity.
  - rewrite for_loop_S, upd2_eq, IH.
    destruct (Nat.eqb_spec j j0) as [->|Hj]; cbn [andb]; [|reflexivity].
    destruct (Nat.eqb_spec i k) as [->|Hi].
    + replace (k <? S k)%nat with true by (symmetry; apply Nat.ltb_lt; lia). reflexivity.
    + destruct (Nat.ltb_spec i k), (Nat.ltb_spec i (S k)); try lia; reflexivity.
Qed.

Lemma copy_block_spec {V} (rows cols : Z) (src dst : nat -> nat -> V) (j i : nat) :
  copy_block rows cols src dst j i
  = if Nat.ltb j (Z.to_nat rows) && Nat.ltb i (Z.to_nat cols) then src j i else dst j i.
Proof.
  unfold copy_block. rewrite StatsFacts.for_loop_nat.
  generalize (Z.to_nat rows) as r. intros r. revert dst.
  induction r as [|r IH]; intros dst.
  - rewrite for_loop_0 by lia. reflexivity.
  - rewrite for_loop_S. rewrite (StatsFacts.for_loop_nat cols), copy_row, IH.
    destruct (Nat.eqb_spec j r) as [->|Hj].
    + replace (r <? S r)%nat with true by (symmetry; apply Nat.ltb_lt; lia).
      replace (r <? r)%nat with false by (symmetry; apply Nat.ltb_ge; lia).
      cbn [andb]. destruct (i <? Z.to_nat cols)%nat; reflexivity.
    + cbn [andb].
      destruct (Nat.ltb_spec j r), (Nat.ltb_spec j (S r)); try lia; reflexivity.
Qed.

Lemma fill_block_spec {V} (rows cols : Z) (v : V) (a : nat -> nat -> V) (j i : nat) :
  fill_block rows cols v a j i
  = if Nat.ltb j (Z.to_nat rows) && Nat.ltb i (Z.to_nat cols) then v else a j i.
Proof. apply (copy_block_spec rows cols (fun _ _ => v) a j i). Qed.

(** A loop that rewrites [accumu[i]] from its old value and the (fixed)
    thread counters, one event per iteration. *)
Section PerEvent.
Context (H : nat -> (nat -> nat -> Z) -> Z -> Z).

Lemma per_event_loop body (k : nat) (p : pmlib_papi_chooser) :
  writes_event H body ->
  exists acc,
    for_loop (Z.of_nat k) body p = set_accumu acc p
    /\ (forall e, (e < k)%nat -> acc e = H e (th_accumu p) (accumu p e))
    /\ (forall e, (k <= e)%nat -> acc e = accumu p e).
Proof.
  intros Hb. induction k as [|k (acc & Hloop & Hlt & Hge)].
  - exists (accumu p). rewrite for_loop_0 by lia.
    split; [destruct p; reflexivity|]. split; [intros; lia|reflexivity].
  - rewrite for_loop_S, Hloop.
    destruct (Hb k (set_accumu acc p)) as (acc' & Hbody & Hk & Hother).
    cbn [th_accumu accumu set_accumu] in Hk, Hother.
    exists acc'. split; [rewrite Hbody; reflexivity|]. split.
    + intros e He. destruct (Nat.eq_dec e k) as [->|Hne].
      * rewrite Hk, (Hge k) by lia. reflexivity.
      * rewrite Hother by exact Hne. apply Hlt. lia.
    + intros e He. rewrite Hother by lia. apply Hge. lia.
Qed.

End PerEvent.

Lemma add_rows_loop (f : nat -> nat) (i : nat) (k : nat) (p : pmlib_papi_chooser) :
  exists acc,
    for_loop (Z.of_nat k)
      (fun j p => set_accumu (upd1 (accumu p) i
                                (wrap_long (accumu p i + th_accumu p (f j) i))) p) p
    = set_accumu acc p
    /\ acc i = add_rows f k (th_accumu p) i (accumu p i)
    /\ (forall e, e <> i -> acc e = accumu p e).
Proof.
  induction k as [|k (acc & Hloop & Hi & Hother)].
  - exists (accumu p). rewrite for_loop_0 by lia.
    split; [destruct p; reflexivity|]. split; [reflexivity|reflexivity].
  - rewrite for_loop_S, Hloop. cbn [accumu set_accumu th_accumu].
    eexists. split; [reflexivity|]. split.
    + unfold upd1. rewrite Nat.eqb_refl, Hi.
      unfold add_rows. rewrite seq_S, fold_left_app. reflexivity.
    + intros e He. unfold upd1.
      replace (Nat.eqb e i) with false by (symmetry; apply Nat.eqb_neq; exact He).
      apply Hother, He.
Qed.


Lemma sum_threads_spec (nt : Z) (p : pmlib_papi_chooser) :
  exists acc,
    sum_threads nt p = set_accumu acc p
    /\ (forall e, (e < Z.to_nat (num_events p))%nat ->
                  acc e = add_rows (fun j => j) (Z.to_nat nt) (th_accumu p) e 0)
    /\ (forall e, (Z.to_nat (num_events p) <= e)%nat -> acc e = accumu p e).
Proof.
  unfold sum_threads. rewrite StatsFacts.for_loop_nat.
  apply (per_event_loop (fun e th _ => add_rows (fun j => j) (Z.to_nat nt) th e 0)).
  intros i q. cbv zeta. rewrite (StatsFacts.for_loop_nat nt).
  pose proof (add_rows_loop (fun j => j) i (Z.to_nat nt)
                (set_accumu (upd1 (accumu q) i 0) q)) as (acc & Hloop & Hi & Hother).
  cbv beta in Hloop. rewrite Hloop.
  cbn [accumu th_accumu set_accumu] in Hi, Hother.
  exists acc. split; [reflexivity|]. split.
  - rewrite Hi. unfold upd1. rewrite Nat.eqb_refl. reflexivity.
  - intros e He. rewrite Hother by exact He. unfold upd1.
    replace (Nat.eqb e i) with false by (symmetry; apply Nat.eqb_neq; exact He).
    reflexivity.
Qed.

Lemma share_cmg_spec (np rank nt : Z) (p : pmlib_papi_chooser) :
  exists acc,
    share_cmg np rank nt p = set_accumu acc p
    /\ (forall e, (e < Z.to_nat (num_events p))%nat ->
                  acc e = cmg_share np rank nt (th_accumu p) e (accumu p e))
    /\ (forall e, (Z.to_nat (num_events p) <= e)%nat -> acc e = accumu p e).
Proof.
  unfold share_cmg, cmg_share. destruct (np <=? 4).
  - cbv zeta.
    destruct (per_event_loop
                (fun e th _ => add_rows (fun k => 12 * k)%nat (owned_cmgs nt) th e 0)
                (fun i p =>
                   for_loop (Z.quot (nt - 1) 12 + 1)
                     (fun k p => set_accumu
                                   (upd1 (accumu p) i
                                      (wrap_long (accumu p i + th_accumu p (12 * k)%nat i))) p)
                     (set_accumu (upd1 (accumu p) i 0) p))
                (Z.to_nat (num_events p)) p) as (acc1 & Hl1 & Hlt1 & Hge1).
    { intros i q. rewrite StatsFacts.for_loop_nat.
      pose proof (add_rows_loop (fun k => 12 * k)%nat i
                    (Z.to_nat (Z.quot (nt - 1) 12 + 1))
                    (set_accumu (upd1 (accumu q) i 0) q)) as (acc & Hloop & Hi & Hother).
      cbv beta in Hloop. rewrite Hloop.
      cbn [accumu th_accumu set_accumu] in Hi, Hother.
      exists acc. split; [reflexivity|]. split.
      - rewrite Hi. unfold upd1. rewrite Nat.eqb_refl. reflexivity.
      - intros e He. rewrite Hother by exact He. unfold upd1.
        replace (Nat.eqb e i) with false by (symmetry; apply Nat.eqb_neq; exact He).
        reflexivity. }
    rewrite (StatsFacts.for_loop_nat (num_events p)), Hl1.
    destruct ((np =? 3) && (12 <? nt)).
    + cbn [num_events set_accumu].
      destruct (per_event_loop
                  (fun e th a =>
                     trunc_double (double_of_Z a
                                   + double_of_Z (th (Z.to_nat (nt - 1)) e) * (1 / 3))%float)
                  (fun i p =>
                     set_accumu
                       (upd1 (accumu p) i
                          (trunc_double
                             (double_of_Z (accumu p i)
                              + double_of_Z (th_accumu p (Z.to_nat (nt - 1)) i) * (1 / 3))%float))
                       p)
                  (Z.to_nat (num_events p)) (set_accumu acc1 p))
        as (acc2 & Hl2 & Hlt2 & Hge2).
      { intros i q. eexists. split; [reflexivity|]. split.
        - unfold upd1. rewrite Nat.eqb_refl. reflexivity.
        - intros e He. unfold upd1.
          replace (Nat.eqb e i) with false by (symmetry; apply Nat.eqb_neq; exact He).
          reflexivity. }
      rewrite StatsFacts.for_loop_nat, Hl2.
      cbn [th_accumu accumu set_accumu] in Hlt2, Hge2.
      exists acc2. split; [reflexivity|]. split.
      * intros e He. rewrite (Hlt2 e He), (Hlt1 e He). reflexivity.
      * intros e He. rewrite (Hge2 e He). apply Hge1, He.
    + exists acc1. split; [reflexivity|]. split; [exact Hlt1|exact Hge1].
  - destruct (5 <=? np).
    + cbv zeta. rewrite StatsFacts.for_loop_nat.
      apply (per_event_loop
               (fun e th _ => trunc_double (double_of_Z (th 0%nat e)
                                            * share_ratio_of np rank)%float)).
      intros i q. eexists. split; [reflexivity|]. split.
      * unfold upd1. rewrite Nat.eqb_refl. reflexivity.
      * intros e He. unfold upd1.
        replace (Nat.eqb e i) with false by (symmetry; apply Nat.eqb_neq; exact He).
        reflexivity.
    + exists (accumu p). split; [destruct p; reflexivity|]. split; reflexivity.
Qed.

Lemma sum_rows_ext (f : nat -> nat) (k : nat) (th th' : nat -> nat -> Z) (i : nat) :
  (forall j, (j < k)%nat -> th (f j) i = th' (f j) i) ->
  sum_rows f k th i = sum_rows f k th' i.
Proof.
  intros H. unfold sum_rows. apply SortFacts.fold_left_ext_in.
  intros a j Hj. apply in_seq in Hj. rewrite H by lia. reflexivity.
Qed.

Section Update.
Context (cfg : BuildConfig) (hwpc_group : hwpc_group_chooser) (env : NodeEnv).

Lemma merged_fields (w : t) (papi p : pmlib_papi_chooser) (cols : Z) :
  let w' := fst (merged w papi p cols) in
  my_papi w' = p
  /\ m_count w' = lround (sum_slot (num_threads w) (th_v_sorted p) 0)
  /\ m_time w' = sum_slot (num_threads w) (th_v_sorted p) 1
  /\ m_flop w' = sum_slot (num_threads w) (th_v_sorted p) 2
  /\ m_threads_merged w' = true.
Proof. destruct w. cbv zeta. repeat split; reflexivity. Qed.

Lemma sum_slot_ext (nt : Z) (v v' : nat -> nat -> double) (k : nat) :
  (forall j, (j < Z.to_nat nt)%nat -> v j k = v' j k) ->
  sum_slot nt v k = sum_slot nt v' k.
Proof.
  intros H. unfold sum_slot, for_loop. apply SortFacts.fold_left_ext_in.
  intros a j Hj. apply in_seq in Hj. rewrite H by lia. reflexivity.
Qed.


Lemma update_user_shape (w : t) (papi : pmlib_papi_chooser) :
  guards cfg w -> (2 <=? statsSwitch hwpc_group w) = false ->
  updateMergedThread cfg hwpc_group env (w, papi)
  = (merged w papi
       (my_papi w |> set_th_v_sorted
                       (copy_block (num_threads w) 3 (th_v_sorted papi)
                          (th_v_sorted (my_papi w)))) 3, []).
Proof.
  intros (Hopen & Hm & Hth & Hs) Hu. unfold updateMergedThread.
  rewrite Hopen, Hm, Hth, Hs, Hu. cbn [negb Z.eqb]. unfold merged.
  destruct w; reflexivity.
Qed.

Lemma update_hwpc_shape (w : t) (papi : pmlib_papi_chooser) :
  guards cfg w -> (2 <=? statsSwitch hwpc_group w) = true ->
  let nt := num_threads w in
  let ne := num_events (my_papi w) in
  let p1 := my_papi w
              |> set_th_accumu (copy_block nt ne (th_accumu papi) (th_accumu (my_papi w)))
              |> set_th_v_sorted (copy_block nt ne (th_v_sorted papi)
                                    (th_v_sorted (my_papi w))) in
  exists acc out,
    updateMergedThread cfg hwpc_group env (w, papi)
    = (merged w papi (set_accumu acc p1) ne, out)
    /\ (forall e, (e < Z.to_nat ne)%nat ->
          acc e
          = if (statsSwitch hwpc_group w =? 2) && (i_platform hwpc_group =? 21)
            then cmg_share (fst (read_np_node env)) (fst (read_rank_on_node env)) nt
                   (th_accumu p1) e
                   (add_rows (fun j => j) (Z.to_nat nt) (th_accumu p1) e 0)
            else add_rows (fun j => j) (Z.to_nat nt) (th_accumu p1) e 0).
Proof.
  intros (Hopen & Hm & Hth & Hs) Hu. cbv zeta.
  set (p1 := set_th_v_sorted _ (set_th_accumu _ (my_papi w))).
  destruct (sum_threads_spec (num_threads w) p1) as (acc1 & Hsum & Hlt1 & Hge1).
  unfold updateMergedThread.
  rewrite Hopen, Hm, Hth, Hs. cbn [negb Z.eqb]. cbv zeta. rewrite Hu.
  change (num_events (set_th_v_sorted
            (copy_block (num_threads w) (num_events (my_papi w)) (th_v_sorted papi)
               (th_v_sorted (my_papi w)))
            (set_th_accumu
               (copy_block (num_threads w) (num_events (my_papi w)) (th_accumu papi)
                  (th_accumu (my_papi w))) (my_papi w))))
    with (num_events (my_papi w)).
  change (th_v_sorted
            (set_th_accumu
               (copy_block (num_threads w) (num_events (my_papi w)) (th_accumu papi)
                  (th_accumu (my_papi w))) (my_papi w)))
    with (th_v_sorted (my_papi w)).
  fold p1. rewrite Hsum.
  destruct ((statsSwitch hwpc_group w =? 2) && (i_platform hwpc_group =? 21)).
  - destruct (read_np_node env) as [np o1], (read_rank_on_node env) as [rk o2].
    destruct (share_cmg_spec np rk (num_threads w) (set_accumu acc1 p1))
      as (acc2 & Hsh & Hlt2 & Hge2).
    rewrite Hsh. cbn [fst snd].
    exists acc2, (o1 ++ o2). split.
    + unfold merged. destruct w; reflexivity.
    + intros e He. rewrite (Hlt2 e He). cbn [th_accumu accumu set_accumu].
      rewrite (Hlt1 e He). reflexivity.
  - exists acc1, []. split.
    + unfold merged. destruct w; reflexivity.
    + intros e He. apply Hlt1, He.
Qed.

End Update.
End MergeFacts.



(** * Further properties of the measurement engine *)

(** ** The three merge steps together *)

Module ThreadMergeFacts.
Import PerfWatch.

Lemma copy_thread_row_spec {V} (row : nat) (cols : Z) (src dst : nat -> nat -> V) j i :
  copy_thread_row row cols src dst j i
  = if Nat.eqb j row && Nat.ltb i (Z.to_nat cols) then src row i else dst j i.
Proof.
  unfold copy_thread_row. rewrite StatsFacts.for_loop_nat. apply MergeFacts.copy_row.
Qed.

Lemma copy_block_back {V} (rows cols : Z) (a b : nat -> nat -> V) j i :
  copy_block rows cols (copy_block rows cols a b) a j i = a j i.
Proof.
  rewrite !MergeFacts.copy_block_spec.
  destruct (Nat.ltb j (Z.to_nat rows) && Nat.ltb i (Z.to_nat cols)); reflexivity.
Qed.

Section Steps.
Context (cfg : BuildConfig) (hwpc_group : hwpc_group_chooser) (env : NodeEnv).

(** Step 1 leaves the Watch alone and copies its block to the scratch
    area. *)
Lemma mergeMasterThread_shape (w : t) (papi : pmlib_papi_chooser) :
  guards cfg w ->
  let cols := if 2 <=? statsSwitch hwpc_group w then num_events (my_papi w) else 3 in
  mergeMasterThread cfg hwpc_group (w, papi)
  = (w, papi |> set_th_accumu
                  (copy_block (num_threads w) cols (th_accumu (my_papi w)) (th_accumu papi))
             |> set_th_v_sorted
                  (copy_block (num_threads w) cols (th_v_sorted (my_papi w))
                     (th_v_sorted papi))).
Proof.
  intros (Hopen & Hm & Hth & Hs). unfold mergeMasterThread.
  rewrite Hopen, Hm, Hth, Hs. cbn [negb Z.eqb].
  destruct (2 <=? statsSwitch hwpc_group w); reflexivity.
Qed.

(** Step 3, array by array. *)
Lemma update_arrays (w : t) (papi : pmlib_papi_chooser) :
  guards cfg w ->
  let w' := fst (fst (updateMergedThread cfg hwpc_group env (w, papi))) in
  let hwpc := 2 <=? statsSwitch hwpc_group w in
  let cols := if hwpc then Z.to_nat (num_events (my_papi w)) else 3%nat in
  (forall j i,
     th_v_sorted (my_papi w') j i
     = (if Nat.ltb j (Z.to_nat (num_threads w)) && Nat.ltb i cols
        then th_v_sorted papi j i else th_v_sorted (my_papi w) j i)
     /\ th_accumu (my_papi w') j i
        = (if hwpc && (Nat.ltb j (Z.to_nat (num_threads w)) && Nat.ltb i cols)
           then th_accumu papi j i else th_accumu (my_papi w) j i))
  /\ m_count w' = lround (sum_slot (num_threads w) (th_v_sorted (my_papi w')) 0)
  /\ m_time w' = sum_slot (num_threads w) (th_v_sorted (my_papi w')) 1
  /\ m_flop w' = sum_slot (num_threads w) (th_v_sorted (my_papi w')) 2
  /\ m_threads_merged w' = true.
Proof.
  intros Hg. cbv zeta.
  destruct (2 <=? statsSwitch hwpc_group w) eqn:Hu.
  - destruct (MergeFacts.update_hwpc_shape cfg hwpc_group env w papi Hg Hu)
      as (acc & out & Hshape & _).
    cbv zeta in Hshape. rewrite Hshape. cbn [fst snd].
    match type of Hshape with
    | _ = (merged _ ?S ?P ?C, _) =>
        destruct (MergeFacts.merged_fields w S P C) as (Hp & Hc & Ht & Hf & Hmg)
    end.
    rewrite Hp, Hc, Ht, Hf, Hmg.
    cbn [th_v_sorted th_accumu accumu set_accumu set_th_v_sorted set_th_accumu andb].
    split; [|repeat split; reflexivity].
    intros j i. rewrite !MergeFacts.copy_block_spec. split; reflexivity.
  - rewrite (MergeFacts.update_user_shape cfg hwpc_group env w papi Hg Hu).
    cbn [fst snd].
    match goal with
    | |- context [merged _ ?S ?P ?C] =>
        destruct (MergeFacts.merged_fields w S P C) as (Hp & Hc & Ht & Hf & Hmg)
    end.
    rewrite Hp, Hc, Ht, Hf, Hmg.
    cbn [th_v_sorted th_accumu accumu set_accumu set_th_v_sorted set_th_accumu andb].
    split; [|repeat split; reflexivity].
    intros j i. rewrite !MergeFacts.copy_block_spec. split; reflexivity.
Qed.

End Steps.
End ThreadMergeFacts.

(** X1: Steps 1 and 3 of the merge, run by the master on a section measured
    in a serial region: the per-thread counters and scalars of the Watch
    come back as they were, the call count, time and flop become the
    sums over the threads of the Watch's own columns 0, 1 and 2, the
    Watch is marked merged, and the block of the scratch area that was
    used is zero again while the rest of it is untouched. *)
Theorem merge_master_round_trip
    (cfg : BuildConfig) (hwpc_group : hwpc_group_chooser) (env : NodeEnv)
    (w : PerfWatch.t) (papi : pmlib_papi_chooser) :
  OPENMP cfg = true ->
  PerfWatch.m_threads_merged w = false ->
  PerfWatch.my_thread w = 0 ->
  PerfWatch.m_started w = false ->
  let r := PerfWatch.updateMergedThread cfg hwpc_group env
             (PerfWatch.mergeMasterThread cfg hwpc_group (w, papi)) in
  let w' := fst (fst r) in
  let papi' := snd (fst r) in
  let nthreads := PerfWatch.num_threads w in
  let cols := if 2 <=? PerfWatch.statsSwitch hwpc_group w
              then Z.to_nat (num_events (PerfWatch.my_papi w)) else 3%nat in
  (forall j i, th_accumu (PerfWatch.my_papi w') j i = th_accumu (PerfWatch.my_papi w) j i)
  /\ (forall j i, th_v_sorted (PerfWatch.my_papi w') j i
                  = th_v_sorted (PerfWatch.my_papi w) j i)
  /\ PerfWatch.m_count w'
     = lround (PerfWatch.sum_slot nthreads (th_v_sorted (PerfWatch.my_papi w)) 0)
  /\ PerfWatch.m_time w' = PerfWatch.sum_slot nthreads (th_v_sorted (PerfWatch.my_papi w)) 1
  /\ PerfWatch.m_flop w' = PerfWatch.sum_slot nthreads (th_v_sorted (PerfWatch.my_papi w)) 2
  /\ PerfWatch.m_threads_merged w' = true
  /\ (forall j i,
        th_accumu papi' j i
        = (if Nat.ltb j (Z.to_nat nthreads) && Nat.ltb i cols then 0 else th_accumu papi j i)
        /\ th_v_sorted papi' j i
           = (if Nat.ltb j (Z.to_nat nthreads) && Nat.ltb i cols
              then 0%float else th_v_sorted papi j i)).
Proof.
  intros Hopen Hm Hth Hs.
  assert (Hg : guards cfg w) by (repeat split; assumption).
  cbv zeta. rewrite (ThreadMergeFacts.mergeMasterThread_shape cfg hwpc_group w papi Hg).
  cbv zeta.
  destruct (2 <=? PerfWatch.statsSwitch hwpc_group w) eqn:Hu.
  - match goal with
    | |- context [PerfWatch.updateMergedThread _ _ _ (w, ?S)] =>
        destruct (MergeFacts.update_hwpc_shape cfg hwpc_group env w S Hg Hu)
          as (acc & out & Hshape & _)
    end.
    cbv zeta in Hshape. rewrite Hshape. cbn [fst snd].
    match type of Hshape with
    | _ = (merged _ ?S ?P ?C, _) =>
        destruct (MergeFacts.merged_fields w S P C) as (Hp & Hc & Ht & Hf & Hmg)
    end.
    rewrite Hp, Hc, Ht, Hf, Hmg.
    cbn [th_v_sorted th_accumu accumu set_accumu set_th_v_sorted set_th_accumu].
    assert (Hv : forall k, PerfWatch.sum_slot (PerfWatch.num_threads w)
               (PerfWatch.copy_block (PerfWatch.num_threads w)
                  (num_events (PerfWatch.my_papi w))
                  (PerfWatch.copy_block (PerfWatch.num_threads w)
                     (num_events (PerfWatch.my_papi w))
                     (th_v_sorted (PerfWatch.my_papi w)) (th_v_sorted papi))
                  (th_v_sorted (PerfWatch.my_papi w))) k
             = PerfWatch.sum_slot (PerfWatch.num_threads w)
                 (th_v_sorted (PerfWatch.my_papi w)) k).
    { intros k. apply MergeFacts.sum_slot_ext. intros j _.
      apply ThreadMergeFacts.copy_block_back. }
    rewrite !Hv.
    split; [intros; apply ThreadMergeFacts.copy_block_back|].
    split; [intros; apply ThreadMergeFacts.copy_block_back|].
    do 4 (split; [reflexivity|]).
    intros j i. unfold merged.
    cbn [snd th_accumu th_v_sorted set_th_accumu set_th_v_sorted].
    rewrite !MergeFacts.fill_block_spec, !MergeFacts.copy_block_spec.
    destruct (Nat.ltb j (Z.to_nat (PerfWatch.num_threads w))
              && Nat.ltb i (Z.to_nat (num_events (PerfWatch.my_papi w))));
      split; reflexivity.
  - match goal with
    | |- context [PerfWatch.updateMergedThread _ _ _ (w, ?S)] =>
        rewrite (MergeFacts.update_user_shape cfg hwpc_group env w S Hg Hu)
    end.
    cbn [fst snd].
    match goal with
    | |- context [merged _ ?S ?P ?C] =>
        destruct (MergeFacts.merged_fields w S P C) as (Hp & Hc & Ht & Hf & Hmg)
    end.
    rewrite Hp, Hc, Ht, Hf, Hmg.
    cbn [th_v_sorted th_accumu accumu set_accumu set_th_v_sorted set_th_accumu].
    assert (Hv : forall k, PerfWatch.sum_slot (PerfWatch.num_threads w)
               (PerfWatch.copy_block (PerfWatch.num_threads w) 3
                  (PerfWatch.copy_block (PerfWatch.num_threads w) 3
                     (th_v_sorted (PerfWatch.my_papi w)) (th_v_sorted papi))
                  (th_v_sorted (PerfWatch.my_papi w))) k
             = PerfWatch.sum_slot (PerfWatch.num_threads w)
                 (th_v_sorted (PerfWatch.my_papi w)) k).
    { intros k. apply MergeFacts.sum_slot_ext. intros j _.
      apply ThreadMergeFacts.copy_block_back. }
    rewrite !Hv.
    split; [reflexivity|].
    split; [intros; apply ThreadMergeFacts.copy_block_back|].
    do 4 (split; [reflexivity|]).
    intros j i. unfold merged.
    cbn [snd th_accumu th_v_sorted set_th_accumu set_th_v_sorted].
    rewrite !MergeFacts.fill_block_spec, !MergeFacts.copy_block_spec.
    change (Z.to_nat 3) with 3%nat.
    destruct (Nat.ltb j (Z.to_nat (PerfWatch.num_threads w)) && Nat.ltb i 3);
      split; reflexivity.
Qed.

Lemma merge_master_round_trip_witness :
  let r := PerfWatch.updateMergedThread cfg_openmp hwpc_flops env_unset
             (PerfWatch.mergeMasterThread cfg_openmp hwpc_flops
                (watch_master, PerfMonitor.papi_zero)) in
  th_accumu (PerfWatch.my_papi (fst (fst r))) 1 0 = 20
  /\ th_v_sorted (PerfWatch.my_papi (fst (fst r))) 1 1 = 3.5%float
  /\ PerfWatch.m_time (fst (fst r)) = 6%float
  /\ PerfWatch.m_threads_merged (fst (fst r)) = true
  /\ th_accumu (snd (fst r)) 1 0 = 0.
Proof.
  destruct (merge_master_round_trip cfg_openmp hwpc_flops env_unset watch_master
              PerfMonitor.papi_zero eq_refl eq_refl eq_refl eq_refl)
    as (Ha & Hv & _ & Ht & _ & Hmg & Hz).
  cbv zeta. rewrite Ha, Hv, Ht, Hmg. destruct (Hz 1%nat 0%nat) as [-> _].
  repeat split; vm_compute; reflexivity.
Defined.

Module WorkerFacts.
Import PerfWatch.

Section Workers.
Context (cfg : BuildConfig) (hwpc_group : hwpc_group_chooser).

(** Step 2 never writes the Watch, and in the scratch area only the row
    of its own thread. *)
Lemma mergeParallelThread_frame pr w papi :
  let r := mergeParallelThread cfg hwpc_group pr (w, papi) in
  fst (fst r) = w
  /\ (forall j i, j <> Z.to_nat (my_thread w) ->
        th_accumu (snd (fst r)) j i = th_accumu papi j i
        /\ th_v_sorted (snd (fst r)) j i = th_v_sorted papi j i).
Proof.
  cbv zeta. unfold mergeParallelThread.
  destruct (OPENMP cfg), (m_threads_merged w), (my_thread w =? 0), (m_started w),
    (m_in_parallel w); cbn [negb fst snd]; try (split; [reflexivity|split; reflexivity]).
  destruct (2 <=? statsSwitch hwpc_group w); cbn [fst snd];
    (split; [reflexivity|]); intros j i Hj;
    cbn [th_accumu th_v_sorted set_th_accumu set_th_v_sorted];
    rewrite ?ThreadMergeFacts.copy_thread_row_spec;
    replace (Nat.eqb j (Z.to_nat (my_thread w))) with false
      by (symmetry; apply Nat.eqb_neq; exact Hj);
    split; reflexivity.
Qed.

(** What step 2 stores in that row. *)
Lemma mergeParallelThread_row pr master w papi :
  OPENMP cfg = true -> worker_of hwpc_group master w ->
  let s := snd (fst (mergeParallelThread cfg hwpc_group pr (w, papi))) in
  let me := Z.to_nat (my_thread w) in
  let hwpc := 2 <=? statsSwitch hwpc_group master in
  let cols := if hwpc then Z.to_nat (num_events (my_papi master)) else 3%nat in
  forall i,
    th_v_sorted s me i
    = (if Nat.ltb i cols then th_v_sorted (my_papi w) me i else th_v_sorted papi me i)
    /\ th_accumu s me i
       = (if hwpc && Nat.ltb i cols then th_accumu (my_papi w) me i
          else th_accumu papi me i).
Proof.
  intros Hopen (Hm & Hth & Hs & Hp & Hsw & Hne). cbv zeta. intros i.
  unfold mergeParallelThread. rewrite Hopen, Hm, Hs, Hp, Hsw, Hne.
  replace (my_thread w =? 0) with false by (symmetry; apply Z.eqb_neq; lia).
  cbn [negb]. cbv zeta.
  destruct (2 <=? statsSwitch hwpc_group master); cbn [fst snd andb];
    cbn [th_accumu th_v_sorted set_th_accumu set_th_v_sorted];
    rewrite ?ThreadMergeFacts.copy_thread_row_spec, ?Nat.eqb_refl; cbn [andb];
    split; reflexivity.
Qed.

(** The row step 2 writes depends on the Watch alone: the first [cv]
    scalars and the first [ca] counters of the thread's row. *)
Lemma mergeParallelThread_own pr w :
  exists ca cv : nat, forall papi j i,
    let s := snd (fst (mergeParallelThread cfg hwpc_group pr (w, papi))) in
    th_accumu s j i
    = (if Nat.eqb j (Z.to_nat (my_thread w)) && Nat.ltb i ca
       then th_accumu (my_papi w) (Z.to_nat (my_thread w)) i else th_accumu papi j i)
    /\ th_v_sorted s j i
       = (if Nat.eqb j (Z.to_nat (my_thread w)) && Nat.ltb i cv
          then th_v_sorted (my_papi w) (Z.to_nat (my_thread w)) i else th_v_sorted papi j i).
Proof.
  unfold mergeParallelThread.
  destruct (negb (OPENMP cfg) || m_threads_merged w || (my_thread w =? 0)
            || m_started w || negb (m_in_parallel w)) eqn:Hskip.
  - exists 0%nat, 0%nat. intros papi j i. cbv zeta.
    rewrite !andb_false_r.
    destruct (OPENMP cfg), (m_threads_merged w), (my_thread w =? 0), (m_started w),
      (m_in_parallel w); cbn in Hskip; try discriminate; split; reflexivity.
  - destruct (OPENMP cfg), (m_threads_merged w), (my_thread w =? 0), (m_started w),
      (m_in_parallel w); cbn in Hskip; try discriminate. cbn [negb]. cbv zeta.
    destruct (2 <=? statsSwitch hwpc_group w).
    + exists (Z.to_nat (num_events (my_papi w))), (Z.to_nat (num_events (my_papi w))).
      intros papi j i. cbn [fst snd th_accumu th_v_sorted set_th_accumu set_th_v_sorted].
      rewrite !ThreadMergeFacts.copy_thread_row_spec. split; reflexivity.
    + exists 0%nat, 3%nat.
      intros papi j i. cbn [fst snd th_accumu th_v_sorted set_th_accumu set_th_v_sorted].
      rewrite !ThreadMergeFacts.copy_thread_row_spec, andb_false_r. split; reflexivity.
Qed.

Lemma merge_workers_cons pw ws papi :
  merge_workers cfg hwpc_group (pw :: ws) papi
  = merge_workers cfg hwpc_group ws
      (snd (fst (mergeParallelThread cfg hwpc_group pw.1 (pw.2, papi)))).
Proof. reflexivity. Qed.

(** Rows of threads that are not among the workers keep their value. *)
Lemma merge_workers_other ws : forall papi j i,
  Forall (fun pw => Z.to_nat (my_thread pw.2) <> j) ws ->
  th_accumu (merge_workers cfg hwpc_group ws papi) j i = th_accumu papi j i
  /\ th_v_sorted (merge_workers cfg hwpc_group ws papi) j i = th_v_sorted papi j i.
Proof.
  induction ws as [|pw ws IH]; intros papi j i Hall; [split; reflexivity|].
  inversion Hall as [|? ? Hpw Hws]; subst. rewrite merge_workers_cons.
  destruct (IH (snd (fst (mergeParallelThread cfg hwpc_group pw.1 (pw.2, papi)))) j i Hws)
    as [-> ->].
  apply (mergeParallelThread_frame pw.1 pw.2 papi). congruence.
Qed.

(** The row of each worker holds the worker's own values. *)
Lemma merge_workers_row master ws : forall papi,
  OPENMP cfg = true ->
  Forall (fun pw => worker_of hwpc_group master pw.2) ws ->
  NoDup (map (fun pw => Z.to_nat (my_thread pw.2)) ws) ->
  forall pw, In pw ws ->
  let s := merge_workers cfg hwpc_group ws papi in
  let me := Z.to_nat (my_thread pw.2) in
  let hwpc := 2 <=? statsSwitch hwpc_group master in
  let cols := if hwpc then Z.to_nat (num_events (my_papi master)) else 3%nat in
  forall i,
    th_v_sorted s me i
    = (if Nat.ltb i cols then th_v_sorted (my_papi pw.2) me i else th_v_sorted papi me i)
    /\ th_accumu s me i
       = (if hwpc && Nat.ltb i cols then th_accumu (my_papi pw.2) me i
          else th_accumu papi me i).
Proof.
  induction ws as [|pw0 ws IH]; intros papi Hopen Hall Hnd pw Hin; [destruct Hin|].
  inversion Hall as [|? ? Hw0 Hws]; subst.
  cbn [map] in Hnd. apply NoDup_cons in Hnd as [Hnot Hnd].
  cbv zeta. intros i. rewrite merge_workers_cons.
  destruct Hin as [<-|Hin].
  - assert (Hoth : Forall (fun pw => Z.to_nat (my_thread pw.2)
                                     <> Z.to_nat (my_thread pw0.2)) ws).
    { apply Forall_forall. intros pw Hpw Heq. apply Hnot.
      apply list_elem_of_In, in_map_iff. exists pw. split; [exact Heq|].
      apply list_elem_of_In. exact Hpw. }
    destruct (merge_workers_other ws
                (snd (fst (mergeParallelThread cfg hwpc_group pw0.1 (pw0.2, papi))))
                (Z.to_nat (my_thread pw0.2)) i Hoth) as [-> ->].
    destruct (mergeParallelThread_row pw0.1 master pw0.2 papi Hopen Hw0 i) as [Hv Ha].
    split; assumption.
  - destruct (IH (snd (fst (mergeParallelThread cfg hwpc_group pw0.1 (pw0.2, papi))))
                Hopen Hws Hnd pw Hin i) as [Hv Ha].
    assert (Hne : Z.to_nat (my_thread pw.2) <> Z.to_nat (my_thread pw0.2)).
    { intros Heq. apply Hnot. apply list_elem_of_In, in_map_iff. exists pw.
      split; [exact Heq|exact Hin]. }
    destruct (mergeParallelThread_frame pw0.1 pw0.2 papi) as [_ Hfr].
    destruct (Hfr (Z.to_nat (my_thread pw.2)) i Hne) as [Hfa Hfv].
    rewrite Hv, Ha, Hfa, Hfv. split; reflexivity.
Qed.

End Workers.
End WorkerFacts.

(** X2: Merge step 2 of two different threads: whichever runs first, the
    scratch area ends with the same per-thread counters and scalars ---
    each thread writes the row of its own number only --- and neither
    Watch is written. *)
Theorem merge_step2_threads_do_not_interfere
    (cfg : BuildConfig) (hwpc_group : hwpc_group_chooser)
    (pra prb : Probe) (wa wb : PerfWatch.t) (papi : pmlib_papi_chooser) :
  Z.to_nat (PerfWatch.my_thread wa) <> Z.to_nat (PerfWatch.my_thread wb) ->
  let step pr w s := PerfWatch.mergeParallelThread cfg hwpc_group pr (w, s) in
  let ab := step prb wb (snd (fst (step pra wa papi))) in
  let ba := step pra wa (snd (fst (step prb wb papi))) in
  fst (fst (step pra wa papi)) = wa /\ fst (fst (step prb wb papi)) = wb
  /\ forall j i,
       th_accumu (snd (fst ab)) j i = th_accumu (snd (fst ba)) j i
       /\ th_v_sorted (snd (fst ab)) j i = th_v_sorted (snd (fst ba)) j i.
Proof.
  intros Hab. cbv zeta.
  split; [apply WorkerFacts.mergeParallelThread_frame|].
  split; [apply WorkerFacts.mergeParallelThread_frame|].
  intros j i.
  destruct (Nat.eq_dec j (Z.to_nat (PerfWatch.my_thread wa))) as [Hja|Hja];
    [|destruct (Nat.eq_dec j (Z.to_nat (PerfWatch.my_thread wb))) as [Hjb|Hjb]].
  - (* the row of thread a *)
    assert (Hjb : j <> Z.to_nat (PerfWatch.my_thread wb)) by congruence.
    destruct (WorkerFacts.mergeParallelThread_frame cfg hwpc_group prb wb
                (snd (fst (PerfWatch.mergeParallelThread cfg hwpc_group pra (wa, papi)))))
      as [_ Hb1].
    destruct (Hb1 j i Hjb) as [-> ->].
    destruct (WorkerFacts.mergeParallelThread_frame cfg hwpc_group prb wb papi) as [_ Hb2].
    destruct (WorkerFacts.mergeParallelThread_own cfg hwpc_group pra wa) as (ca & cv & Hown).
    destruct (Hown papi j i) as [-> ->].
    destruct (Hown (snd (fst (PerfWatch.mergeParallelThread cfg hwpc_group prb (wb, papi))))
                j i) as [-> ->].
    destruct (Hb2 j i Hjb) as [-> ->]. split; reflexivity.
  - (* the row of thread b *)
    destruct (WorkerFacts.mergeParallelThread_frame cfg hwpc_group pra wa
                (snd (fst (PerfWatch.mergeParallelThread cfg hwpc_group prb (wb, papi)))))
      as [_ Ha1].
    destruct (Ha1 j i Hja) as [-> ->].
    destruct (WorkerFacts.mergeParallelThread_frame cfg hwpc_group pra wa papi) as [_ Ha2].
    destruct (WorkerFacts.mergeParallelThread_own cfg hwpc_group prb wb) as (ca & cv & Hown).
    destruct (Hown papi j i) as [-> ->].
    destruct (Hown (snd (fst (PerfWatch.mergeParallelThread cfg hwpc_group pra (wa, papi))))
                j i) as [-> ->].
    destruct (Ha2 j i Hja) as [-> ->]. split; reflexivity.
  - (* any other row *)
    destruct (WorkerFacts.mergeParallelThread_frame cfg hwpc_group prb wb
                (snd (fst (PerfWatch.mergeParallelThread cfg hwpc_group pra (wa, papi)))))
      as [_ Hb1].
    destruct (Hb1 j i Hjb) as [-> ->].
    destruct (WorkerFacts.mergeParallelThread_frame cfg hwpc_group pra wa
                (snd (fst (PerfWatch.mergeParallelThread cfg hwpc_group prb (wb, papi)))))
      as [_ Ha1].
    destruct (Ha1 j i Hja) as [-> ->].
    destruct (WorkerFacts.mergeParallelThread_frame cfg hwpc_group pra wa papi) as [_ Ha2].
    destruct (WorkerFacts.mergeParallelThread_frame cfg hwpc_group prb wb papi) as [_ Hb2].
    destruct (Ha2 j i Hja) as [-> ->]. destruct (Hb2 j i Hjb) as [-> ->].
    split; reflexivity.
Qed.

Lemma merge_step2_threads_do_not_interfere_witness :
  let step pr w s := PerfWatch.mergeParallelThread cfg_openmp hwpc_flops pr (w, s) in
  let ab := step (probe_thread 2) (watch_worker 2)
              (snd (fst (step (probe_thread 1) (watch_worker 1) PerfMonitor.papi_zero))) in
  let ba := step (probe_thread 1) (watch_worker 1)
              (snd (fst (step (probe_thread 2) (watch_worker 2) PerfMonitor.papi_zero))) in
  th_accumu (snd (fst ab)) 1 2 = th_accumu (snd (fst ba)) 1 2
  /\ th_accumu (snd (fst ab)) 2 1 = 201.
Proof.
  assert (H12 : Z.to_nat (PerfWatch.my_thread (watch_worker 1))
                <> Z.to_nat (PerfWatch.my_thread (watch_worker 2)))
    by (vm_compute; lia).
  destruct (merge_step2_threads_do_not_interfere cfg_openmp hwpc_flops
              (probe_thread 1) (probe_thread 2) (watch_worker 1) (watch_worker 2)
              PerfMonitor.papi_zero H12) as (_ & _ & Hsame).
  cbv zeta. split; [apply Hsame|]. vm_compute. reflexivity.
Defined.

(** X3: The three merge steps of a team: the master copies its block out
    (step 1), every other thread stores the row of its own Watch of the
    section (step 2, in any order), the master copies the block back and
    sums (step 3).  Afterwards the master's Watch holds, in the row of
    each worker, the scalars --- and in HWPC mode the counters --- that
    this worker measured, and its own values in every other row; its
    call count, time and flop are the sums over the threads of columns
    0, 1 and 2; and it is marked merged. *)
Theorem merge_team
    (cfg : BuildConfig) (hwpc_group : hwpc_group_chooser) (env : NodeEnv)
    (master : PerfWatch.t) (ws : list (Probe * PerfWatch.t)) (papi : pmlib_papi_chooser) :
  OPENMP cfg = true ->
  PerfWatch.m_threads_merged master = false ->
  PerfWatch.my_thread master = 0 ->
  PerfWatch.m_started master = false ->
  Forall (fun pw => worker_of hwpc_group master pw.2) ws ->
  NoDup (map (fun pw => Z.to_nat (PerfWatch.my_thread pw.2)) ws) ->
  let s1 := snd (PerfWatch.mergeMasterThread cfg hwpc_group (master, papi)) in
  let s2 := merge_workers cfg hwpc_group ws s1 in
  let w' := fst (fst (PerfWatch.updateMergedThread cfg hwpc_group env (master, s2))) in
  let mine := PerfWatch.my_papi w' in
  let nthreads := PerfWatch.num_threads master in
  let hwpc := 2 <=? PerfWatch.statsSwitch hwpc_group master in
  let cols := if hwpc then Z.to_nat (num_events (PerfWatch.my_papi master)) else 3%nat in
  (forall pw, In pw ws ->
     let me := Z.to_nat (PerfWatch.my_thread pw.2) in
     forall i, (i < cols)%nat ->
       th_v_sorted mine me i = th_v_sorted (PerfWatch.my_papi pw.2) me i
       /\ (hwpc = true -> th_accumu mine me i = th_accumu (PerfWatch.my_papi pw.2) me i))
  /\ (forall j, Forall (fun pw => Z.to_nat (PerfWatch.my_thread pw.2) <> j) ws ->
       forall i,
         th_v_sorted mine j i = th_v_sorted (PerfWatch.my_papi master) j i
         /\ th_accumu mine j i = th_accumu (PerfWatch.my_papi master) j i)
  /\ PerfWatch.m_count w' = lround (PerfWatch.sum_slot nthreads (th_v_sorted mine) 0)
  /\ PerfWatch.m_time w' = PerfWatch.sum_slot nthreads (th_v_sorted mine) 1
  /\ PerfWatch.m_flop w' = PerfWatch.sum_slot nthreads (th_v_sorted mine) 2
  /\ PerfWatch.m_threads_merged w' = true.
Proof.
  intros Hopen Hm Hth Hs Hall Hnd.
  assert (Hg : guards cfg master) by (repeat split; assumption).
  cbv zeta.
  rewrite (ThreadMergeFacts.mergeMasterThread_shape cfg hwpc_group master papi Hg).
  cbv zeta. cbn [snd].
  match goal with
  | |- context [merge_workers _ _ _ ?S] => set (s1 := S)
  end.
  destruct (ThreadMergeFacts.update_arrays cfg hwpc_group env master
              (merge_workers cfg hwpc_group ws s1) Hg)
    as (Harr & Hc & Ht & Hf & Hmg).
  cbv zeta in Harr.
  split; [|split; [|repeat split; assumption]].
  - intros pw Hin i Hi.
    destruct (Harr (Z.to_nat (PerfWatch.my_thread pw.2)) i) as [-> ->].
    destruct (WorkerFacts.merge_workers_row cfg hwpc_group master ws s1 Hopen Hall Hnd
                pw Hin i) as [-> ->].
    assert (Hw : worker_of hwpc_group master pw.2).
    { rewrite Forall_forall in Hall. apply Hall. apply list_elem_of_In. exact Hin. }
    destruct Hw as (_ & Hrange & _).
    replace (Nat.ltb (Z.to_nat (PerfWatch.my_thread pw.2))
               (Z.to_nat (PerfWatch.num_threads master))) with true
      by (symmetry; apply Nat.ltb_lt; lia).
    replace (Nat.ltb i (if 2 <=? PerfWatch.statsSwitch hwpc_group master
                        then Z.to_nat (num_events (PerfWatch.my_papi master)) else 3%nat))
      with true by (symmetry; apply Nat.ltb_lt; exact Hi).
    cbn [andb]. split; [reflexivity|]. intros ->. reflexivity.
  - intros j Hoth i.
    destruct (Harr j i) as [-> ->].
    destruct (WorkerFacts.merge_workers_other cfg hwpc_group ws s1 j i Hoth) as [-> ->].
    unfold s1. cbn [th_accumu th_v_sorted set_th_accumu set_th_v_sorted].
    destruct (2 <=? PerfWatch.statsSwitch hwpc_group master);
      rewrite !MergeFacts.copy_block_spec; cbn [andb];
      change (Z.to_nat 3) with 3%nat; rewrite ?Nat2Z.id;
      repeat match goal with
             | |- context [if ?b then _ else _] => destruct b
             end; split; reflexivity.
Qed.

Lemma merge_team_witness :
  let s1 := snd (PerfWatch.mergeMasterThread cfg_openmp hwpc_flops
                   (watch_master, PerfMonitor.papi_zero)) in
  let s2 := merge_workers cfg_openmp hwpc_flops [(probe_thread 1, watch_worker 1)] s1 in
  let w' := fst (fst (PerfWatch.updateMergedThread cfg_openmp hwpc_flops env_unset
                        (watch_master, s2))) in
  th_v_sorted (PerfWatch.my_papi w') 1 1 = 0.5%float
  /\ th_accumu (PerfWatch.my_papi w') 1 2 = 102
  /\ th_v_sorted (PerfWatch.my_papi w') 0 1 = 2.5%float
  /\ PerfWatch.m_threads_merged w' = true.
Proof.
  assert (Hw : Forall (fun pw => worker_of hwpc_flops watch_master pw.2)
                 [(probe_thread 1, watch_worker 1)]).
  { constructor; [|constructor]. repeat split; vm_compute; reflexivity. }
  assert (Hnd : NoDup (map (fun pw : Probe * PerfWatch.t =>
                              Z.to_nat (PerfWatch.my_thread pw.2))
                         [(probe_thread 1, watch_worker 1)])).
  { apply NoDup_singleton. }
  destruct (merge_team cfg_openmp hwpc_flops env_unset watch_master
              [(probe_thread 1, watch_worker 1)] PerfMonitor.papi_zero
              eq_refl eq_refl eq_refl eq_refl Hw Hnd)
    as (Hrow & Hother & _ & _ & _ & Hmg).
  cbv zeta.
  assert (H13 : (1 < 3)%nat) by lia. assert (H23 : (2 < 3)%nat) by lia.
  destruct (Hrow (probe_thread 1, watch_worker 1) (or_introl eq_refl) 1%nat H13)
    as [Hv _].
  destruct (Hrow (probe_thread 1, watch_worker 1) (or_introl eq_refl) 2%nat H23)
    as [_ Ha].
  assert (H0 : Forall (fun pw : Probe * PerfWatch.t =>
                         Z.to_nat (PerfWatch.my_thread pw.2) <> 0%nat)
                 [(probe_thread 1, watch_worker 1)]).
  { constructor; [vm_compute; lia|constructor]. }
  destruct (Hother 0%nat H0 1%nat) as [Hv0 _].
  split; [exact Hv|]. split; [exact (Ha eq_refl)|]. split; [|exact Hmg].
  rewrite Hv0. vm_compute. reflexivity.
Defined.

(** ** Hardware counters over a start/stop pair *)

Module HwpcFacts.
Import PerfWatch.

Ltac pw_red_in H :=
  cbv beta iota zeta delta
    [set_m_label set_m_id set_m_typeCalc set_m_exclusive set_num_process
     set_my_rank set_num_threads set_my_thread set_m_in_parallel set_m_is_set
     set_level_OTF set_m_threads_merged set_m_is_healthy set_m_started
     set_m_startTime set_m_stopTime set_m_time set_m_flop set_m_count
     set_m_timeArray set_m_flopArray set_m_countArray set_m_count_sum
     set_m_time_av set_m_flop_av set_m_time_sd set_m_flop_sd set_m_time_comm
     set_m_count_av set_my_papi
     m_label m_id m_typeCalc m_exclusive num_process my_rank num_threads
     my_thread m_in_parallel m_is_set level_OTF m_threads_merged m_is_healthy
     m_started m_startTime m_stopTime m_time m_flop m_count m_timeArray
     m_flopArray m_countArray m_count_sum m_time_av m_flop_av m_time_sd
     m_flop_sd m_time_comm m_count_av my_papi fst snd negb] in H.

Lemma set_th_values_twice V V' p : set_th_values V' (set_th_values V p) = set_th_values V' p.
Proof. reflexivity. Qed.

Lemma set_th_accumu_twice V V' p : set_th_accumu V' (set_th_accumu V p) = set_th_accumu V' p.
Proof. reflexivity. Qed.

Lemma read_thread_values_spec pr (t : nat) p :
  exists V,
    read_thread_values pr t p = set_th_values V p
    /\ forall j i, V j i = if Nat.eqb j t && Nat.ltb i (Z.to_nat (num_events p))
                           then papi_read pr t i else th_values p j i.
Proof.
  unfold read_thread_values. rewrite StatsFacts.for_loop_nat.
  induction (Z.to_nat (num_events p)) as [|k (V & Hloop & HV)].
  - exists (th_values p). rewrite for_loop_0 by lia.
    split; [destruct p; reflexivity|]. intros j i. rewrite andb_false_r. reflexivity.
  - rewrite for_loop_S, Hloop. cbn [th_values set_th_values].
    eexists. split; [reflexivity|]. intros j i. rewrite MergeFacts.upd2_eq, HV.
    destruct (Nat.eqb_spec j t) as [->|Hj]; cbn [andb]; [|reflexivity].
    destruct (Nat.eqb_spec i k) as [->|Hi].
    + replace (k <? S k)%nat with true by (symmetry; apply Nat.ltb_lt; lia). reflexivity.
    + destruct (Nat.ltb_spec i k), (Nat.ltb_spec i (S k)); try lia; reflexivity.
Qed.

Lemma accumulate_thread_spec pr (t : nat) p :
  exists A,
    accumulate_thread pr t p = set_th_accumu A p
    /\ forall j i, A j i = if Nat.eqb j t && Nat.ltb i (Z.to_nat (num_events p))
                           then wrap_long (th_accumu p t i
                                           + wrap_long (papi_read pr t i - th_values p t i))
                           else th_accumu p j i.
Proof.
  unfold accumulate_thread. rewrite StatsFacts.for_loop_nat.
  induction (Z.to_nat (num_events p)) as [|k (A & Hloop & HA)].
  - exists (th_accumu p). rewrite for_loop_0 by lia.
    split; [destruct p; reflexivity|]. intros j i. rewrite andb_false_r. reflexivity.
  - rewrite for_loop_S, Hloop. cbn [th_accumu th_values set_th_accumu].
    eexists. split; [reflexivity|]. intros j i. rewrite MergeFacts.upd2_eq, !HA.
    rewrite Nat.eqb_refl, Nat.ltb_irrefl.
    destruct (Nat.eqb_spec j t) as [->|Hj]; cbn [andb]; [|reflexivity].
    destruct (Nat.eqb_spec i k) as [->|Hi].
    + replace (k <? S k)%nat with true by (symmetry; apply Nat.ltb_lt; lia).
      reflexivity.
    + destruct (Nat.ltb_spec i k), (Nat.ltb_spec i (S k)); try lia; reflexivity.
Qed.

(** The [omp parallel] regions of the serial routines: every thread of
    the team reads, respectively accumulates, its own row. *)
Lemma read_all_threads pr (nt : nat) p :
  exists V,
    for_loop (Z.of_nat nt) (fun i_thread p => read_thread_values pr i_thread p) p
    = set_th_values V p
    /\ forall j i, V j i = if Nat.ltb j nt && Nat.ltb i (Z.to_nat (num_events p))
                           then papi_read pr j i else th_values p j i.
Proof.
  induction nt as [|k (V & Hloop & HV)].
  - exists (th_values p). rewrite for_loop_0 by lia.
    split; [destruct p; reflexivity|]. reflexivity.
  - rewrite for_loop_S, Hloop.
    destruct (read_thread_values_spec pr k (set_th_values V p)) as (V' & -> & HV').
    rewrite set_th_values_twice. exists V'. split; [reflexivity|].
    intros j i. rewrite HV'. cbn [th_values num_events set_th_values]. rewrite HV.
    destruct (Nat.eqb_spec j k) as [->|Hj]; cbn [andb].
    + replace (k <? S k)%nat with true by (symmetry; apply Nat.ltb_lt; lia).
      rewrite Nat.ltb_irrefl. cbn [andb].
      destruct (i <? Z.to_nat (num_events p))%nat; reflexivity.
    + destruct (Nat.ltb_spec j k), (Nat.ltb_spec j (S k)); try lia; reflexivity.
Qed.

Lemma accumulate_all_threads pr (nt : nat) p :
  exists A,
    for_loop (Z.of_nat nt) (fun i_thread p => accumulate_thread pr i_thread p) p
    = set_th_accumu A p
    /\ forall j i, A j i = if Nat.ltb j nt && Nat.ltb i (Z.to_nat (num_events p))
                           then wrap_long (th_accumu p j i
                                           + wrap_long (papi_read pr j i - th_values p j i))
                           else th_accumu p j i.
Proof.
  induction nt as [|k (A & Hloop & HA)].
  - exists (th_accumu p). rewrite for_loop_0 by lia.
    split; [destruct p; reflexivity|]. reflexivity.
  - rewrite for_loop_S, Hloop.
    destruct (accumulate_thread_spec pr k (set_th_accumu A p)) as (A' & -> & HA').
    rewrite set_th_accumu_twice. exists A'. split; [reflexivity|].
    intros j i. rewrite HA'. cbn [th_accumu th_values num_events set_th_accumu].
    destruct (Nat.eqb_spec j k) as [->|Hj]; cbn [andb].
    + replace (k <? S k)%nat with true by (symmetry; apply Nat.ltb_lt; lia).
      cbn [andb]. rewrite HA, Nat.ltb_irrefl. cbn [andb].
      destruct (i <? Z.to_nat (num_events p))%nat; reflexivity.
    + rewrite HA.
      destruct (Nat.ltb_spec j k), (Nat.ltb_spec j (S k)); try lia; reflexivity.
Qed.

Section Pair.
Context (cfg : BuildConfig) (hwpc_group : hwpc_group_chooser).

Lemma start_hwpc pr w :
  USE_PAPI cfg = true -> (2 <=? statsSwitch hwpc_group w) = true ->
  exists V,
    fst (start cfg hwpc_group pr w)
    = w |> set_m_started true |> set_m_startTime (getTime pr)
        |> set_m_threads_merged false |> set_my_papi (set_th_values V (my_papi w))
    /\ forall j i,
         V j i = if (if m_in_parallel w then Nat.eqb j (Z.to_nat (my_thread w))
                     else Nat.ltb j (Z.to_nat (num_threads w)))
                    && Nat.ltb i (Z.to_nat (num_events (my_papi w)))
                 then papi_read pr j i else th_values (my_papi w) j i.
Proof.
  intros Hpapi Hu. destruct w. unfold start, startSectionSerial, startSectionParallel.
  PerfWatchFacts.pw_red.
  change (statsSwitch hwpc_group _) with
    (statsSwitch hwpc_group
       {| m_label := m_label0; m_id := m_id0; m_typeCalc := m_typeCalc0;
          m_exclusive := m_exclusive0; num_process := num_process0;
          my_rank := my_rank0; num_threads := num_threads0; my_thread := my_thread0;
          m_in_parallel := m_in_parallel0; m_is_set := m_is_set0;
          level_OTF := level_OTF0; m_threads_merged := m_threads_merged0;
          m_is_healthy := m_is_healthy0; m_started := m_started0;
          m_startTime := m_startTime0; m_stopTime := m_stopTime0; m_time := m_time0;
          m_flop := m_flop0; m_count := m_count0; m_timeArray := m_timeArray0;
          m_flopArray := m_flopArray0; m_countArray := m_countArray0;
          m_count_sum := m_count_sum0; m_time_av := m_time_av0;
          m_flop_av := m_flop_av0; m_time_sd := m_time_sd0; m_flop_sd := m_flop_sd0;
          m_time_comm := m_time_comm0; m_count_av := m_count_av0;
          my_papi := my_papi0 |}).
  rewrite Hu, Hpapi. destruct m_in_parallel0; PerfWatchFacts.pw_red.
  - destruct (read_thread_values_spec pr (Z.to_nat my_thread0) my_papi0) as (V & -> & HV).
    exists V. split; [reflexivity|]. intros j i. rewrite HV.
    destruct (Nat.eqb_spec j (Z.to_nat my_thread0)) as [->|]; reflexivity.
  - rewrite StatsFacts.for_loop_nat.
    destruct (read_all_threads pr (Z.to_nat num_threads0) my_papi0) as (V & -> & HV).
    exists V. split; [reflexivity|]. exact HV.
Qed.

Lemma statsSwitch_typeCalc w w' :
  m_typeCalc w = m_typeCalc w' -> statsSwitch hwpc_group w = statsSwitch hwpc_group w'.
Proof. intros H. unfold statsSwitch. rewrite H. reflexivity. Qed.

Lemma stop_hwpc pr f n w :
  USE_PAPI cfg = true -> (2 <=? statsSwitch hwpc_group w) = true ->
  exists A Vs,
    fst (stop cfg hwpc_group pr f n w)
    = w |> set_m_is_healthy true |> set_m_stopTime (getTime pr)
        |> set_m_time (m_time w + (getTime pr - m_startTime w))%float
        |> set_m_count (wrap_long (m_count w + 1))
        |> set_m_started false
        |> set_my_papi (set_th_v_sorted Vs (set_th_accumu A (my_papi w)))
    /\ (forall j i,
          A j i = if (if m_in_parallel w then Nat.eqb j (Z.to_nat (my_thread w))
                      else Nat.ltb j (Z.to_nat (num_threads w)))
                     && Nat.ltb i (Z.to_nat (num_events (my_papi w)))
                  then wrap_long (th_accumu (my_papi w) j i
                                  + wrap_long (papi_read pr j i
                                               - th_values (my_papi w) j i))
                  else th_accumu (my_papi w) j i)
    /\ (forall j i,
          Vs j i = if Nat.eqb j (Z.to_nat (my_thread w))
                   then match i with
                        | 0%nat => double_of_Z (wrap_long (m_count w + 1))
                        | 1%nat => (m_time w + (getTime pr - m_startTime w))%float
                        | 2%nat => m_flop w
                        | _ => th_v_sorted (my_papi w) j i
                        end
                   else th_v_sorted (my_papi w) j i).
Proof.
  intros Hpapi Hu.
  assert (Hsw : forall w', m_typeCalc w' = m_typeCalc w ->
                  (2 <=? statsSwitch hwpc_group w') = true).
  { intros w' H. rewrite (statsSwitch_typeCalc w' w H). exact Hu. }
  assert (Hacc : exists A,
            (if m_in_parallel w
             then accumulate_thread pr (Z.to_nat (my_thread w)) (my_papi w)
             else for_loop (num_threads w)
                    (fun i_thread p => accumulate_thread pr i_thread p) (my_papi w))
            = set_th_accumu A (my_papi w)
            /\ forall j i,
                 A j i = if (if m_in_parallel w then Nat.eqb j (Z.to_nat (my_thread w))
                             else Nat.ltb j (Z.to_nat (num_threads w)))
                            && Nat.ltb i (Z.to_nat (num_events (my_papi w)))
                         then wrap_long (th_accumu (my_papi w) j i
                                         + wrap_long (papi_read pr j i
                                                      - th_values (my_papi w) j i))
                         else th_accumu (my_papi w) j i).
  { destruct (m_in_parallel w).
    - destruct (accumulate_thread_spec pr (Z.to_nat (my_thread w)) (my_papi w))
        as (A & -> & HA).
      exists A. split; [reflexivity|]. intros j i. rewrite HA.
      destruct (Nat.eqb_spec j (Z.to_nat (my_thread w))) as [->|]; reflexivity.
    - rewrite StatsFacts.for_loop_nat.
      destruct (accumulate_all_threads pr (Z.to_nat (num_threads w)) (my_papi w))
        as (A & -> & HA).
      exists A. split; [reflexivity|]. exact HA. }
  destruct Hacc as (A & HeqA & HA).
  exists (if 0 <? num_events (my_papi w) then A else th_accumu (my_papi w)).
  exists (upd2
            (upd2
               (upd2 (th_v_sorted (my_papi w)) (Z.to_nat (my_thread w)) 0%nat
                  (double_of_Z (wrap_long (m_count w + 1))))
               (Z.to_nat (my_thread w)) 1%nat
               (m_time w + (getTime pr - m_startTime w))%float)
            (Z.to_nat (my_thread w)) 2%nat (m_flop w)).
  split; [|split].
  - destruct w. unfold stop, stopSectionSerial, stopSectionParallel, save_thread_scalars.
    pw_red_in HeqA.
    destruct m_is_healthy0, m_started0, m_in_parallel0; PerfWatchFacts.pw_red;
      rewrite !Hsw by reflexivity; rewrite Hpapi;
      destruct (0 <? num_events my_papi0); PerfWatchFacts.pw_red;
      rewrite ?HeqA; reflexivity.
  - intros j i. destruct (0 <? num_events (my_papi w)) eqn:Hne; [apply HA|].
    apply Z.ltb_ge in Hne.
    replace (Nat.ltb i (Z.to_nat (num_events (my_papi w)))) with false
      by (symmetry; apply Nat.ltb_ge; lia).
    rewrite andb_false_r. reflexivity.
  - intros j i. cbv beta. rewrite !MergeFacts.upd2_eq.
    cbn [th_v_sorted set_th_accumu].
    destruct (Nat.eqb j (Z.to_nat (my_thread w))); cbn [andb]; [|reflexivity].
    destruct i as [|[|[|i]]]; reflexivity.
Qed.

End Pair.
End HwpcFacts.

(** X4: A start/stop pair under an HWPC group: every event counter of the
    threads measured --- all threads of the team for a section in a
    serial region, the calling thread for a section inside a parallel
    region --- grows by the difference of the two readings (in
    [long long] arithmetic), and no other counter changes.  The stop
    arguments are ignored: the flop count keeps its value.  The pair
    counts one call and its elapsed time, and these three scalars are
    stored in columns 0, 1, 2 of the calling thread's row. *)
Theorem hwpc_pair_accumulates
    (cfg : BuildConfig) (hwpc_group : hwpc_group_chooser)
    (pr1 pr2 : Probe) (f : double) (n : Z) (w : PerfWatch.t) :
  USE_PAPI cfg = true ->
  (2 <=? PerfWatch.statsSwitch hwpc_group w) = true ->
  let w1 := fst (PerfWatch.start cfg hwpc_group pr1 w) in
  let w2 := fst (PerfWatch.stop cfg hwpc_group pr2 f n w1) in
  let me := Z.to_nat (PerfWatch.my_thread w) in
  let measured j := if PerfWatch.m_in_parallel w then Nat.eqb j me
                    else Nat.ltb j (Z.to_nat (PerfWatch.num_threads w)) in
  (forall j i,
     th_accumu (PerfWatch.my_papi w2) j i
     = if measured j && Nat.ltb i (Z.to_nat (num_events (PerfWatch.my_papi w)))
       then wrap_long (th_accumu (PerfWatch.my_papi w) j i
                       + wrap_long (papi_read pr2 j i - papi_read pr1 j i))
       else th_accumu (PerfWatch.my_papi w) j i)
  /\ PerfWatch.m_flop w2 = PerfWatch.m_flop w
  /\ PerfWatch.m_count w2 = wrap_long (PerfWatch.m_count w + 1)
  /\ PerfWatch.m_time w2 = (PerfWatch.m_time w + (getTime pr2 - getTime pr1))%float
  /\ th_v_sorted (PerfWatch.my_papi w2) me 0 = double_of_Z (PerfWatch.m_count w2)
  /\ th_v_sorted (PerfWatch.my_papi w2) me 1 = PerfWatch.m_time w2
  /\ th_v_sorted (PerfWatch.my_papi w2) me 2 = PerfWatch.m_flop w2.
Proof.
  intros Hpapi Hu. cbv zeta.
  destruct (HwpcFacts.start_hwpc cfg hwpc_group pr1 w Hpapi Hu) as (V & Hw1 & HV).
  rewrite Hw1.
  match goal with
  | |- context [PerfWatch.stop _ _ _ _ _ ?W] => set (w1 := W)
  end.
  assert (Hu1 : (2 <=? PerfWatch.statsSwitch hwpc_group w1) = true).
  { rewrite (HwpcFacts.statsSwitch_typeCalc hwpc_group w1 w); [exact Hu|].
    unfold w1. destruct w. reflexivity. }
  destruct (HwpcFacts.stop_hwpc cfg hwpc_group pr2 f n w1 Hpapi Hu1)
    as (A & Vs & Hw2 & HA & HVs).
  rewrite Hw2. unfold w1 in *. clear w1 Hw1 Hw2 Hu1.
  destruct w. HwpcFacts.pw_red_in HA. HwpcFacts.pw_red_in HVs. HwpcFacts.pw_red_in HV.
  PerfWatchFacts.pw_red.
  cbn [th_accumu th_v_sorted th_values num_events set_th_values set_th_accumu
       set_th_v_sorted] in *.
  split; [|split; [reflexivity|split; [reflexivity|split; [reflexivity|]]]].
  - intros j i. rewrite HA, HV.
    destruct (if m_in_parallel then Nat.eqb j (Z.to_nat my_thread)
              else Nat.ltb j (Z.to_nat num_threads)); cbn [andb]; [|reflexivity].
    destruct (Nat.ltb i (Z.to_nat (num_events my_papi))); reflexivity.
  - rewrite !HVs, Nat.eqb_refl. repeat split; reflexivity.
Qed.

Lemma hwpc_pair_accumulates_witness :
  let w1 := fst (PerfWatch.start cfg_openmp hwpc_flops (probe_counting 1 10)
                   watch_two_threads) in
  let w2 := fst (PerfWatch.stop cfg_openmp hwpc_flops (probe_counting 3 25) 5 7 w1) in
  th_accumu (PerfWatch.my_papi w2) 1 2 = 30
  /\ th_accumu (PerfWatch.my_papi w2) 2 0 = 0
  /\ PerfWatch.m_flop w2 = 0%float
  /\ PerfWatch.m_time w2 = 2%float.
Proof.
  destruct (hwpc_pair_accumulates cfg_openmp hwpc_flops (probe_counting 1 10)
              (probe_counting 3 25) 5 7 watch_two_threads eq_refl eq_refl)
    as (Hacc & Hflop & _ & Htime & _).
  cbv zeta. rewrite !Hacc, Hflop, Htime. repeat split; vm_compute; reflexivity.
Defined.

(** ** Merging twice *)

(** X5: Once steps 1 and 3 have merged a section, each of the three merge
    steps returns the Watch and whatever the scratch area holds as they
    are: a second report does not sum the threads again.  The next start
    of the section clears the mark, so that the new measurement is
    merged again. *)
Theorem merged_section_is_not_merged_again
    (cfg : BuildConfig) (hwpc_group : hwpc_group_chooser) (env : NodeEnv)
    (w : PerfWatch.t) (papi : pmlib_papi_chooser) :
  OPENMP cfg = true ->
  PerfWatch.m_threads_merged w = false ->
  PerfWatch.my_thread w = 0 ->
  PerfWatch.m_started w = false ->
  let w' := fst (fst (PerfWatch.updateMergedThread cfg hwpc_group env
                        (PerfWatch.mergeMasterThread cfg hwpc_group (w, papi)))) in
  forall (pr : Probe) (s : pmlib_papi_chooser),
    PerfWatch.mergeMasterThread cfg hwpc_group (w', s) = (w', s)
    /\ PerfWatch.mergeParallelThread cfg hwpc_group pr (w', s) = ((w', s), [])
    /\ PerfWatch.updateMergedThread cfg hwpc_group env (w', s) = ((w', s), [])
    /\ PerfWatch.m_threads_merged (fst (PerfWatch.start cfg hwpc_group pr w')) = false.
Proof.
  intros Hopen Hm Hth Hs.
  assert (Hg : guards cfg w) by (repeat split; assumption).
  cbv zeta.
  rewrite (ThreadMergeFacts.mergeMasterThread_shape cfg hwpc_group w papi Hg). cbv zeta.
  match goal with
  | |- context [PerfWatch.updateMergedThread _ _ _ (w, ?S)] =>
      destruct (ThreadMergeFacts.update_arrays cfg hwpc_group env w S Hg)
        as (_ & _ & _ & _ & Hmg);
      set (w' := fst (fst (PerfWatch.updateMergedThread cfg hwpc_group env (w, S)))) in *
  end.
  intros pr s.
  unfold PerfWatch.mergeMasterThread, PerfWatch.mergeParallelThread,
    PerfWatch.updateMergedThread.
  rewrite Hopen, Hmg. cbn [negb].
  split; [reflexivity|]. split; [reflexivity|]. split; [reflexivity|].
  destruct (PerfWatchFacts.start_shape cfg hwpc_group pr w') as (p & ->).
  destruct w'. reflexivity.
Qed.

Lemma merged_section_is_not_merged_again_witness :
  let w' := fst (fst (PerfWatch.updateMergedThread cfg_openmp hwpc_flops env_unset
                        (PerfWatch.mergeMasterThread cfg_openmp hwpc_flops
                           (watch_master, PerfMonitor.papi_zero)))) in
  PerfWatch.updateMergedThread cfg_openmp hwpc_flops env_unset (w', scratch_two_threads)
  = ((w', scratch_two_threads), []).
Proof.
  cbv zeta.
  apply (merged_section_is_not_merged_again cfg_openmp hwpc_flops env_unset watch_master
           PerfMonitor.papi_zero eq_refl eq_refl eq_refl eq_refl (probe_at 0)
           scratch_two_threads).
Defined.

(** ** One thread of a section *)

Module SelectFacts.
Import PerfWatch.

Lemma save_thread_scalars_spec w :
  let w' := save_thread_scalars w in
  let me := Z.to_nat (my_thread w') in
  th_v_sorted (my_papi w') me 0 = double_of_Z (m_count w')
  /\ th_v_sorted (my_papi w') me 1 = m_time w'
  /\ th_v_sorted (my_papi w') me 2 = m_flop w'.
Proof.
  destruct w. cbv zeta. unfold save_thread_scalars. PerfWatchFacts.pw_red.
  cbn [th_v_sorted set_th_v_sorted].
  rewrite !MergeFacts.upd2_eq, !Nat.eqb_refl. repeat split; reflexivity.
Qed.

Section Stop.
Context (cfg : BuildConfig) (hwpc_group : hwpc_group_chooser).

(** What [stop] leaves in the row of the calling thread. *)
Lemma stop_saves_scalars pr f n w :
  let w' := fst (stop cfg hwpc_group pr f n w) in
  let me := Z.to_nat (my_thread w) in
  th_v_sorted (my_papi w') me 0 = double_of_Z (m_count w')
  /\ th_v_sorted (my_papi w') me 1 = m_time w'
  /\ th_v_sorted (my_papi w') me 2 = m_flop w'
  /\ my_thread w' = my_thread w /\ m_in_parallel w' = m_in_parallel w.
Proof.
  cbv zeta.
  assert (Hsame : my_thread (fst (stop cfg hwpc_group pr f n w)) = my_thread w
                  /\ m_in_parallel (fst (stop cfg hwpc_group pr f n w)) = m_in_parallel w).
  { destruct (PerfWatchFacts.stop_shape cfg hwpc_group pr f n w) as (p & ->).
    destruct w. split; reflexivity. }
  destruct Hsame as [Hth Hpar]. rewrite <- Hth.
  split; [|split; [|split; [|split; [reflexivity|exact Hpar]]]];
    unfold stop; cbn [fst]; cbv zeta;
    match goal with
    | |- context [save_thread_scalars ?X] =>
        destruct (save_thread_scalars_spec X) as (H0 & H1 & H2)
    end; assumption.
Qed.

(** The loop of [selectPerfSingleThread]. *)
Lemma select_loop (it : nat) p :
  exists acc,
    for_loop (num_events p)
      (fun ip p => set_accumu (upd1 (accumu p) ip (th_accumu p it ip)) p) p
    = set_accumu acc p
    /\ (forall e, (e < Z.to_nat (num_events p))%nat -> acc e = th_accumu p it e)
    /\ (forall e, (Z.to_nat (num_events p) <= e)%nat -> acc e = accumu p e).
Proof.
  rewrite StatsFacts.for_loop_nat.
  apply (MergeFacts.per_event_loop (fun e th _ => th it e)).
  intros i q. eexists. split; [reflexivity|]. split.
  - unfold upd1. rewrite Nat.eqb_refl. reflexivity.
  - intros e He. unfold upd1.
    replace (Nat.eqb e i) with false by (symmetry; apply Nat.eqb_neq; exact He).
    reflexivity.
Qed.

Lemma select_shape i_thread w :
  exists acc,
    selectPerfSingleThread i_thread w
    = (let row := if m_in_parallel w then Z.to_nat i_thread else 0%nat in
       w |> set_my_papi (set_accumu acc (my_papi w))
         |> set_m_count (lround (th_v_sorted (my_papi w) row 0))
         |> set_m_time (th_v_sorted (my_papi w) row 1)
         |> set_m_flop (th_v_sorted (my_papi w) row 2))
    /\ (forall e, (e < Z.to_nat (num_events (my_papi w)))%nat ->
                  acc e = th_accumu (my_papi w) (Z.to_nat i_thread) e)
    /\ (forall e, (Z.to_nat (num_events (my_papi w)) <= e)%nat ->
                  acc e = accumu (my_papi w) e).
Proof.
  destruct (select_loop (Z.to_nat i_thread) (my_papi w)) as (acc & Hloop & Hlt & Hge).
  exists acc. split; [|split; assumption].
  unfold selectPerfSingleThread. cbv zeta. rewrite Hloop.
  destruct w. reflexivity.
Qed.

End Stop.
End SelectFacts.

(** X6: [selectPerfSingleThread] right after a stop.  For a section in a
    serial region (measured by thread 0) whatever thread is selected, and
    for a section inside a parallel region when the thread that measured
    it is selected, the time and the flop count of the Watch come back
    unchanged and the call count is the rounded [double] of itself; the
    process counter of every event becomes the counter of the selected
    thread, and the per-thread arrays are not written. *)
Theorem select_thread_after_stop
    (cfg : BuildConfig) (hwpc_group : hwpc_group_chooser)
    (pr : Probe) (f : double) (n : Z) (i_thread : Z) (w : PerfWatch.t) :
  (if PerfWatch.m_in_parallel w
   then Z.to_nat i_thread = Z.to_nat (PerfWatch.my_thread w)
   else Z.to_nat (PerfWatch.my_thread w) = 0%nat) ->
  let w2 := fst (PerfWatch.stop cfg hwpc_group pr f n w) in
  let w3 := PerfWatch.selectPerfSingleThread i_thread w2 in
  PerfWatch.m_time w3 = PerfWatch.m_time w2
  /\ PerfWatch.m_flop w3 = PerfWatch.m_flop w2
  /\ PerfWatch.m_count w3 = lround (double_of_Z (PerfWatch.m_count w2))
  /\ (forall e, (e < Z.to_nat (num_events (PerfWatch.my_papi w2)))%nat ->
        accumu (PerfWatch.my_papi w3) e
        = th_accumu (PerfWatch.my_papi w2) (Z.to_nat i_thread) e)
  /\ (forall e, (Z.to_nat (num_events (PerfWatch.my_papi w2)) <= e)%nat ->
        accumu (PerfWatch.my_papi w3) e = accumu (PerfWatch.my_papi w2) e)
  /\ th_accumu (PerfWatch.my_papi w3) = th_accumu (PerfWatch.my_papi w2)
  /\ th_v_sorted (PerfWatch.my_papi w3) = th_v_sorted (PerfWatch.my_papi w2).
Proof.
  intros Hrow. cbv zeta.
  destruct (SelectFacts.stop_saves_scalars cfg hwpc_group pr f n w)
    as (H0 & H1 & H2 & Hth & Hpar).
  cbv zeta in H0, H1, H2.
  set (w2 := fst (PerfWatch.stop cfg hwpc_group pr f n w)) in *.
  destruct (SelectFacts.select_shape i_thread w2) as (acc & -> & Hlt & Hge).
  cbv zeta. rewrite Hpar.
  assert (Hsel : (if PerfWatch.m_in_parallel w then Z.to_nat i_thread else 0%nat)
                 = Z.to_nat (PerfWatch.my_thread w)).
  { destruct (PerfWatch.m_in_parallel w); congruence. }
  rewrite Hsel. clearbody w2. destruct w2.
  PerfWatchFacts.pw_red. HwpcFacts.pw_red_in H0. HwpcFacts.pw_red_in H1.
  HwpcFacts.pw_red_in H2. HwpcFacts.pw_red_in Hlt. HwpcFacts.pw_red_in Hge.
  cbn [accumu th_accumu th_v_sorted set_accumu].
  rewrite H0, H1, H2. repeat split; try reflexivity; assumption.
Qed.

Lemma select_thread_after_stop_witness :
  let w2 := fst (PerfWatch.stop cfg_serial hwpc_user (probe_at 3) 5 7 (watch_A 0)) in
  let w3 := PerfWatch.selectPerfSingleThread 4 w2 in
  PerfWatch.m_time w3 = 3%float /\ PerfWatch.m_flop w3 = 35%float
  /\ PerfWatch.m_count w3 = 1.
Proof.
  assert (Hrow : if PerfWatch.m_in_parallel (watch_A 0)
                 then Z.to_nat 4 = Z.to_nat (PerfWatch.my_thread (watch_A 0))
                 else Z.to_nat (PerfWatch.my_thread (watch_A 0)) = 0%nat)
    by (vm_compute; reflexivity).
  destruct (select_thread_after_stop cfg_serial hwpc_user (probe_at 3) 5 7 4 (watch_A 0)
              Hrow) as (Ht & Hf & Hc & _).
  cbv zeta. rewrite Ht, Hf, Hc. repeat split; vm_compute; reflexivity.
Defined.

(** ** Reset of one Watch *)

Module ResetMoreFacts.
Import PerfWatch.

Lemma reset_events_loop (k : nat) p :
  exists a v,
    for_loop (Z.of_nat k)
      (fun i p => p |> set_accumu (upd1 (accumu p) i 0)
                    |> set_v_sorted (upd1 (v_sorted p) i 0%float)) p
    = set_v_sorted v (set_accumu a p)
    /\ forall e, a e = (if Nat.ltb e k then 0 else accumu p e)
                 /\ v e = (if Nat.ltb e k then 0%float else v_sorted p e).
Proof.
  induction k as [|k (a & v & Hloop & Hav)].
  - exists (accumu p), (v_sorted p). rewrite for_loop_0 by lia.
    split; [destruct p; reflexivity|]. intros e. split; reflexivity.
  - rewrite for_loop_S, Hloop. cbn [accumu v_sorted set_accumu set_v_sorted].
    eexists. eexists. split; [reflexivity|]. intros e. unfold upd1.
    destruct (Hav e) as [-> ->].
    destruct (Nat.eqb_spec e k) as [->|He].
    + replace (k <? S k)%nat with true by (symmetry; apply Nat.ltb_lt; lia).
      split; reflexivity.
    + destruct (Nat.ltb_spec e k), (Nat.ltb_spec e (S k)); try lia; split; reflexivity.
Qed.

Lemma reset_row_loop (j : nat) (k : nat) p :
  exists A V,
    for_loop (Z.of_nat k)
      (fun i p => p |> set_th_accumu (upd2 (th_accumu p) j i 0)
                    |> set_th_v_sorted (upd2 (th_v_sorted p) j i 0%float)) p
    = set_th_v_sorted V (set_th_accumu A p)
    /\ forall j' i, A j' i = (if Nat.eqb j' j && Nat.ltb i k then 0 else th_accumu p j' i)
                    /\ V j' i = (if Nat.eqb j' j && Nat.ltb i k
                                 then 0%float else th_v_sorted p j' i).
Proof.
  induction k as [|k (A & V & Hloop & HAV)].
  - exists (th_accumu p), (th_v_sorted p). rewrite for_loop_0 by lia.
    split; [destruct p; reflexivity|]. intros j' i. rewrite andb_false_r.
    split; reflexivity.
  - rewrite for_loop_S, Hloop.
    cbn [th_accumu th_v_sorted set_th_accumu set_th_v_sorted].
    eexists. eexists. split; [reflexivity|]. intros j' i.
    rewrite !MergeFacts.upd2_eq. destruct (HAV j' i) as [-> ->].
    destruct (Nat.eqb_spec j' j) as [->|Hj]; cbn [andb]; [|split; reflexivity].
    destruct (Nat.eqb_spec i k) as [->|Hi].
    + replace (k <? S k)%nat with true by (symmetry; apply Nat.ltb_lt; lia).
      split; reflexivity.
    + destruct (Nat.ltb_spec i k), (Nat.ltb_spec i (S k)); try lia; split; reflexivity.
Qed.

Lemma reset_rows_loop (nt : nat) p :
  exists A V,
    for_loop (Z.of_nat nt)
      (fun j p =>
         for_loop (num_events p)
           (fun i p => p |> set_th_accumu (upd2 (th_accumu p) j i 0)
                         |> set_th_v_sorted (upd2 (th_v_sorted p) j i 0%float)) p) p
    = set_th_v_sorted V (set_th_accumu A p)
    /\ forall j i,
         A j i = (if Nat.ltb j nt && Nat.ltb i (Z.to_nat (num_events p))
                  then 0 else th_accumu p j i)
         /\ V j i = (if Nat.ltb j nt && Nat.ltb i (Z.to_nat (num_events p))
                     then 0%float else th_v_sorted p j i).
Proof.
  induction nt as [|k (A & V & Hloop & HAV)].
  - exists (th_accumu p), (th_v_sorted p). rewrite for_loop_0 by lia.
    split; [destruct p; reflexivity|]. intros j i. split; reflexivity.
  - rewrite for_loop_S, Hloop. rewrite StatsFacts.for_loop_nat.
    destruct (reset_row_loop k
                (Z.to_nat (num_events (set_th_v_sorted V (set_th_accumu A p))))
                (set_th_v_sorted V (set_th_accumu A p))) as (A' & V' & -> & HAV').
    exists A', V'. split; [reflexivity|]. intros j i.
    destruct (HAV' j i) as [-> ->].
    cbn [th_accumu th_v_sorted num_events set_th_accumu set_th_v_sorted].
    destruct (HAV j i) as [-> ->].
    destruct (Nat.eqb_spec j k) as [->|Hj]; cbn [andb].
    + replace (k <? S k)%nat with true by (symmetry; apply Nat.ltb_lt; lia).
      rewrite Nat.ltb_irrefl. cbn [andb].
      destruct (i <? Z.to_nat (num_events p))%nat; split; reflexivity.
    + destruct (Nat.ltb_spec j k), (Nat.ltb_spec j (S k)); try lia; split; reflexivity.
Qed.

Section Reset.
Context (cfg : BuildConfig).

Lemma reset_shape on_master w :
  exists a v A V,
    reset cfg on_master w
    = w |> set_m_time 0%float |> set_m_count 0 |> set_m_flop 0%float
        |> set_my_papi (my_papi w |> set_accumu a |> set_v_sorted v
                                  |> set_th_accumu A |> set_th_v_sorted V)
    /\ (forall e,
          a e = (if USE_PAPI cfg && Nat.ltb e (Z.to_nat (num_events (my_papi w)))
                 then 0 else accumu (my_papi w) e)
          /\ v e = (if USE_PAPI cfg && Nat.ltb e (Z.to_nat (num_events (my_papi w)))
                    then 0%float else v_sorted (my_papi w) e))
    /\ (forall j i,
          let zeroed := USE_PAPI cfg && OPENMP cfg && on_master
                        && (Nat.ltb j (Z.to_nat (num_threads w))
                            && Nat.ltb i (Z.to_nat (num_events (my_papi w)))) in
          A j i = (if zeroed then 0 else th_accumu (my_papi w) j i)
          /\ V j i = (if zeroed then 0%float else th_v_sorted (my_papi w) j i)).
Proof.
  unfold reset. destruct (USE_PAPI cfg).
  2: { exists (accumu (my_papi w)), (v_sorted (my_papi w)),
         (th_accumu (my_papi w)), (th_v_sorted (my_papi w)).
       split; [destruct w as [? ? ? ? ? ? ? ? ? ? ? ? ? ? ? ? ? ? ? ? ? ? ? ? ? ? ? ? ? p];
               destruct p; reflexivity|].
       split; intros; split; reflexivity. }
  cbv zeta.
  destruct (reset_events_loop (Z.to_nat (num_events (my_papi w))) (my_papi w))
    as (a & v & Hev & Hav).
  assert (Hev' : (if 0 <? num_events (my_papi w)
                  then for_loop (num_events (my_papi w))
                         (fun i p => p |> set_accumu (upd1 (accumu p) i 0)
                                       |> set_v_sorted (upd1 (v_sorted p) i 0%float))
                         (my_papi w)
                  else my_papi w)
                 = set_v_sorted v (set_accumu a (my_papi w))).
  { destruct (0 <? num_events (my_papi w)) eqn:Hpos.
    - rewrite StatsFacts.for_loop_nat. exact Hev.
    - apply Z.ltb_ge in Hpos. rewrite <- Hev.
      replace (Z.to_nat (num_events (my_papi w))) with 0%nat by lia.
      rewrite for_loop_0 by lia. reflexivity. }
  destruct w as [? ? ? ? ? ? nt ? ? ? ? ? ? ? ? ? ? ? ? ? ? ? ? ? ? ? ? ? ? p].
  PerfWatchFacts.pw_red. HwpcFacts.pw_red_in Hev'. HwpcFacts.pw_red_in Hav.
  rewrite Hev'.
  destruct (OPENMP cfg && on_master) eqn:Hmaster.
  - rewrite StatsFacts.for_loop_nat.
    destruct (reset_rows_loop (Z.to_nat nt) (set_v_sorted v (set_accumu a p)))
      as (A & V & -> & HAV).
    exists a, v, A, V. split; [destruct p; reflexivity|].
    split; [exact Hav|].
    intros j i. cbv zeta. cbn [andb]. rewrite Hmaster. cbn [andb].
    exact (HAV j i).
  - exists a, v, (th_accumu p), (th_v_sorted p). split; [destruct p; reflexivity|].
    split; [exact Hav|].
    intros j i. cbv zeta. cbn [andb]. rewrite Hmaster. cbn [andb].
    split; reflexivity.
Qed.

End Reset.
End ResetMoreFacts.

(** X7: [PerfWatch::reset] zeroes the accumulators but does not touch the
    running state: a section that is running keeps running with the
    start time and the start readings of its counters, so the stop that
    follows a reset counts one call and the whole time since the start
    before the reset.  The process counters [accumu] and [v_sorted] are
    zeroed for every event in a build with PAPI only; the per-thread
    arrays are zeroed only in a build with PAPI and OpenMP, and only by
    the master thread, on the rows of the team and the event columns. *)
Theorem reset_keeps_the_clock_running
    (cfg : BuildConfig) (hwpc_group : hwpc_group_chooser) (on_master : bool)
    (pr : Probe) (f : double) (n : Z) (w : PerfWatch.t) :
  let w1 := PerfWatch.reset cfg on_master w in
  let w2 := fst (PerfWatch.stop cfg hwpc_group pr f n w1) in
  let ne := Z.to_nat (num_events (PerfWatch.my_papi w)) in
  PerfWatch.m_started w1 = PerfWatch.m_started w
  /\ PerfWatch.m_startTime w1 = PerfWatch.m_startTime w
  /\ th_values (PerfWatch.my_papi w1) = th_values (PerfWatch.my_papi w)
  /\ (forall e,
        accumu (PerfWatch.my_papi w1) e
        = (if USE_PAPI cfg && Nat.ltb e ne then 0 else accumu (PerfWatch.my_papi w) e)
        /\ v_sorted (PerfWatch.my_papi w1) e
           = (if USE_PAPI cfg && Nat.ltb e ne
              then 0%float else v_sorted (PerfWatch.my_papi w) e))
  /\ (forall j i,
        let zeroed := USE_PAPI cfg && OPENMP cfg && on_master
                      && (Nat.ltb j (Z.to_nat (PerfWatch.num_threads w)) && Nat.ltb i ne) in
        th_accumu (PerfWatch.my_papi w1) j i
        = (if zeroed then 0 else th_accumu (PerfWatch.my_papi w) j i)
        /\ th_v_sorted (PerfWatch.my_papi w1) j i
           = (if zeroed then 0%float else th_v_sorted (PerfWatch.my_papi w) j i))
  /\ PerfWatch.m_count w2 = 1
  /\ PerfWatch.m_time w2 = (0 + (getTime pr - PerfWatch.m_startTime w))%float.
Proof.
  cbv zeta.
  destruct (ResetMoreFacts.reset_shape cfg on_master w) as (a & v & A & V & -> & Hav & HAV).
  match goal with
  | |- context [PerfWatch.stop _ _ _ _ _ ?W] =>
      destruct (PerfWatchFacts.stop_shape cfg hwpc_group pr f n W) as (p & ->)
  end.
  destruct w. PerfWatchFacts.pw_red. HwpcFacts.pw_red_in Hav. HwpcFacts.pw_red_in HAV.
  cbn [accumu v_sorted th_values th_accumu th_v_sorted set_accumu set_v_sorted
       set_th_accumu set_th_v_sorted].
  repeat split; try reflexivity; try apply Hav; apply HAV.
Qed.

(** ** Gathering twice *)

Module GatherFacts.
Import PerfWatch.

Lemma gather_lengths a w :
  (num_process w <> 1 ->
   length a.1.1 = Z.to_nat (num_process w) /\ length a.1.2 = Z.to_nat (num_process w)) ->
  length (m_timeArray (gather a w)) = Z.to_nat (num_process (gather a w))
  /\ length (m_flopArray (gather a w)) = Z.to_nat (num_process (gather a w)).
Proof.
  intros H. unfold gather. destruct a as [[times flops] counts].
  destruct (Z.eqb_spec (num_process w) 1) as [Heq|Hne].
  - destruct w. cbn in *. subst. split; reflexivity.
  - destruct (H Hne) as [Ht Hf]. destruct w. cbn in *. split; assumption.
Qed.

(** [statsAverage] as one update of the six statistics. *)
Lemma statsAverage_shape w :
  length (m_timeArray w) = Z.to_nat (num_process w) ->
  length (m_flopArray w) = Z.to_nat (num_process w) ->
  statsAverage w
  = w |> set_m_time_av (mean (m_timeArray w) (num_process w))
      |> set_m_flop_av (mean (m_flopArray w) (num_process w))
      |> set_m_count_av
           (lround (double_of_Z (m_count_sum w) / double_of_Z (num_process w))%float)
      |> set_m_time_sd (sample_sd (m_timeArray w) (num_process w))
      |> set_m_flop_sd (sample_sd (m_flopArray w) (num_process w))
      |> set_m_time_comm
           (if m_typeCalc w =? 0 then run_max (m_timeArray w) 0%float else 0%float).
Proof.
  intros Ht Hf. unfold statsAverage.
  rewrite (StatsFacts.stats_mean_shape w Ht Hf).
  rewrite StatsFacts.stats_count_shape.
  rewrite StatsFacts.stats_sd_shape by exact Ht || exact Hf.
  rewrite StatsFacts.stats_comm_shape by exact Ht.
  destruct w. reflexivity.
Qed.

End GatherFacts.

(** X8: [gather] followed by [statsAverage], as [gather_and_stats] runs them
    on every section, may be repeated: the measurement itself (time,
    flop, call count) is not written, and a second pass over the same
    data of the other processes gives the very same Watch.  With one
    process the three arrays hold the Watch's own values and both
    standard deviations are 0. *)
Theorem gather_and_stats_can_be_repeated
    (a : list double * list double * list Z) (w : PerfWatch.t) :
  (PerfWatch.num_process w <> 1 ->
   length a.1.1 = Z.to_nat (PerfWatch.num_process w)
   /\ length a.1.2 = Z.to_nat (PerfWatch.num_process w)) ->
  let pass w := PerfWatch.statsAverage (PerfWatch.gather a w) in
  pass (pass w) = pass w
  /\ PerfWatch.m_time (pass w) = PerfWatch.m_time w
  /\ PerfWatch.m_flop (pass w) = PerfWatch.m_flop w
  /\ PerfWatch.m_count (pass w) = PerfWatch.m_count w
  /\ (PerfWatch.num_process w = 1 ->
      PerfWatch.m_timeArray (pass w) = [PerfWatch.m_time w]
      /\ PerfWatch.m_flopArray (pass w) = [PerfWatch.m_flop w]
      /\ PerfWatch.m_countArray (pass w) = [PerfWatch.m_count w]
      /\ PerfWatch.m_count_sum (pass w) = PerfWatch.m_count w
      /\ PerfWatch.m_time_sd (pass w) = 0%float
      /\ PerfWatch.m_flop_sd (pass w) = 0%float).
Proof.
  intros H. cbv zeta.
  destruct (GatherFacts.gather_lengths a w H) as [Ht Hf].
  rewrite (GatherFacts.statsAverage_shape (PerfWatch.gather a w) Ht Hf).
  set (w1 := PerfWatch.gather a w) in *.
  match goal with
  | |- context [PerfWatch.gather a ?W] => set (w2 := PerfWatch.gather a W)
  end.
  assert (H2 : length (PerfWatch.m_timeArray w2) = Z.to_nat (PerfWatch.num_process w2)
               /\ length (PerfWatch.m_flopArray w2) = Z.to_nat (PerfWatch.num_process w2)).
  { apply GatherFacts.gather_lengths. unfold w1, PerfWatch.gather.
    destruct a as [[times flops] counts]. destruct w.
    cbn [fst snd] in *. PerfWatchFacts.pw_red.
    destruct (num_process =? 1); exact H. }
  destruct H2 as [Ht2 Hf2].
  rewrite (GatherFacts.statsAverage_shape w2 Ht2 Hf2).
  unfold w2, w1, PerfWatch.gather. clear.
  destruct a as [[times flops] counts]. destruct w.
  PerfWatchFacts.pw_red.
  destruct (num_process =? 1) eqn:Hb; PerfWatchFacts.pw_red; rewrite ?Hb;
    PerfWatchFacts.pw_red.
  - apply Z.eqb_eq in Hb. subst num_process.
    do 4 (split; [reflexivity|]). intros _. repeat split; reflexivity.
  - do 4 (split; [reflexivity|]). intros Heq. rewrite Heq in Hb. discriminate.
Qed.

Lemma gather_and_stats_can_be_repeated_witness :
  let pass w := PerfWatch.statsAverage (PerfWatch.gather ([], [], []) w) in
  let w := fst (PerfWatch.stop cfg_serial hwpc_user (probe_at 3) 5 7 (watch_A 0)) in
  pass (pass w) = pass w /\ PerfWatch.m_time (pass w) = 3%float
  /\ PerfWatch.m_time_sd (pass w) = 0%float.
Proof.
  assert (H : PerfWatch.num_process
                (fst (PerfWatch.stop cfg_serial hwpc_user (probe_at 3) 5 7 (watch_A 0)))
              <> 1 ->
              length (([] : list double, [] : list double, [] : list Z).1.1)
              = Z.to_nat (PerfWatch.num_process
                  (fst (PerfWatch.stop cfg_serial hwpc_user (probe_at 3) 5 7 (watch_A 0))))
              /\ length (([] : list double, [] : list double, [] : list Z).1.2)
                 = Z.to_nat (PerfWatch.num_process
                     (fst (PerfWatch.stop cfg_serial hwpc_user (probe_at 3) 5 7
                             (watch_A 0))))).
  { intros Hne. exfalso. apply Hne. vm_compute. reflexivity. }
  destruct (gather_and_stats_can_be_repeated ([], [], [])
              (fst (PerfWatch.stop cfg_serial hwpc_user (probe_at 3) 5 7 (watch_A 0))) H)
    as (Hidem & Htime & _ & _ & Hone).
  cbv zeta. split; [exact Hidem|]. split.
  - rewrite Htime. vm_compute. reflexivity.
  - apply Hone. vm_compute. reflexivity.
Defined.

(** ** Units of the report *)

(** X9: [statsSwitch] answers a number from -1 to 7; it is -1 exactly when no
    HWPC group has events and the measurement type of the section is
    neither 0 nor 1.  For that answer [unitFlop] returns 0.0 and leaves
    the unit string of the caller as it was; for the answers 0 to 7 the
    value and the unit do not depend on the string passed in.  A rate
    that is not a number is reported in the smallest unit of its
    family, as not a number. *)
Theorem unitFlop_units
    (hwpc_group : hwpc_group_chooser) (w : PerfWatch.t) (fops : double) (unit : string) :
  let is_unit := PerfWatch.statsSwitch hwpc_group w in
  -1 <= is_unit <= 7
  /\ (is_unit = -1 <->
      (forall g, number hwpc_group g <= 0)
      /\ PerfWatch.m_typeCalc w <> 0 /\ PerfWatch.m_typeCalc w <> 1)
  /\ (is_unit = -1 -> PerfWatch.unitFlop fops unit is_unit = (0%float, unit))
  /\ (is_unit <> -1 ->
      forall unit', PerfWatch.unitFlop fops unit' is_unit
                    = PerfWatch.unitFlop fops unit is_unit)
  /\ (is_unit <> -1 ->
      PerfWatch.unitFlop nan unit is_unit
      = (nan, if (is_unit =? 0) || (is_unit =? 2) then "MB/sec"
              else if (is_unit =? 1) || (is_unit =? 3) then "Mflops"
              else if is_unit =? 6 then "M.ips" else "(%)")).
Proof.
  cbv zeta.
  assert (Hcases : (PerfWatch.statsSwitch hwpc_group w = -1
                    /\ (forall g, number hwpc_group g <= 0)
                    /\ PerfWatch.m_typeCalc w <> 0 /\ PerfWatch.m_typeCalc w <> 1)
                   \/ (0 <= PerfWatch.statsSwitch hwpc_group w <= 7
                       /\ ((exists g, 0 < number hwpc_group g)
                           \/ PerfWatch.m_typeCalc w = 0 \/ PerfWatch.m_typeCalc w = 1))).
  { unfold PerfWatch.statsSwitch.
    destruct (Z.ltb_spec 0 (number hwpc_group I_bandwidth));
      [right; split; [lia|left; eexists; eassumption]|].
    destruct (Z.ltb_spec 0 (number hwpc_group I_flops));
      [right; split; [lia|left; eexists; eassumption]|].
    destruct (Z.ltb_spec 0 (number hwpc_group I_vector));
      [right; split; [lia|left; eexists; eassumption]|].
    destruct (Z.ltb_spec 0 (number hwpc_group I_cache));
      [right; split; [lia|left; eexists; eassumption]|].
    destruct (Z.ltb_spec 0 (number hwpc_group I_cycle));
      [right; split; [lia|left; eexists; eassumption]|].
    destruct (Z.ltb_spec 0 (number hwpc_group I_loadstore));
      [right; split; [lia|left; eexists; eassumption]|].
    destruct (Z.eqb_spec (PerfWatch.m_typeCalc w) 0); [right; split; [lia|tauto]|].
    destruct (Z.eqb_spec (PerfWatch.m_typeCalc w) 1); [right; split; [lia|tauto]|].
    left. split; [reflexivity|]. split; [|tauto]. intros []; assumption. }
  destruct Hcases as [(Hm1 & Hnone & Ht0 & Ht1)|(Hrange & Hsome)].
  - rewrite Hm1. split; [lia|]. split; [tauto|]. split; [reflexivity|].
    split; intros Hne; contradiction.
  - split; [lia|]. split.
    { split; [lia|]. intros (Hnone & Ht0 & Ht1).
      destruct Hsome as [(g & Hg)|[Ht|Ht]]; [specialize (Hnone g); lia|tauto|tauto]. }
    split; [lia|].
    assert (Hval : In (PerfWatch.statsSwitch hwpc_group w) [0; 1; 2; 3; 4; 5; 6; 7]).
    { cbn. lia. }
    split; intros _.
    + intros unit'.
      cbn in Hval. repeat (destruct Hval as [<-|Hval]; [reflexivity|]). destruct Hval.
    + cbn in Hval.
      repeat (destruct Hval as [<-|Hval]; [vm_compute; reflexivity|]). destruct Hval.
Qed.

(** ** The registry of sections *)

Module RegistryFacts.
Import PerfMonitor PerfMonitorFacts.

Ltac pm_red := pm_cbn.
Ltac pm_red_in H := pm_cbn in H.

Section Facts.
Context (cfg : BuildConfig) (hwpc_group : hwpc_group_chooser)
        (papi : pmlib_papi_chooser).

(** [setProperties] with a label that is not blank, registered or not:
    the state it returns, member by member. *)
Lemma setProperties_spec pr label type excl m :
  wf m -> is_PMlib_enabled m = true -> label <> "" ->
  let id := default (m_nWatch m) (m_map_sections m !! label) in
  exists res arr w0,
    setProperties cfg papi pr label type excl m
    = Some (m |> set_my_thread (if OPENMP cfg then omp_get_thread_num pr else 0)
              |> set_m_map_sections
                   (match m_map_sections m !! label with
                    | Some _ => m_map_sections m
                    | None => <[label := m_nWatch m]> (m_map_sections m)
                    end)
              |> set_shared_map_sections
                   (match m_map_sections m !! label with
                    | Some _ => shared_map_sections m
                    | None => map_insert label (Z.of_nat (size (shared_map_sections m)))
                                (shared_map_sections m)
                    end)
              |> set_reserved_nWatch res
              |> set_is_exclusive_construct excl
              |> set_m_nWatch (m_nWatch m + 1)
              |> set_m_watchArray
                   (<[Z.to_nat id :=
                        PerfWatch.setProperties cfg papi pr label id type
                          (num_process m) (my_rank m) (num_threads m) excl w0]> arr),
            [])
    /\ 0 <= id <= m_nWatch m
    /\ m_nWatch m + 1 <= res
    /\ res = Z.of_nat (length arr)
    /\ arr !! Z.to_nat id = Some w0
    /\ (forall i, (i < Z.to_nat (m_nWatch m))%nat -> arr !! i = m_watchArray m !! i).
Proof.
  intros Hwf Hen Hl. cbv zeta.
  unfold setProperties. rewrite Hen, (eqb_label_nonempty _ Hl). cbn [negb].
  unfold find_section_object, add_section_object, add_shared_section.
  pm_cbn.
  destruct Hwf as [Hi Hn Hlen Hids Hinj].
  destruct (m_map_sections m !! label) as [k|] eqn:Hlk; cbn [from_option Datatypes.id].
  - pose proof (Hids _ _ Hlk) as Hid.
    replace (k <? 0) with false by (symmetry; apply Z.ltb_ge; lia).
    match goal with
    | |- context [grow ?M] => set (M1 := M)
    end.
    destruct (grow_if_needed M1 Hi Hn Hlen) as (res & arr & Hg & Hres & Hlen' & Harr).
    subst M1. pm_cbn. pm_cbn in Hg. rewrite Hg. cbn [mbind option_bind]. pm_cbn.
    pm_cbn in Harr. pm_cbn in Hres.
    unfold call_watch. rewrite watch_at_lookup by lia. pm_cbn.
    destruct (arr !! Z.to_nat k) as [w0|] eqn:Hw0.
    2: { apply lookup_ge_None in Hw0. lia. }
    exists res, arr, w0. split; [destruct m; reflexivity|].
    split; [lia|]. split; [exact Hres|]. split; [exact Hlen'|].
    split; [exact Hw0|exact Harr].
  - cbn [Z.ltb Z.compare].
    replace (map_insert label (m_nWatch m) (m_map_sections m))
      with (<[label := m_nWatch m]> (m_map_sections m))
      by (unfold map_insert; rewrite Hlk; reflexivity).
    match goal with
    | |- context [grow ?M] => set (M1 := M)
    end.
    destruct (grow_if_needed M1 Hi Hn Hlen) as (res & arr & Hg & Hres & Hlen' & Harr).
    subst M1. pm_cbn. pm_cbn in Hg. rewrite Hg. cbn [mbind option_bind]. pm_cbn.
    pm_cbn in Harr. pm_cbn in Hres.
    unfold call_watch. rewrite watch_at_lookup by lia. pm_cbn.
    destruct (arr !! Z.to_nat (m_nWatch m)) as [w0|] eqn:Hw0.
    2: { apply lookup_ge_None in Hw0. lia. }
    exists res, arr, w0. split; [destruct m; reflexivity|].
    split; [lia|]. split; [exact Hres|]. split; [exact Hlen'|].
    split; [exact Hw0|exact Harr].
Qed.

Lemma setProperties_wf pr label type excl m m' out :
  wf m -> is_PMlib_enabled m = true -> label <> "" ->
  setProperties cfg papi pr label type excl m = Some (m', out) ->
  wf m' /\ is_PMlib_enabled m' = true.
Proof.
  intros Hwf Hen Hl Heq.
  destruct (setProperties_spec pr label type excl m Hwf Hen Hl)
    as (res & arr & w0 & Hsp & Hid & Hres & Hlen & Hw0 & Harr).
  rewrite Hsp in Heq. injection Heq as <- <-.
  destruct Hwf as [Hi Hn Hlen0 Hids Hinj].
  split; [|exact Hen]. constructor; pm_cbn.
  - exact Hi.
  - lia.
  - rewrite length_insert. exact Hlen.
  - intros l id Hlk. destruct (m_map_sections m !! label) as [k|] eqn:Hk.
    + apply Hids in Hlk. lia.
    + destruct (decide (label = l)) as [<-|Hne].
      * rewrite lookup_insert_eq in Hlk. injection Hlk as <-. lia.
      * rewrite lookup_insert_ne in Hlk by exact Hne. apply Hids in Hlk. lia.
  - intros l1 l2 id H1 H2. destruct (m_map_sections m !! label) as [k|] eqn:Hk.
    + eapply Hinj; eauto.
    + destruct (decide (label = l1)) as [<-|Hne1];
        destruct (decide (label = l2)) as [<-|Hne2]; try reflexivity.
      * rewrite lookup_insert_eq in H1. injection H1 as <-.
        rewrite lookup_insert_ne in H2 by exact Hne2. apply Hids in H2. lia.
      * rewrite lookup_insert_eq in H2. injection H2 as <-.
        rewrite lookup_insert_ne in H1 by exact Hne1. apply Hids in H1. lia.
      * rewrite lookup_insert_ne in H1 by exact Hne1.
        rewrite lookup_insert_ne in H2 by exact Hne2. eapply Hinj; eauto.
Qed.

(** What [PerfWatch::setProperties] keeps. *)
Lemma watch_setProperties_keeps pr label id type nPEs rank nT excl w :
  let w' := PerfWatch.setProperties cfg papi pr label id type nPEs rank nT excl w in
  PerfWatch.m_time w' = PerfWatch.m_time w
  /\ PerfWatch.m_flop w' = PerfWatch.m_flop w
  /\ PerfWatch.m_startTime w' = PerfWatch.m_startTime w
  /\ PerfWatch.my_papi w'
     = (if PerfWatch.m_is_set w then PerfWatch.my_papi w else papi)
  /\ PerfWatch.m_is_set w' = true
  /\ PerfWatch.m_id w' = id.
Proof.
  destruct w. cbv zeta. unfold PerfWatch.setProperties.
  destruct (OPENMP cfg), m_is_set; repeat split; reflexivity.
Qed.

End Facts.

Lemma first_label_of_sound (mp : gmap string Z) id l :
  first_label_of mp id = Some l -> mp !! l = Some id.
Proof.
  unfold first_label_of. intros H.
  destruct (list_find (fun e : string * Z => e.2 = id) (entries mp)) as [[i [l' id']]|]
    eqn:Hfind; [|discriminate].
  cbn in H. injection H as ->.
  apply list_find_Some in Hfind as (Hlk & Hid & _). cbn in Hid. subst id'.
  apply elem_of_map_to_list.
  assert (Hin : (l, id) ∈ entries mp) by (eapply list_elem_of_lookup_2; exact Hlk).
  unfold entries in Hin. rewrite merge_sort_Permutation in Hin. exact Hin.
Qed.

Lemma first_label_of_None (mp : gmap string Z) id :
  (forall l, mp !! l <> Some id) -> first_label_of mp id = None.
Proof.
  intros Hno. unfold first_label_of.
  destruct (list_find (fun e : string * Z => e.2 = id) (entries mp)) as [[i [l id']]|]
    eqn:Hfind; [|reflexivity].
  exfalso. apply (Hno l). apply first_label_of_sound.
  unfold first_label_of. rewrite Hfind. reflexivity.
Qed.

Lemma first_label_of_complete (mp : gmap string Z) id l :
  mp !! l = Some id -> is_Some (first_label_of mp id).
Proof.
  intros H. unfold first_label_of.
  assert (Hin : (l, id) ∈ entries mp).
  { unfold entries. rewrite merge_sort_Permutation. apply elem_of_map_to_list. exact H. }
  destruct (list_find_elem_of (fun e : string * Z => e.2 = id) (entries mp) (l, id) Hin
              eq_refl) as [x ->].
  eexists. reflexivity.
Qed.

Lemma first_label_of_registered (mp : gmap string Z) id l :
  (forall l1 l2, mp !! l1 = Some id -> mp !! l2 = Some id -> l1 = l2) ->
  mp !! l = Some id -> first_label_of mp id = Some l.
Proof.
  intros Hinj H. destruct (first_label_of_complete mp id l H) as [l' Hl'].
  rewrite Hl'. f_equal. apply (Hinj l' l); [|exact H].
  apply first_label_of_sound, Hl'.
Qed.

End RegistryFacts.

(** X10: Registering a new label and looking it up again.  On an enabled
    monitor in its regular state, [setProperties] with a label that is
    neither blank nor registered prints nothing and gives the label the
    next free index: [find_section_object] returns it, the reverse
    lookup [loop_section_object] returns the label, the number of
    sections grows by one, the new Watch carries the label, the type
    and the exclusive flag, the label is in the shared map as well, and
    the indices and Watches of all other sections are as before. *)
Theorem register_then_find
    (cfg : BuildConfig) (papi : pmlib_papi_chooser) (pr : Probe)
    (label : string) (type : Z) (excl : bool) (m : PerfMonitor.t) :
  wf m -> PerfMonitor.is_PMlib_enabled m = true -> label <> "" ->
  PerfMonitor.find_section_object m label < 0 ->
  exists m',
    PerfMonitor.setProperties cfg papi pr label type excl m = Some (m', [])
    /\ wf m'
    /\ PerfMonitor.find_section_object m' label = PerfMonitor.m_nWatch m
    /\ PerfMonitor.m_nWatch m' = PerfMonitor.m_nWatch m + 1
    /\ (forall l, l <> label ->
          PerfMonitor.find_section_object m' l = PerfMonitor.find_section_object m l)
    /\ (forall p, PerfMonitor.loop_section_object (PerfMonitor.m_nWatch m) p m'
                  = (label, []))
    /\ is_Some (PerfMonitor.shared_map_sections m' !! label)
    /\ (exists w, PerfMonitor.watch_at m' (PerfMonitor.m_nWatch m) = Some w
                  /\ PerfWatch.m_label w = label /\ PerfWatch.m_typeCalc w = type
                  /\ PerfWatch.m_exclusive w = excl
                  /\ PerfWatch.m_id w = PerfMonitor.m_nWatch m)
    /\ (forall i, 0 <= i < PerfMonitor.m_nWatch m ->
          PerfMonitor.watch_at m' i = PerfMonitor.watch_at m i).
Proof.
  intros Hwf Hen Hl Hfind.
  assert (Hnone : PerfMonitor.m_map_sections m !! label = None).
  { unfold PerfMonitor.find_section_object in Hfind.
    destruct (PerfMonitor.m_map_sections m !! label) as [k|] eqn:Hk; [|reflexivity].
    pose proof (wf_ids m Hwf _ _ Hk). lia. }
  destruct (RegistryFacts.setProperties_spec cfg papi pr label type excl m Hwf Hen Hl)
    as (res & arr & w0 & Hsp & Hid & Hres & Hlen & Hw0 & Harr).
  cbv zeta in Hsp, Hw0. rewrite Hnone in Hsp, Hw0.
  cbn [from_option Datatypes.id] in Hsp, Hw0.
  eexists. split; [exact Hsp|].
  destruct (RegistryFacts.setProperties_wf cfg papi pr label type excl m _ _ Hwf Hen Hl Hsp)
    as [Hwf' _].
  split; [exact Hwf'|].
  pose proof (wf_nWatch m Hwf) as Hn.
  assert (Hmap : forall l,
            PerfMonitor.m_map_sections
              (PerfMonitor.set_m_map_sections
                 (<[label := PerfMonitor.m_nWatch m]> (PerfMonitor.m_map_sections m)) m)
            !! l
            = if decide (label = l) then Some (PerfMonitor.m_nWatch m)
              else PerfMonitor.m_map_sections m !! l).
  { intros l. RegistryFacts.pm_red. destruct (decide (label = l)) as [<-|Hne].
    - apply lookup_insert_eq.
    - apply lookup_insert_ne, Hne. }
  RegistryFacts.pm_red_in Hmap.
  split; [|split; [|split; [|split; [|split; [|split]]]]].
  - unfold PerfMonitor.find_section_object. RegistryFacts.pm_red.
    rewrite lookup_insert_eq. reflexivity.
  - reflexivity.
  - intros l Hne. unfold PerfMonitor.find_section_object. RegistryFacts.pm_red.
    rewrite lookup_insert_ne by congruence. reflexivity.
  - intros p. unfold PerfMonitor.loop_section_object. RegistryFacts.pm_red.
    rewrite (RegistryFacts.first_label_of_registered _ (PerfMonitor.m_nWatch m) label);
      [reflexivity| |apply lookup_insert_eq].
    intros l1 l2 H1 H2. eapply (wf_inj _ Hwf'); RegistryFacts.pm_red; eassumption.
  - RegistryFacts.pm_red. unfold PerfMonitor.map_insert.
    destruct (PerfMonitor.shared_map_sections m !! label) eqn:Hs.
    + rewrite Hs. eauto.
    + rewrite lookup_insert_eq. eauto.
  - eexists. rewrite PerfMonitorFacts.watch_at_lookup by lia. RegistryFacts.pm_red.
    rewrite list_lookup_insert_eq by (apply lookup_lt_Some in Hw0; exact Hw0).
    split; [reflexivity|].
    destruct (PerfWatchFacts.setProperties_fields cfg papi pr label
                (PerfMonitor.m_nWatch m) type (PerfMonitor.num_process m)
                (PerfMonitor.my_rank m) (PerfMonitor.num_threads m) excl w0)
      as (H1 & H2 & H3 & _).
    destruct (RegistryFacts.watch_setProperties_keeps cfg papi pr label
                (PerfMonitor.m_nWatch m) type (PerfMonitor.num_process m)
                (PerfMonitor.my_rank m) (PerfMonitor.num_threads m) excl w0)
      as (_ & _ & _ & _ & _ & H6).
    repeat split; assumption.
  - intros i Hi. rewrite !PerfMonitorFacts.watch_at_lookup by lia.
    RegistryFacts.pm_red.
    rewrite list_lookup_insert_ne by lia. apply Harr. lia.
Qed.

Lemma register_then_find_witness :
  exists m',
    PerfMonitor.setProperties cfg_serial PerfMonitor.papi_zero (probe_at 1) "A" COMM false
      monitor_initialized = Some (m', [])
    /\ PerfMonitor.find_section_object m' "A" = 1
    /\ PerfMonitor.loop_section_object 1 "" m' = ("A", [])
    /\ PerfMonitor.find_section_object m' "Root Section" = 0.
Proof.
  destruct monitor_initialized_wf as (Hwf & Hen & Hmap).
  assert (Hl : "A" <> "") by discriminate.
  assert (Hfind : PerfMonitor.find_section_object monitor_initialized "A" < 0)
    by (vm_compute; reflexivity).
  destruct (register_then_find cfg_serial PerfMonitor.papi_zero (probe_at 1) "A" COMM false
              monitor_initialized Hwf Hen Hl Hfind)
    as (m' & Heq & _ & Hf & _ & Hother & Hloop & _).
  exists m'. split; [exact Heq|]. split; [exact Hf|]. split; [apply Hloop|].
  rewrite Hother by discriminate. vm_compute. reflexivity.
Defined.

(** X11: [setProperties] with a label that is already registered.  The
    section keeps its index and its measurement (time, flop, call count,
    running state and, once set, its counters); type and exclusive flag
    are replaced.  But the number of sections is incremented all the
    same: the index [m_nWatch] of before now counts as a section
    although no label is mapped to it. *)
Theorem setProperties_on_registered_label
    (cfg : BuildConfig) (papi : pmlib_papi_chooser) (pr : Probe)
    (label : string) (type : Z) (excl : bool) (m : PerfMonitor.t)
    (id : Z) (w : PerfWatch.t) :
  wf m -> PerfMonitor.is_PMlib_enabled m = true -> label <> "" ->
  PerfMonitor.m_map_sections m !! label = Some id ->
  PerfMonitor.watch_at m id = Some w ->
  exists m' w',
    PerfMonitor.setProperties cfg papi pr label type excl m = Some (m', [])
    /\ wf m'
    /\ PerfMonitor.m_nWatch m' = PerfMonitor.m_nWatch m + 1
    /\ PerfMonitor.m_map_sections m' = PerfMonitor.m_map_sections m
    /\ PerfMonitor.shared_map_sections m' = PerfMonitor.shared_map_sections m
    /\ (forall l, PerfMonitor.find_section_object m' l <> PerfMonitor.m_nWatch m)
    /\ PerfMonitor.watch_at m' id = Some w'
    /\ PerfWatch.m_typeCalc w' = type /\ PerfWatch.m_exclusive w' = excl
    /\ PerfWatch.m_time w' = PerfWatch.m_time w
    /\ PerfWatch.m_flop w' = PerfWatch.m_flop w
    /\ PerfWatch.m_count w' = PerfWatch.m_count w
    /\ PerfWatch.m_started w' = PerfWatch.m_started w
    /\ PerfWatch.my_papi w'
       = (if PerfWatch.m_is_set w then PerfWatch.my_papi w else papi).
Proof.
  intros Hwf Hen Hl Hlk Hw.
  destruct (RegistryFacts.setProperties_spec cfg papi pr label type excl m Hwf Hen Hl)
    as (res & arr & w0 & Hsp & Hid & Hres & Hlen & Hw0 & Harr).
  cbv zeta in Hsp, Hw0. rewrite Hlk in Hsp, Hw0.
  cbn [from_option Datatypes.id] in Hsp, Hw0.
  pose proof (wf_ids m Hwf _ _ Hlk) as Hrange.
  assert (Hw0' : w0 = w).
  { rewrite PerfMonitorFacts.watch_at_lookup in Hw by lia.
    rewrite Harr in Hw0 by lia. congruence. }
  subst w0.
  eexists. eexists. split; [exact Hsp|].
  destruct (RegistryFacts.setProperties_wf cfg papi pr label type excl m _ _ Hwf Hen Hl Hsp)
    as [Hwf' _].
  split; [exact Hwf'|]. RegistryFacts.pm_red.
  split; [reflexivity|]. split; [reflexivity|]. split; [reflexivity|].
  split.
  { intros l Heq. unfold PerfMonitor.find_section_object in Heq.
    RegistryFacts.pm_red_in Heq.
    destruct (PerfMonitor.m_map_sections m !! l) as [k|] eqn:Hk.
    - pose proof (wf_ids m Hwf _ _ Hk). lia.
    - pose proof (wf_nWatch m Hwf). lia. }
  split.
  { rewrite PerfMonitorFacts.watch_at_lookup by lia. RegistryFacts.pm_red.
    apply list_lookup_insert_eq. apply lookup_lt_Some in Hw0. exact Hw0. }
  destruct (PerfWatchFacts.setProperties_fields cfg papi pr label id type
              (PerfMonitor.num_process m) (PerfMonitor.my_rank m)
              (PerfMonitor.num_threads m) excl w)
    as (_ & H2 & H3 & _ & H5 & _ & H7).
  destruct (RegistryFacts.watch_setProperties_keeps cfg papi pr label id type
              (PerfMonitor.num_process m) (PerfMonitor.my_rank m)
              (PerfMonitor.num_threads m) excl w)
    as (K1 & K2 & _ & K4 & _).
  repeat split; assumption.
Qed.

Lemma setProperties_on_registered_label_witness :
  exists m' w',
    PerfMonitor.setProperties cfg_serial PerfMonitor.papi_zero (probe_at 1)
      "Root Section" COMM true monitor_initialized = Some (m', [])
    /\ PerfMonitor.m_nWatch m' = 2
    /\ PerfMonitor.watch_at m' 0 = Some w'
    /\ PerfWatch.m_started w' = true
    /\ forall l, PerfMonitor.find_section_object m' l <> 1.
Proof.
  destruct monitor_initialized_wf as (Hwf & Hen & Hmap).
  assert (Hl : "Root Section" <> "") by discriminate.
  assert (Hlk : PerfMonitor.m_map_sections monitor_initialized !! "Root Section" = Some 0)
    by (rewrite Hmap; reflexivity).
  destruct (PerfMonitorFacts.watch_at_is_Some monitor_initialized 0 Hwf) as [w Hw];
    [vm_compute; split; [discriminate|reflexivity]|].
  destruct (setProperties_on_registered_label cfg_serial PerfMonitor.papi_zero (probe_at 1)
              "Root Section" COMM true monitor_initialized 0 w Hwf Hen Hl Hlk Hw)
    as (m' & w' & Heq & _ & Hn & _ & _ & Hfree & Hw' & _ & _ & _ & _ & _ & Hst & _).
  exists m', w'. split; [exact Heq|]. split; [exact Hn|]. split; [exact Hw'|].
  split; [|exact Hfree].
  rewrite Hst. assert (Hw2 : PerfMonitor.watch_at monitor_initialized 0
                            = Some (PerfWatch.set_m_started true w)).
  { rewrite Hw. f_equal. revert Hw. vm_compute. intros H. injection H as <-. reflexivity. }
  rewrite Hw in Hw2. injection Hw2 as Hw2. rewrite Hw2. reflexivity.
Defined.

(** ** Sequences of calls *)

Module CallFacts.
Import PerfMonitor PerfMonitorFacts.

Section Facts.
Context (cfg : BuildConfig) (hwpc_group : hwpc_group_chooser)
        (papi : pmlib_papi_chooser).

(** One call on an enabled monitor in its regular state. *)
Lemma call_wf c m :
  wf m -> is_PMlib_enabled m = true ->
  exists m' out,
    call cfg hwpc_group papi c m = Some (m', out)
    /\ wf m' /\ is_PMlib_enabled m' = true
    /\ (forall l i, m_map_sections m !! l = Some i -> m_map_sections m' !! l = Some i)
    /\ (match c with
        | Start _ l => l <> "" -> is_Some (m_map_sections m' !! l)
        | Stop _ _ _ _ => True
        end).
Proof.
  intros Hwf Hen. destruct c as [pr l|pr l f n]; cbn [call].
  - destruct (String.eqb_spec l "") as [->|Hl].
    + unfold start. rewrite Hen. cbn [negb String.eqb].
      eexists _, _. split; [reflexivity|]. split; [exact Hwf|]. split; [exact Hen|].
      split; [auto|]. intros H. exfalso. apply H. reflexivity.
    + destruct (start_spec cfg hwpc_group papi pr l m Hwf Hen Hl)
        as (m' & out & id & w & Heq & Hwf' & Hen' & _ & Hkeep & _ & Hreg & _).
      exists m', out. split; [exact Heq|]. split; [exact Hwf'|]. split; [exact Hen'|].
      split; [exact Hkeep|]. intros _. eauto.
  - destruct (String.eqb_spec l "") as [->|Hl].
    + unfold stop. rewrite Hen. cbn [negb String.eqb].
      eexists _, _. split; [reflexivity|]. split; [exact Hwf|]. split; [exact Hen|].
        split; [auto|exact I].
    + destruct (m_map_sections m !! l) as [id|] eqn:Hlk.
      * destruct (stop_spec cfg hwpc_group pr l f n m id Hwf Hen Hl Hlk)
          as (m' & out & b & Heq & Hwf' & Hen' & _ & Hmap & _).
        exists m', out. split; [exact Heq|]. split; [exact Hwf'|]. split; [exact Hen'|].
        split; [|exact I]. intros l' i. rewrite Hmap. auto.
      * unfold stop. rewrite Hen, (eqb_label_nonempty _ Hl). cbn [negb].
        unfold find_section_object. rewrite Hlk. cbn [Z.ltb Z.compare].
        eexists _, _. split; [reflexivity|]. split; [exact Hwf|]. split; [exact Hen|].
        split; [auto|exact I].
Qed.

End Facts.
End CallFacts.

(** X12: Whatever start and stop calls a program makes --- paired or not,
    nested or overlapping, with blank or unknown labels --- on an
    enabled monitor in the state [initialize] establishes, every call
    returns (no Watch outside the array is touched), the monitor stays
    in that state, registered labels keep their indices, and every
    non-blank label that was started is registered. *)
Theorem calls_never_leave_the_array
    (cfg : BuildConfig) (hwpc_group : hwpc_group_chooser) (papi : pmlib_papi_chooser)
    (cs : list Call) (m : PerfMonitor.t) :
  wf m -> PerfMonitor.is_PMlib_enabled m = true ->
  exists m' out,
    run_calls cfg hwpc_group papi cs m = Some (m', out)
    /\ wf m' /\ PerfMonitor.is_PMlib_enabled m' = true
    /\ (forall l i, PerfMonitor.m_map_sections m !! l = Some i ->
                    PerfMonitor.m_map_sections m' !! l = Some i)
    /\ (forall pr l, In (Start pr l) cs -> l <> "" ->
                     0 <= PerfMonitor.find_section_object m' l < PerfMonitor.m_nWatch m').
Proof.
  revert m. induction cs as [|c cs IH]; intros m Hwf Hen.
  - exists m, []. split; [reflexivity|]. split; [exact Hwf|]. split; [exact Hen|].
    split; [auto|]. intros pr l [].
  - destruct (CallFacts.call_wf cfg hwpc_group papi c m Hwf Hen)
      as (m1 & out1 & Heq1 & Hwf1 & Hen1 & Hkeep1 & Hreg1).
    destruct (IH m1 Hwf1 Hen1) as (m2 & out2 & Heq2 & Hwf2 & Hen2 & Hkeep2 & Hreg2).
    exists m2, (out1 ++ out2). split.
    { cbn [run_calls]. rewrite Heq1. cbn [mbind option_bind]. rewrite Heq2. reflexivity. }
    split; [exact Hwf2|]. split; [exact Hen2|]. split; [auto|].
    intros pr l [->|Hin] Hl.
    + destruct (Hreg1 Hl) as [i Hi]. apply Hkeep2 in Hi.
      unfold PerfMonitor.find_section_object. rewrite Hi.
      apply (wf_ids m2 Hwf2 _ _ Hi).
    + apply (Hreg2 pr l Hin Hl).
Qed.

Lemma calls_never_leave_the_array_witness :
  exists m' out,
    run_calls cfg_serial hwpc_user PerfMonitor.papi_zero
      [Stop (probe_at 1) "B" 0 1; Start (probe_at 2) "A"; Start (probe_at 3) "A";
       Start (probe_at 4) ""; Stop (probe_at 5) "Root Section" 0 1] monitor_initialized
    = Some (m', out)
    /\ 0 <= PerfMonitor.find_section_object m' "A" < PerfMonitor.m_nWatch m'
    /\ PerfMonitor.m_map_sections m' !! "Root Section" = Some 0.
Proof.
  destruct monitor_initialized_wf as (Hwf & Hen & Hmap).
  destruct (calls_never_leave_the_array cfg_serial hwpc_user PerfMonitor.papi_zero
              [Stop (probe_at 1) "B" 0 1; Start (probe_at 2) "A"; Start (probe_at 3) "A";
               Start (probe_at 4) ""; Stop (probe_at 5) "Root Section" 0 1]
              monitor_initialized Hwf Hen)
    as (m' & out & Heq & _ & _ & Hkeep & Hreg).
  exists m', out. split; [exact Heq|]. split.
  - apply (Hreg (probe_at 2) "A"); [right; left; reflexivity|discriminate].
  - apply Hkeep. rewrite Hmap. reflexivity.
Defined.

(** X13: With BYPASS_PMLIB in the environment, [initialize] clears the
    enabled flag and does nothing else --- no array is allocated, no
    Root section is registered or started --- and from then on every
    call of the API returns the monitor as it is and prints nothing;
    [save_pm_records] and [load_pm_records] leave the record file
    alone. *)
Theorem bypass_makes_every_call_a_no_op
    (cfg : BuildConfig) (hwpc_group : hwpc_group_chooser) (papi : pmlib_papi_chooser)
    (ie : PerfMonitor.InitEnv) (value : string) (pr0 : Probe) (inn : Z)
    (m0 : PerfMonitor.t) :
  PerfMonitor.BYPASS_PMLIB ie = Some value ->
  let m := PerfMonitor.set_is_PMlib_enabled false m0 in
  PerfMonitor.initialize cfg hwpc_group papi ie pr0 inn m0 = Some (m, [])
  /\ (forall cs, run_calls cfg hwpc_group papi cs m = Some (m, []))
  /\ (forall pr label type excl,
        PerfMonitor.setProperties cfg papi pr label type excl m = Some (m, []))
  /\ (forall on_master label, PerfMonitor.reset cfg on_master label m = Some (m, []))
  /\ (forall on_master, PerfMonitor.resetAll cfg on_master m = Some (m, []))
  /\ (forall pr, PerfMonitor.stopRoot cfg hwpc_group pr m = Some (m, []))
  /\ (forall a, PerfMonitor.gather_and_stats a m = Some m)
  /\ PerfMonitor.sort_m_order m = Some m
  /\ (forall file, PerfMonitor.save_pm_records m file = Some file
                   /\ PerfMonitor.load_pm_records m file = Some (m, file)).
Proof.
  intros Hby. cbv zeta.
  split; [unfold PerfMonitor.initialize; rewrite Hby; reflexivity|].
  set (m := PerfMonitor.set_is_PMlib_enabled false m0).
  assert (Hdis : PerfMonitor.is_PMlib_enabled m = false) by reflexivity.
  clearbody m.
  split.
  { induction cs as [|c cs IH]; [reflexivity|].
    cbn [run_calls].
    destruct c; cbn [call]; unfold PerfMonitor.start, PerfMonitor.stop;
      rewrite Hdis; cbn [negb mbind option_bind]; rewrite IH; reflexivity. }
  split; [intros; unfold PerfMonitor.setProperties; rewrite Hdis; reflexivity|].
  split; [intros; unfold PerfMonitor.reset; rewrite Hdis; reflexivity|].
  split; [intros; unfold PerfMonitor.resetAll; rewrite Hdis; reflexivity|].
  split; [intros; unfold PerfMonitor.stopRoot; rewrite Hdis; reflexivity|].
  split; [intros; unfold PerfMonitor.gather_and_stats; rewrite Hdis; reflexivity|].
  split; [unfold PerfMonitor.sort_m_order; rewrite Hdis; reflexivity|].
  intros file. unfold PerfMonitor.save_pm_records, PerfMonitor.load_pm_records.
  rewrite Hdis. split; reflexivity.
Qed.

Lemma bypass_makes_every_call_a_no_op_witness :
  let ie := {| PerfMonitor.BYPASS_PMLIB := Some "yes";
               PerfMonitor.HWPC_CHOOSER := None;
               PerfMonitor.MPI_Comm_rank := 0; PerfMonitor.MPI_Comm_size := 1;
               PerfMonitor.omp_get_max_threads := 1 |} in
  let m := PerfMonitor.set_is_PMlib_enabled false monitor_blank in
  PerfMonitor.initialize cfg_serial hwpc_user PerfMonitor.papi_zero ie (probe_at 0) 4
    monitor_blank = Some (m, [])
  /\ run_calls cfg_serial hwpc_user PerfMonitor.papi_zero
       [Start (probe_at 1) "A"; Stop (probe_at 2) "A" 0 1] m = Some (m, []).
Proof.
  cbv zeta.
  destruct (bypass_makes_every_call_a_no_op cfg_serial hwpc_user PerfMonitor.papi_zero
              {| PerfMonitor.BYPASS_PMLIB := Some "yes";
                 PerfMonitor.HWPC_CHOOSER := None;
                 PerfMonitor.MPI_Comm_rank := 0; PerfMonitor.MPI_Comm_size := 1;
                 PerfMonitor.omp_get_max_threads := 1 |}
              "yes" (probe_at 0) 4 monitor_blank eq_refl) as (Hinit & Hrun & _).
  split; [exact Hinit|apply Hrun].
Defined.

(** ** Reset and the Root section *)

(** X14: [PerfMonitor::reset] with a registered label zeroes the time, the
    call count and the flop count of that section, keeps its running
    state, and leaves every other Watch, the registry and the number of
    sections as they are; with an unknown label it changes nothing and
    reports the label through printDiag. *)
Theorem reset_touches_one_section
    (cfg : BuildConfig) (on_master : bool) (label : string) (m : PerfMonitor.t) :
  wf m -> PerfMonitor.is_PMlib_enabled m = true -> label <> "" ->
  (forall id w,
     PerfMonitor.m_map_sections m !! label = Some id ->
     PerfMonitor.watch_at m id = Some w ->
     exists m' w',
       PerfMonitor.reset cfg on_master label m = Some (m', [])
       /\ wf m'
       /\ PerfMonitor.watch_at m' id = Some w'
       /\ PerfWatch.m_time w' = 0%float /\ PerfWatch.m_count w' = 0
       /\ PerfWatch.m_flop w' = 0%float
       /\ PerfWatch.m_started w' = PerfWatch.m_started w
       /\ PerfWatch.m_startTime w' = PerfWatch.m_startTime w
       /\ (forall i, i <> id -> PerfMonitor.watch_at m' i = PerfMonitor.watch_at m i)
       /\ PerfMonitor.m_map_sections m' = PerfMonitor.m_map_sections m
       /\ PerfMonitor.m_nWatch m' = PerfMonitor.m_nWatch m)
  /\ (PerfMonitor.m_map_sections m !! label = None ->
      PerfMonitor.reset cfg on_master label m
      = Some (m, [PrintDiag "reset()"
                    ("label [" +:+ label
                     +:+ "] is undefined. This may lead to incorrect measurement.")])).
Proof.
  intros Hwf Hen Hl. split.
  - intros id w Hlk Hw.
    pose proof (wf_ids m Hwf _ _ Hlk) as Hid.
    unfold PerfMonitor.reset.
    rewrite Hen, (PerfMonitorFacts.eqb_label_nonempty _ Hl). cbn [negb].
    rewrite (PerfMonitorFacts.find_registered m label id Hlk).
    replace (id <? 0) with false by (symmetry; apply Z.ltb_ge; lia).
    destruct (PerfMonitorFacts.call_watch_spec id
                (fun w => (PerfWatch.reset cfg on_master w, [])) m Hwf Hid)
      as (w0 & Hw0 & ->).
    assert (w0 = w) by congruence. subst w0. cbn [fst snd].
    eexists. eexists. split; [reflexivity|].
    split; [apply PerfMonitorFacts.wf_set_watch, Hwf|].
    split.
    { rewrite PerfMonitorFacts.watch_at_lookup by lia. RegistryFacts.pm_red.
      apply list_lookup_insert_eq. pose proof (wf_length m Hwf).
      pose proof (wf_nWatch m Hwf). lia. }
    destruct (ResetFacts.reset_zero cfg on_master w) as (H1 & H2 & H3).
    destruct (ResetMoreFacts.reset_shape cfg on_master w) as (a & v & A & V & Hsh & _).
    split; [exact H1|]. split; [exact H2|]. split; [exact H3|].
    split; [rewrite Hsh; destruct w; reflexivity|].
    split; [rewrite Hsh; destruct w; reflexivity|].
    split; [|split; reflexivity].
    intros i Hi. unfold PerfMonitor.watch_at. RegistryFacts.pm_red.
    destruct (i <? 0) eqn:Hneg; [reflexivity|].
    apply list_lookup_insert_ne. apply Z.ltb_ge in Hneg. lia.
  - intros Hnone. unfold PerfMonitor.reset.
    rewrite Hen, (PerfMonitorFacts.eqb_label_nonempty _ Hl). cbn [negb].
    unfold PerfMonitor.find_section_object. rewrite Hnone. reflexivity.
Qed.

Lemma reset_touches_one_section_witness :
  PerfMonitor.reset cfg_serial true "nowhere" monitor_initialized
  = Some (monitor_initialized,
          [PrintDiag "reset()"
             "label [nowhere] is undefined. This may lead to incorrect measurement."]).
Proof.
  destruct monitor_initialized_wf as (Hwf & Hen & Hmap).
  assert (Hl : "nowhere" <> "") by discriminate.
  destruct (reset_touches_one_section cfg_serial true "nowhere" monitor_initialized
              Hwf Hen Hl) as [_ Hunknown].
  apply Hunknown. rewrite Hmap. reflexivity.
Defined.

(** X15: [stopRoot] stops the Root section once.  On an enabled monitor with
    at least one section it returns with the Root section inactive; if
    Root was active, Watch 0 has been stopped and no other Watch was
    touched; if it was not, nothing changed.  A second [stopRoot] ---
    [report] called again --- changes nothing and prints nothing. *)
Theorem stopRoot_stops_once
    (cfg : BuildConfig) (hwpc_group : hwpc_group_chooser) (pr pr' : Probe)
    (m : PerfMonitor.t) :
  wf m -> PerfMonitor.is_PMlib_enabled m = true -> 1 <= PerfMonitor.m_nWatch m ->
  exists m1 out,
    PerfMonitor.stopRoot cfg hwpc_group pr m = Some (m1, out)
    /\ wf m1
    /\ PerfMonitor.is_Root_active m1 = false
    /\ PerfMonitor.stopRoot cfg hwpc_group pr' m1 = Some (m1, [])
    /\ (PerfMonitor.is_Root_active m = false -> m1 = m /\ out = [])
    /\ (PerfMonitor.is_Root_active m = true ->
        exists w0,
          PerfMonitor.watch_at m 0 = Some w0
          /\ PerfMonitor.watch_at m1 0
             = Some (fst (PerfWatch.stop cfg hwpc_group pr 0 1 w0))
          /\ (forall i, i <> 0 -> PerfMonitor.watch_at m1 i = PerfMonitor.watch_at m i)).
Proof.
  intros Hwf Hen Hn. unfold PerfMonitor.stopRoot. rewrite Hen. cbn [negb].
  destruct (PerfMonitor.is_Root_active m) eqn:Hact.
  - destruct (PerfMonitorFacts.call_watch_spec 0
                (PerfWatch.stop cfg hwpc_group pr 0 1) m Hwf ltac:(lia))
      as (w0 & Hw0 & ->).
    cbn [mbind option_bind]. eexists. eexists. split; [reflexivity|].
    split.
    { pose proof (PerfMonitorFacts.wf_set_watch m (Z.to_nat 0)
                    (fst (PerfWatch.stop cfg hwpc_group pr 0 1 w0)) Hwf) as [H1 H2 H3 H4 H5].
      constructor; assumption. }
    RegistryFacts.pm_red. rewrite Hen. cbn [negb].
    split; [reflexivity|]. split; [reflexivity|]. split; [discriminate|].
    intros _. exists w0. split; [exact Hw0|]. split.
    + rewrite PerfMonitorFacts.watch_at_lookup by lia. RegistryFacts.pm_red.
      apply list_lookup_insert_eq. pose proof (wf_length m Hwf).
      pose proof (wf_nWatch m Hwf). lia.
    + intros i Hi. unfold PerfMonitor.watch_at. RegistryFacts.pm_red.
      destruct (i <? 0) eqn:Hneg; [reflexivity|].
      apply list_lookup_insert_ne. apply Z.ltb_ge in Hneg. lia.
  - exists m, []. split; [reflexivity|]. split; [exact Hwf|].
    split; [exact Hact|]. rewrite Hen, Hact. cbn [negb].
    split; [reflexivity|]. split; [auto|discriminate].
Qed.

Lemma stopRoot_stops_once_witness :
  exists m1 out,
    PerfMonitor.stopRoot cfg_serial hwpc_user (probe_at 6) monitor_initialized
    = Some (m1, out)
    /\ PerfMonitor.stopRoot cfg_serial hwpc_user (probe_at 9) m1 = Some (m1, [])
    /\ section_field PerfWatch.m_count m1 "Root Section" = Some 1.
Proof.
  destruct monitor_initialized_wf as (Hwf & Hen & Hmap).
  assert (Hn : 1 <= PerfMonitor.m_nWatch monitor_initialized) by (vm_compute; discriminate).
  destruct (stopRoot_stops_once cfg_serial hwpc_user (probe_at 6) (probe_at 9)
              monitor_initialized Hwf Hen Hn)
    as (m1 & out & Heq & _ & _ & Htwice & _).
  exists m1, out. split; [exact Heq|]. split; [exact Htwice|].
  revert Heq. vm_compute. intros H. injection H as <- _. reflexivity.
Defined.
